(** * servico-usuarios: the user handlers of [api/index.py]

    A shallow embedding of the four request handlers ([create_user],
    [get_user], [update_user], [delete_user]) and of [publish_event],
    together with the three collaborators they drive: the Firestore
    collection [users], the SQLAlchemy session over the table
    [user_locations], and the Kafka producer.

    The handlers are written in a small state-and-exception monad whose
    runs also return the trace of the collaborator calls they made, so
    that ordering properties ("commit only after the document write")
    and counting properties ("exactly one publish") are statements about
    the code. *)

From stdpp Require Import gmap strings list.
From Stdlib Require Import ZArith Ascii DecimalString DecimalPos DecimalN DecimalZ.
From Stdlib Require QArith Qpower.

Set Warnings "-register-all".

(** ** Python values

    The values a request body, a Firestore document or an event can hold.
    [VFloat r] is the float whose [repr] is the numeral [r]: Python prints
    a float with the shortest numeral that reads back to the same float,
    so a float and its [repr] determine each other ([Float.repr]).  [VServerTimestamp] is
    the sentinel [firestore.SERVER_TIMESTAMP]; [VDatetime] is what the
    store puts in its place. *)

Inductive pyval : Type :=
| VNone
| VBool (b : bool)
| VInt (z : Z)
| VFloat (repr : string)
| VStr (s : string)
| VList (l : list pyval)
| VDict (d : gmap string pyval)
| VServerTimestamp
| VDatetime (t : string).

Inductive exn : Type :=
| TypeError
| AttributeError
| KeyError
| ShapeError          (* raised by to_shape on a value it cannot read *)
| GoogleAPIError      (* any exception of the Firestore client *)
| SQLAlchemyError.

Inductive outcome (A : Type) : Type :=
| Ret (a : A)
| Raise (e : exn).
Arguments Ret {A} a.
Arguments Raise {A} e.

Module Py.

(** [str(z)] for an int. *)
Definition str_int (z : Z) : string := NilZero.string_of_int (Z.to_int z).

(** [bool(v)], as used by [not v] and [if v]. *)
Definition truthy (v : pyval) : bool :=
  match v with
  | VNone => false
  | VBool b => b
  | VInt z => negb (z =? 0)%Z
  | VFloat r => negb (String.eqb r "0.0" || String.eqb r "-0.0")
  | VStr s => negb (String.eqb s "")
  | VList l => negb (Nat.eqb (length l) 0)
  | VDict d => negb (Nat.eqb (size d) 0)
  | VServerTimestamp => true
  | VDatetime _ => true
  end.

(** [k in s] for two strings: [k] occurs in [s]. *)
Fixpoint is_infix (k s : string) : bool :=
  String.prefix k s ||
  match s with
  | EmptyString => false
  | String _ s' => is_infix k s'
  end.

(** [k in v] for a string [k]: key membership for a dict, element
    membership for a list, substring for a string; the other values are
    not iterable. *)
Definition contains (k : string) (v : pyval) : outcome bool :=
  match v with
  | VDict d => Ret (bool_decide (is_Some (d !! k)))
  | VList l =>
      Ret (existsb (fun x => match x with
                             | VStr s => String.eqb s k
                             | _ => false
                             end) l)
  | VStr s => Ret (is_infix k s)
  | _ => Raise TypeError
  end.

(** [v.copy()]. *)
Definition copy (v : pyval) : outcome pyval :=
  match v with
  | VDict _ | VList _ => Ret v
  | _ => Raise AttributeError
  end.

(** [v.pop(k, None)]: the popped value and [v] afterwards.  A list
    takes at most one argument to [pop]. *)
Definition pop (k : string) (v : pyval) : outcome (pyval * pyval) :=
  match v with
  | VDict d => Ret (default VNone (d !! k), VDict (delete k d))
  | VList _ => Raise TypeError
  | _ => Raise AttributeError
  end.

(** [v[k] = x]: [v] afterwards. *)
Definition setitem (k : string) (x : pyval) (v : pyval) : outcome pyval :=
  match v with
  | VDict d => Ret (VDict (<[k := x]> d))
  | _ => Raise TypeError
  end.

(** [v[k]] for a string [k]. *)
Definition getitem (k : string) (v : pyval) : outcome pyval :=
  match v with
  | VDict d => match d !! k with
               | Some x => Ret x
               | None => Raise KeyError
               end
  | _ => Raise TypeError
  end.

Section Format.
(** What an f-string prints for a list, a dict or a Firestore value.
    Python quotes and escapes the strings inside a container by rules
    that depend on the Unicode database; that text is a parameter. *)
Variable str_other : pyval -> string.

(** [f'{v}']. *)
Definition str (v : pyval) : string :=
    match v with
    | VNone => "None"
    | VBool true => "True"
    | VBool false => "False"
    | VInt z => str_int z
    | VFloat r => r
    | VStr s => s
    | _ => str_other v
    end.
End Format.

End Py.

(** ** Floats

    A Python float is an IEEE 754 binary64 value, and the table keeps a
    coordinate as one.  A text becomes a float when the reader of the
    table parses it, and a float becomes a text again when [repr]
    prints it: [parse] is the correctly rounded reader of decimal
    numerals ([strtod]), [repr] the printer of Python. *)

Module Float.

(** A binary64 value other than a NaN: [(-1)^neg * mant * 2^expo], or an
    infinity. *)
Inductive t : Type :=
| Finite (neg : bool) (mant expo : Z)
| Infinity (neg : bool).

Definition emin : Z := -1074.
Definition emax : Z := 971.

(** The finite floats, each written in one way: 53 bits of mantissa,
    normalised unless the exponent is the least one. *)
Definition finite (x : t) : bool :=
  match x with
  | Finite _ m e =>
      (0 <=? m)%Z && (m <? 2 ^ 53)%Z && (emin <=? e)%Z && (e <=? emax)%Z
      && ((2 ^ 52 <=? m)%Z || (e =? emin)%Z)
  | Infinity _ => false
  end.

Definition eqb (x y : t) : bool :=
  match x, y with
  | Finite s m e, Finite s' m' e' => Bool.eqb s s' && (m =? m')%Z && (e =? e')%Z
  | Infinity s, Infinity s' => Bool.eqb s s'
  | _, _ => false
  end.

(** The rational a finite float is. *)
Definition to_Q (x : t) : option QArith_base.Q :=
  match x with
  | Finite s m e =>
      Some (QArith_base.Qmult (QArith_base.inject_Z (if s then - m else m))
                              (QArith_base.Qpower (QArith_base.inject_Z 2) e))
  | Infinity _ => None
  end.

(** The float [x] is the integer [z]. *)
Definition has_value (x : t) (z : Z) : Prop :=
  match to_Q x with
  | Some q => QArith_base.Qeq q (QArith_base.inject_Z z)
  | None => False
  end.

(** *** Rounding *)

(** The largest [t] with [base^t <= a/b], for [a] and [b] positive, from
    an estimate [t0] that is [t] or its successor.  The powers are kept
    on the side where their exponent is not negative. *)
Definition floor_log (base t0 a b : Z) : Z :=
  if (b * base ^ Z.max 0 t0 <=? a * base ^ Z.max 0 (- t0))%Z
  then t0 else (t0 - 1)%Z.

Definition floor_log2 (a b : Z) : Z := floor_log 2 (Z.log2 a - Z.log2 b) a b.

(** [n/d] rounded to the nearest integer, a tie to the even one. *)
Definition round_half_even (n d : Z) : Z :=
  let q := (n / d)%Z in
  let r := (n mod d)%Z in
  if (2 * r <? d)%Z then q
  else if (d <? 2 * r)%Z then (q + 1)%Z
  else if Z.even q then q else (q + 1)%Z.

(** The float nearest to [a/b], for [a] and [b] positive: the exponent
    that leaves 53 bits of mantissa, or the least exponent; an infinity
    beyond the largest float. *)
Definition round_ratio (neg : bool) (a b : Z) : t :=
  let e := Z.max emin (floor_log2 a b - 52) in
  let m := round_half_even (a * 2 ^ Z.max 0 (- e)) (b * 2 ^ Z.max 0 e) in
  let e' := if (m =? 2 ^ 53)%Z then (e + 1)%Z else e in
  let m' := if (m =? 2 ^ 53)%Z then (2 ^ 52)%Z else m in
  if (emax <? e')%Z then Infinity neg else Finite neg m' e'.

(** The float nearest to [d * 10^k], for [d] not negative. *)
Definition of_decimal (neg : bool) (d k : Z) : t :=
  if (d =? 0)%Z then Finite neg 0 emin
  else if (0 <=? k)%Z then round_ratio neg (d * 10 ^ k) 1
  else round_ratio neg d (10 ^ (- k)).

(** The float nearest to the int [z]. *)
Definition of_Z (z : Z) : t := of_decimal (z <? 0)%Z (Z.abs z) 0.

(** *** Numerals *)

Definition is_digit (c : ascii) : bool :=
  (48 <=? nat_of_ascii c)%nat && (nat_of_ascii c <=? 57)%nat.

(** The digits a text starts with, and the rest of it. *)
Fixpoint take_digits (s : string) : string * string :=
  match s with
  | String c s' =>
      if is_digit c
      then match take_digits s' with
           | (a, b) => (String c a, b)
           end
      else (EmptyString, s)
  | EmptyString => (EmptyString, EmptyString)
  end.

(** The number a run of digits stands for. *)
Definition digits_value (s : string) : Z :=
  match NilEmpty.uint_of_string s with
  | Some u => Z.of_N (N.of_uint u)
  | None => 0
  end.

(** The digits of a number that is not negative. *)
Definition digits_of (n : Z) : string :=
  NilEmpty.string_of_uint (N.to_uint (Z.to_N n)).

Definition take_sign (s : string) : bool * string :=
  match s with
  | String "-" s' => (true, s')
  | String "+" s' => (false, s')
  | _ => (false, s)
  end.

(** The exponent of a numeral, [e+16] or [e-07], or none. *)
Definition exponent (s : string) : option Z :=
  match s with
  | EmptyString => Some 0%Z
  | String c s' =>
      if Ascii.eqb c "e" || Ascii.eqb c "E" then
        match take_sign s' with
        | (neg, s'') =>
            match take_digits s'' with
            | (String c' ds, EmptyString) =>
                let k := digits_value (String c' ds) in
                Some (if neg : bool then (- k)%Z else k)
            | _ => None
            end
        end
      else None
  end.

(** A decimal numeral read as the float nearest to it: [-23.5], [100],
    [1e-05], [1.5e+16].  Any other text is no numeral. *)
Definition parse (s : string) : option t :=
  match take_sign s with
  | (neg, s1) =>
      match take_digits s1 with
      | (ip, s2) =>
          match (match s2 with
                 | String "." s' => take_digits s'
                 | _ => (EmptyString, s2)
                 end) with
          | (fp, s3) =>
              match ip +:+ fp with
              | EmptyString => None
              | String _ _ =>
                  match exponent s3 with
                  | Some k =>
                      Some (of_decimal neg (digits_value (ip +:+ fp))
                                       (k - Z.of_nat (String.length fp)))
                  | None => None
                  end
              end
          end
      end
  end.

(** *** [repr] *)

Definition floor_log10 (a b : Z) : Z :=
  floor_log 10
    (Z.of_nat (String.length (digits_of a))
     - Z.of_nat (String.length (digits_of b)))
    a b.

(** The numerals of [p] digits next to [m * 2^e], the nearer first, each
    as its digits [d] and its exponent [k]: [d * 10^k]. *)
Definition candidates (m e : Z) (p : nat) : list (Z * Z) :=
  let a := (m * 2 ^ Z.max 0 e)%Z in
  let b := (2 ^ Z.max 0 (- e))%Z in
  let k := (floor_log10 a b - (Z.of_nat p - 1))%Z in
  let n := (a * 10 ^ Z.max 0 (- k))%Z in
  let d := (b * 10 ^ Z.max 0 k)%Z in
  let q := (n / d)%Z in
  let near := round_half_even n d in
  let other := if (near =? q)%Z then (q + 1)%Z else q in
  let carry := fun c : Z =>
    if (c =? 10 ^ Z.of_nat p)%Z
    then ((10 ^ (Z.of_nat p - 1))%Z, (k + 1)%Z) else (c, k) in
  if (n mod d =? 0)%Z then [(q, k)] else [carry near; carry other].

Fixpoint zeros (n : nat) : string :=
  match n with
  | O => EmptyString
  | S n' => String "0" (zeros n')
  end.

(** The digits without the zeros they end with. *)
Fixpoint strip_zeros (s : string) : string :=
  match s with
  | EmptyString => EmptyString
  | String c s' =>
      match strip_zeros s' with
      | EmptyString => if Ascii.eqb c "0" then EmptyString else String c EmptyString
      | r => String c r
      end
  end.

(** The numeral [repr] prints for [d * 10^k], [d] positive: positional
    when the point stands at most three zeros before the first digit
    and at most sixteen digits after it, with an exponent of at least
    two digits otherwise. *)
Definition numeral (neg : bool) (d k : Z) : string :=
  let all := digits_of d in
  let digits := strip_zeros all in
  let n := String.length digits in
  let decpt := (k + Z.of_nat (String.length all))%Z in
  let body :=
    if (-4 <? decpt)%Z && (decpt <=? 16)%Z then
      if (decpt <=? 0)%Z then "0." +:+ zeros (Z.to_nat (- decpt)) +:+ digits
      else if (Z.of_nat n <=? decpt)%Z
           then digits +:+ zeros (Z.to_nat decpt - n) +:+ ".0"
           else String.substring 0 (Z.to_nat decpt) digits +:+ "."
                +:+ String.substring (Z.to_nat decpt) (n - Z.to_nat decpt) digits
    else
      let ex := (decpt - 1)%Z in
      let mant :=
        match digits with
        | String c EmptyString => digits
        | String c rest => String c (String "." rest)
        | EmptyString => digits
        end in
      mant +:+ "e" +:+ (if (ex <? 0)%Z then "-" else "+")
           +:+ (if (Z.abs ex <? 10)%Z then "0" else "")
           +:+ digits_of (Z.abs ex) in
  (if neg : bool then "-" else "") +:+ body.

Definition reads_back (x : t) (s : string) : bool :=
  match parse s with
  | Some y => eqb y x
  | None => false
  end.

(** The numeral of [m * 2^e] written out in full. *)
Definition exact_numeral (neg : bool) (m e : Z) : string :=
  (if neg : bool then "-" else "")
  +:+ (if (0 <=? e)%Z then digits_of (m * 2 ^ e)
       else digits_of (m * 5 ^ (- e)) +:+ "e-" +:+ digits_of (- e)).

(** [repr(x)]: the shortest numeral that reads back as [x], and of two
    of one length the nearer.  Python finds it among the numerals of at
    most seventeen digits; should none of these read back, the numeral
    is written out in full. *)
Definition repr (x : t) : string :=
  match x with
  | Infinity neg => if neg then "-inf" else "inf"
  | Finite neg m e =>
      if (m =? 0)%Z then (if neg then "-0.0" else "0.0")
      else
        match List.find (reads_back x)
                (flat_map (fun p => List.map (fun c => numeral neg (fst c) (snd c))
                                             (candidates m e p))
                          (seq 1 17)) with
        | Some s => s
        | None => exact_numeral neg m e
        end
  end.

End Float.

(** ** Well-known text

    The handlers write a point as the text [POINT(<lon> <lat>)]
    (index.py, lines 200 and 261).  [to_shape] is geoalchemy2's reader,
    which the handlers only call: it is modelled on the texts the
    handlers write, reads each of the two numerals as the float nearest
    to it, and raises on anything else. *)

Module Wkt.

Definition wkt_point (lon lat : string) : string :=
  "POINT(" +:+ lon +:+ " " +:+ lat +:+ ")".

(** A shapely point: both coordinates are floats, each held as its
    [repr], as [VFloat] holds it. *)
Record point : Type := Point { x : string; y : string }.

(** One coordinate of the text, read as a float. *)
Definition read_coordinate (tok : string) : option string :=
  option_map Float.repr (Float.parse tok).

Fixpoint strip_prefix (p s : string) : option string :=
  match p, s with
  | EmptyString, _ => Some s
  | String a p', String b s' =>
      if Ascii.eqb a b then strip_prefix p' s' else None
  | String _ _, EmptyString => None
  end.

(** The text up to the first space, and the text after it. *)
Fixpoint split_space (s : string) : option (string * string) :=
  match s with
  | EmptyString => None
  | String c s' =>
      if Ascii.eqb c " "%char then Some (EmptyString, s')
      else
        match split_space s' with
        | Some (a, b) => Some (String c a, b)
        | None => None
        end
  end.

(** The text without its closing parenthesis. *)
Fixpoint strip_close (s : string) : option string :=
  match s with
  | EmptyString => None
  | String c EmptyString =>
      if Ascii.eqb c ")"%char then Some EmptyString else None
  | String c s' =>
      match strip_close s' with
      | Some r => Some (String c r)
      | None => None
      end
  end.

Definition to_shape (wkt : string) : outcome point :=
  match strip_prefix "POINT(" wkt with
  | Some body =>
      match split_space body with
      | Some (a, rest) =>
          match strip_close rest with
          | Some b =>
              match read_coordinate a, read_coordinate b with
              | Some px, Some py => Ret (Point px py)
              | _, _ => Raise ShapeError
              end
          | None => Raise ShapeError
          end
      | None => Raise ShapeError
      end
  | None => Raise ShapeError
  end.

End Wkt.

(** ** The collaborators *)

(** A row of the table [user_locations] (class [UserLocation]):
    [user_id] is the primary key, [location] holds the point as the
    handlers assign it, a WKT text. *)
Module UserLocation.
Record t : Type := New { user_id : string; location : string }.
End UserLocation.

(** A message handed to the Kafka producer by [producer.produce]. *)
Record message : Type :=
  Message { topic : string; key : string; value : gmap string pyval }.

(** The state the handlers share.  [db], [db_session] and [producer]
    tell whether the module-level handle of that name was initialised
    (is not [None]).  [user_locations] holds the committed rows of the
    table; [session_rows] holds the rows as the session's open
    transaction sees them, and equals [user_locations] when nothing is
    pending. *)
Record world : Type := World {
  db : bool;
  db_session : bool;
  producer : bool;
  users : gmap string (gmap string pyval);
  user_locations : list UserLocation.t;
  session_rows : list UserLocation.t;
  produced : list message
}.

Definition with_users (u : gmap string (gmap string pyval)) (w : world) : world :=
  World (db w) (db_session w) (producer w) u
        (user_locations w) (session_rows w) (produced w).

Definition with_user_locations (t : list UserLocation.t) (w : world) : world :=
  World (db w) (db_session w) (producer w) (users w)
        t (session_rows w) (produced w).

Definition with_session_rows (t : list UserLocation.t) (w : world) : world :=
  World (db w) (db_session w) (producer w) (users w)
        (user_locations w) t (produced w).

Definition with_produced (p : list message) (w : world) : world :=
  World (db w) (db_session w) (producer w) (users w)
        (user_locations w) (session_rows w) p.

(** What one request takes from outside the state: the identifier
    [uuid.uuid4()] returns, the two clock readings, which collaborator
    calls raise, and the text Python prints for a container
    (see [Py.str]). *)
Record env : Type := Env {
  uuid4 : string;
  server_timestamp : string;
  utc_now : string;
  get_raises : bool;       (* DocumentReference.get *)
  set_raises : bool;       (* DocumentReference.set *)
  update_raises : bool;    (* DocumentReference.update *)
  delete_raises : bool;    (* DocumentReference.delete *)
  query_raises : bool;     (* Session.query(...).first *)
  commit_raises : bool;    (* Session.commit *)
  execute_raises : bool;   (* Session.execute *)
  produce_raises : bool;   (* json.dumps, Producer.produce, Producer.poll *)
  str_other : pyval -> string
}.

(** The calls a handler makes on its collaborators. *)
Inductive call : Type :=
| DocGet (id : string)
| DocSet (id : string) (data : pyval)
| DocUpdate (id : string) (data : pyval)
| DocDelete (id : string)
| SessionAdd (r : UserLocation.t)
| SessionQuery (id : string)
| SessionAssign (id : string) (wkt : string)
| SessionDelete (id : string)
| SessionCommit
| SessionRollback
| SessionExecute
| PublishEvent (topic event_type user_id : string) (data : pyval)
| Produce (m : message).

(** A call that returned, or a call that raised. *)
Inductive entry : Type :=
| Done (c : call)
| Failed (c : call).

(** ** The monad of the handlers: state, exceptions, trace *)

Record run (A : Type) : Type :=
  Run { out : outcome A; final : world; trace : list entry }.
Arguments Run {A} out final trace.
Arguments out {A} r.
Arguments final {A} r.
Arguments trace {A} r.

Definition M (A : Type) : Type := world -> run A.

Definition ret {A} (a : A) : M A := fun w => Run (Ret a) w [].

Definition raise {A} (e : exn) : M A := fun w => Run (Raise e) w [].

Definition bind {A B} (m : M A) (f : A -> M B) : M B :=
  fun w =>
    match m w with
    | Run (Ret a) w1 t1 =>
        match f a w1 with
        | Run o w2 t2 => Run o w2 (t1 ++ t2)
        end
    | Run (Raise e) w1 t1 => Run (Raise e) w1 t1
    end.

(** [try: m except Exception as e: h e]. *)
Definition try_except {A} (m : M A) (h : exn -> M A) : M A :=
  fun w =>
    match m w with
    | Run (Ret a) w1 t1 => Run (Ret a) w1 t1
    | Run (Raise e) w1 t1 =>
        match h e w1 with
        | Run o w2 t2 => Run o w2 (t1 ++ t2)
        end
    end.

(** The result of a pure Python operation. *)
Definition lift {A} (o : outcome A) : M A := fun w => Run o w [].

Definition get_world : M world := fun w => Run (Ret w) w [].

Declare Scope py_scope.
Delimit Scope py_scope with py.
Notation "x <- m ;; k" := (bind m (fun x => k))
  (at level 100, m at next level, right associativity) : py_scope.
Notation "m ;; k" := (bind m (fun _ => k))
  (at level 100, right associativity) : py_scope.
Open Scope py_scope.

(** *** Firestore: [db.collection('users').document(id)] *)

(** The store replaces the sentinel by its own clock reading. *)
Definition resolve (e : env) (data : gmap string pyval) : gmap string pyval :=
  (fun v => match v with
            | VServerTimestamp => VDatetime (server_timestamp e)
            | _ => v
            end) <$> data.

(** [.get()]: the snapshot, [None] when [exists] is false. *)
Definition doc_get (e : env) (id : string) : M (option (gmap string pyval)) :=
  fun w =>
    if get_raises e then Run (Raise GoogleAPIError) w [Failed (DocGet id)]
    else Run (Ret (users w !! id)) w [Done (DocGet id)].

(** [.set(data)]: creates or replaces the document. *)
Definition doc_set (e : env) (id : string) (data : pyval) : M unit :=
  fun w =>
    match data with
    | VDict d =>
        if set_raises e then Run (Raise GoogleAPIError) w [Failed (DocSet id data)]
        else Run (Ret tt) (with_users (<[id := resolve e d]> (users w)) w)
                 [Done (DocSet id data)]
    | _ => Run (Raise TypeError) w [Failed (DocSet id data)]
    end.

(** A key of [.update] is a field path: its elements are separated by
    dots, and [a.b] names the field [b] of the map held by the field
    [a].  The elements are taken as they stand: an element written
    between backticks is not unquoted, and what the documents hold is
    stated for keys whose elements are names ([field_paths]). *)
Fixpoint field_path (key : string) : list string :=
  match key with
  | EmptyString => [EmptyString]
  | String c rest =>
      if Ascii.eqb c "."
      then EmptyString :: field_path rest
      else match field_path rest with
           | first :: others => String c first :: others
           | [] => [String c EmptyString]
           end
  end.

(** The document with [v] written at a path.  A map on the way to the
    field is created when the document has none there. *)
Fixpoint write_field (path : list string) (v : pyval) (doc : gmap string pyval)
    : gmap string pyval :=
  match path with
  | [] => doc
  | name :: rest =>
      match rest with
      | [] => <[name := v]> doc
      | _ :: _ =>
          <[name := VDict (write_field rest v
                             match doc !! name with
                             | Some (VDict inner) => inner
                             | _ => ∅
                             end)]> doc
      end
  end.

(** The document after [.update(fields)]: each value written at the path
    its key names, and every other field kept. *)
Definition update_document (fields old : gmap string pyval) : gmap string pyval :=
  map_fold (fun key v doc => write_field (field_path key) v doc) old fields.

(** [.update(data)]: writes the fields into the document, which must
    exist.  The client refuses a key with an empty element, and two keys
    of which one continues the other; like every refusal of the client
    and of the store, that is an [update] that raises
    ([update_raises]). *)
Definition doc_update (e : env) (id : string) (data : pyval) : M unit :=
  fun w =>
    match data, users w !! id with
    | VDict d, Some old =>
        if update_raises e
        then Run (Raise GoogleAPIError) w [Failed (DocUpdate id data)]
        else Run (Ret tt)
                 (with_users (<[id := update_document (resolve e d) old]> (users w)) w)
                 [Done (DocUpdate id data)]
    | VDict _, None => Run (Raise GoogleAPIError) w [Failed (DocUpdate id data)]
    | _, _ => Run (Raise TypeError) w [Failed (DocUpdate id data)]
    end.

(** [.delete()]: succeeds whether or not the document exists. *)
Definition doc_delete (e : env) (id : string) : M unit :=
  fun w =>
    if delete_raises e then Run (Raise GoogleAPIError) w [Failed (DocDelete id)]
    else Run (Ret tt) (with_users (delete id (users w)) w) [Done (DocDelete id)].

(** *** The SQLAlchemy session [db_session] *)

Definition has_id (id : string) (r : UserLocation.t) : bool :=
  String.eqb (UserLocation.user_id r) id.

(** [db_session.add(r)]: the insert is pending until the commit. *)
Definition session_add (r : UserLocation.t) : M unit :=
  fun w => Run (Ret tt) (with_session_rows (session_rows w ++ [r]) w)
               [Done (SessionAdd r)].

(** [db_session.query(UserLocation).filter_by(user_id=id).first()]. *)
Definition session_query_first (e : env) (id : string) : M (option UserLocation.t) :=
  fun w =>
    if query_raises e then Run (Raise SQLAlchemyError) w [Failed (SessionQuery id)]
    else Run (Ret (List.find (has_id id) (session_rows w))) w [Done (SessionQuery id)].

(** The table after [UPDATE user_locations SET location = wkt WHERE
    user_id = id]. *)
Definition assign_location (id wkt : string) (rows : list UserLocation.t)
    : list UserLocation.t :=
  List.map (fun r' => if has_id id r' then UserLocation.New id wkt else r') rows.

(** [r.location = wkt] on a record the session returned: an update of
    the row with that primary key. *)
Definition session_assign (r : UserLocation.t) (wkt : string) : M unit :=
  fun w =>
    let id := UserLocation.user_id r in
    Run (Ret tt)
        (with_session_rows (assign_location id wkt (session_rows w)) w)
        [Done (SessionAssign id wkt)].

(** The table after [DELETE FROM user_locations WHERE user_id = id]. *)
Definition delete_location (id : string) (rows : list UserLocation.t)
    : list UserLocation.t :=
  List.filter (fun r' => negb (has_id id r')) rows.

(** [db_session.delete(r)]. *)
Definition session_delete (r : UserLocation.t) : M unit :=
  fun w =>
    let id := UserLocation.user_id r in
    Run (Ret tt)
        (with_session_rows (delete_location id (session_rows w)) w)
        [Done (SessionDelete id)].

(** The primary key: no two rows with one [user_id]. *)
Definition primary_key (rows : list UserLocation.t) : bool :=
  bool_decide (NoDup (List.map UserLocation.user_id rows)).

(** [db_session.commit()]: the pending rows become the table, unless the
    database refuses them. *)
Definition session_commit (e : env) : M unit :=
  fun w =>
    if commit_raises e || negb (primary_key (session_rows w))
    then Run (Raise SQLAlchemyError) w [Failed SessionCommit]
    else Run (Ret tt) (with_user_locations (session_rows w) w) [Done SessionCommit].

(** [db_session.rollback()]: the pending changes are dropped. *)
Definition session_rollback : M unit :=
  fun w => Run (Ret tt) (with_session_rows (user_locations w) w)
               [Done SessionRollback].

(** [db_session.execute(text('SELECT 1'))]. *)
Definition session_execute (e : env) : M unit :=
  fun w =>
    if execute_raises e then Run (Raise SQLAlchemyError) w [Failed SessionExecute]
    else Run (Ret tt) w [Done SessionExecute].

(** ** The handlers *)

(** The HTTP answers of the handlers. *)
Inductive response : Type :=
| Created (id : string)                     (* 201, create_user *)
| Fetched (user_data : gmap string pyval)   (* 200, get_user *)
| Updated (id : string)                     (* 200, update_user *)
| Deleted                                   (* 204, delete_user *)
| BadRequest (error : string)               (* 400 *)
| NotFound                                  (* 404 *)
| ServerError (error : string) (e : exn)    (* 500, from an except clause *)
| Unavailable.                              (* 503 *)

Definition status_code (r : response) : Z :=
  match r with
  | Created _ => 201
  | Fetched _ => 200
  | Updated _ => 200
  | Deleted => 204
  | BadRequest _ => 400
  | NotFound => 404
  | ServerError _ _ => 500
  | Unavailable => 503
  end.

(** The status the client sees: Flask answers 500 when an exception
    leaves the handler. *)
Definition http_status (o : outcome response) : Z :=
  match o with
  | Ret r => status_code r
  | Raise _ => 500
  end.

(** [get_health_status()], for what it does to the collaborators: it
    probes the session when there is one and keeps the exception to
    itself.  The status document is not modelled. *)
Definition get_health_status (e : env) : M unit :=
  w <- get_world ;;
  if db_session w
  then try_except (session_execute e) (fun _ => ret tt)
  else ret tt.

(** [publish_event(topic, event_type, user_id, data, changes=None)].
    The first entry of its trace records the call itself. *)
Definition publish_event (e : env) (topic event_type user_id : string)
    (data : pyval) (changes : pyval) : M unit :=
  fun w =>
    let called := Done (PublishEvent topic event_type user_id data) in
    if negb (producer w) then Run (Ret tt) w [called]
    else
      let event : gmap string pyval :=
        <["event_type" := VStr event_type]>
        (<["timestamp" := VStr (utc_now e)]>
        (<["user_id" := VStr user_id]>
        (<["data" := data]>
        (<["source_service" := VStr "servico-usuarios"]> ∅)))) in
      let event :=
        if Py.truthy changes then <["changes" := changes]> event else event in
      let m := Message topic user_id event in
      if produce_raises e then Run (Ret tt) w [called; Failed (Produce m)]
      else Run (Ret tt) (with_produced (produced w ++ [m]) w)
               [called; Done (Produce m)].

(** [location_data and 'latitude' in location_data and 'longitude' in
    location_data] (lines 197 and 258). *)
Definition has_coordinates (location_data : pyval) : outcome bool :=
  if negb (Py.truthy location_data) then Ret false
  else
    match Py.contains "latitude" location_data with
    | Ret true => Py.contains "longitude" location_data
    | other => other
    end.

(** The text assigned to [wkt_point] (lines 198-200 and 259-261). *)
Definition wkt_point (e : env) (location_data : pyval) : outcome string :=
  match Py.getitem "latitude" location_data with
  | Ret lat =>
      match Py.getitem "longitude" location_data with
      | Ret lon =>
          Ret (Wkt.wkt_point (Py.str (str_other e) lon) (Py.str (str_other e) lat))
      | Raise ex => Raise ex
      end
  | Raise ex => Raise ex
  end.

(** The [try] block of [create_user] (lines 197-208). *)
Definition create_user_try (e : env) (user_id : string)
    (user_data firestore_data location_data : pyval) : M response :=
  staged <- lift (has_coordinates location_data) ;;
  (if staged : bool then
     wkt <- lift (wkt_point e location_data) ;;
     session_add (UserLocation.New user_id wkt)
   else ret tt) ;;
  doc_set e user_id firestore_data ;;
  session_commit e ;;
  publish_event e "eventos_usuarios" "UserCreated" user_id user_data VNone ;;
  ret (Created user_id).

(** The two [except] clauses of the writing handlers. *)
Definition rollback_and_report (what : string) (ex : exn) : M response :=
  session_rollback ;;
  ret (ServerError
         (match ex with
          | SQLAlchemyError => "Erro no banco de dados geoespacial: "
          | _ => what
          end) ex).

Definition create_user (e : env) (user_data : pyval) : M response :=
  w <- get_world ;;
  if negb (db w) || negb (db_session w) then
    get_health_status e ;;
    ret Unavailable
  else if negb (Py.truthy user_data) then
    ret (BadRequest "Email e nome são obrigatórios.")
  else
    has_email <- lift (Py.contains "email" user_data) ;;
    if negb has_email then ret (BadRequest "Email e nome são obrigatórios.")
    else
      has_name <- lift (Py.contains "name" user_data) ;;
      if negb has_name then ret (BadRequest "Email e nome são obrigatórios.")
      else
        let user_id := uuid4 e in
        firestore_data <- lift (Py.copy user_data) ;;
        popped <- lift (Py.pop "location" firestore_data) ;;
        let location_data := fst popped in
        firestore_data <- lift (Py.setitem "created_at" VServerTimestamp (snd popped)) ;;
        firestore_data <- lift (Py.setitem "updated_at" VServerTimestamp firestore_data) ;;
        try_except
          (create_user_try e user_id user_data firestore_data location_data)
          (rollback_and_report "Erro ao criar usuário: ").

(** [to_shape] is imported together with the session's own library
    (lines 20-32), so it is bound whenever [db_session] is: past the
    first test, [location_record and to_shape] is [location_record]. *)
Definition get_user (e : env) (user_id : string) : M response :=
  w <- get_world ;;
  if negb (db w) || negb (db_session w) then ret Unavailable
  else
    try_except
      (user_doc <- doc_get e user_id ;;
       match user_doc with
       | None => ret NotFound
       | Some fields =>
           let user_data := <["id" := VStr user_id]> fields in
           location_record <- session_query_first e user_id ;;
           match location_record with
           | Some r =>
               point <- lift (Wkt.to_shape (UserLocation.location r)) ;;
               ret (Fetched
                      (<["location" :=
                           VDict (<["latitude" := VFloat (Wkt.y point)]>
                                 (<["longitude" := VFloat (Wkt.x point)]> ∅))]>
                         user_data))
           | None => ret (Fetched user_data)
           end
       end)
      (fun ex => ret (ServerError "Erro ao buscar usuário: " ex)).

(** The location step of [update_user] (lines 258-268): the row of the
    user is assigned the new point when there is one, and added when
    there is none. *)
Definition update_user_location (e : env) (user_id : string)
    (location_data : pyval) : M unit :=
  staged <- lift (has_coordinates location_data) ;;
  if staged : bool then
    wkt <- lift (wkt_point e location_data) ;;
    location_record <- session_query_first e user_id ;;
    match location_record with
    | Some r => session_assign r wkt
    | None => session_add (UserLocation.New user_id wkt)
    end
  else ret tt.

(** The [try] block of [update_user] (lines 251-276). *)
Definition update_user_try (e : env) (user_id : string) (update_data : pyval)
    : M response :=
  user_doc <- doc_get e user_id ;;
  match user_doc with
  | None => ret NotFound
  | Some _ =>
      firestore_data <- lift (Py.copy update_data) ;;
      popped <- lift (Py.pop "location" firestore_data) ;;
      let location_data := fst popped in
      firestore_data <- lift (Py.setitem "updated_at" VServerTimestamp (snd popped)) ;;
      update_user_location e user_id location_data ;;
      (if Py.truthy firestore_data
       then doc_update e user_id firestore_data
       else ret tt) ;;
      session_commit e ;;
      publish_event e "eventos_usuarios" "UserUpdated" user_id update_data VNone ;;
      ret (Updated user_id)
  end.

Definition update_user (e : env) (user_id : string) (update_data : pyval)
    : M response :=
  w <- get_world ;;
  if negb (db w) || negb (db_session w) then ret Unavailable
  else if negb (Py.truthy update_data) then
    ret (BadRequest "Dados para atualização são obrigatórios.")
  else
    try_except
      (update_user_try e user_id update_data)
      (rollback_and_report "Erro ao atualizar usuário: ").

(** The [try] block of [delete_user] (lines 293-304). *)
Definition delete_user_try (e : env) (user_id : string) : M response :=
  user_doc <- doc_get e user_id ;;
  match user_doc with
  | None => ret NotFound
  | Some _ =>
      location_record <- session_query_first e user_id ;;
      match location_record with
      | Some r => session_delete r
      | None => ret tt
      end ;;
      doc_delete e user_id ;;
      session_commit e ;;
      publish_event e "eventos_usuarios" "UserDeleted" user_id
                    (VDict (<["user_id" := VStr user_id]> ∅)) VNone ;;
      ret Deleted
  end.

Definition delete_user (e : env) (user_id : string) : M response :=
  w <- get_world ;;
  if negb (db w) || negb (db_session w) then ret Unavailable
  else
    try_except
      (delete_user_try e user_id)
      (rollback_and_report "Erro ao deletar usuário: ").

(** ** Vocabulary of the properties *)

(** Both stores were initialised: the handler passes its first test. *)
Definition ready (w : world) : Prop := db w = true /\ db_session w = true.

(** No call on a store raises. *)
Definition quiet (e : env) : bool :=
  negb (get_raises e || set_raises e || update_raises e || delete_raises e
        || query_raises e || commit_raises e).

(** The session has no pending change and the table respects its
    primary key: the state between two requests. *)
Definition settled (w : world) : Prop :=
  session_rows w = user_locations w /\ primary_key (user_locations w) = true.

(** The rows of [user_id] among [rows]. *)
Definition rows_of (user_id : string) (rows : list UserLocation.t)
    : list UserLocation.t :=
  List.filter (has_id user_id) rows.

(** The calls of [publish_event] in a trace. *)
Definition publish_calls (t : list entry) : list call :=
  omap (fun x => match x with
                 | Done (PublishEvent tp ty id data) =>
                     Some (PublishEvent tp ty id data)
                 | _ => None
                 end) t.

(** The calls of a trace, returned or raised. *)
Definition call_of (x : entry) : call :=
  match x with
  | Done c => c
  | Failed c => c
  end.

(** [number v x]: the value [v] of a body is a number, and [x] is the
    float nearest to it.  A float is a finite float [x], held as its
    [repr]; an int is rounded to the nearest float. *)
Inductive number : pyval -> Float.t -> Prop :=
| number_float (x : Float.t) :
    Float.finite x = true -> number (VFloat (Float.repr x)) x
| number_int (z : Z) : number (VInt z) (Float.of_Z z).

(** [same_number v x]: the float [x] is the number [v]: the same float,
    or the float whose value is the int. *)
Definition same_number (v : pyval) (x : Float.t) : Prop :=
  match v with
  | VFloat r => Float.repr x = r
  | VInt z => Float.has_value x z
  | _ => False
  end.

(** An int of a magnitude up to [2^53]; every float counts. *)
Definition within_2_53 (v : pyval) : Prop :=
  match v with
  | VInt z => (Z.abs z <= 2 ^ 53)%Z
  | _ => True
  end.

Fixpoint no_space (s : string) : bool :=
  match s with
  | EmptyString => true
  | String c s' => negb (Ascii.eqb c " "%char) && no_space s'
  end.

Fixpoint all_digits (s : string) : bool :=
  match s with
  | EmptyString => true
  | String c s' => Float.is_digit c && all_digits s'
  end.

(** ** Sample requests

    The scenarios of the test suite and of the specification, used to
    run the handlers. *)

(** A request in which no store call raises. *)
Definition quiet_env : env :=
  Env "7c9e6679" "2026-01-01T00:00:00Z" "2026-01-01T00:00:00+00:00"
      false false false false false false false false (fun _ => "").

(** The same request, except that [DocumentReference.set] raises. *)
Definition set_fails_env : env :=
  Env "7c9e6679" "2026-01-01T00:00:00Z" "2026-01-01T00:00:00+00:00"
      false true false false false false false false (fun _ => "").

(** The same request, except that [Session.commit] raises. *)
Definition commit_fails_env : env :=
  Env "7c9e6679" "2026-01-01T00:00:00Z" "2026-01-01T00:00:00+00:00"
      false false false false false true false false (fun _ => "").

(** Both stores initialised and empty. *)
Definition empty_world : world := World true true true ∅ [] [] [].

Definition point_of (lat lon : pyval) : gmap string pyval :=
  <["latitude" := lat]> (<["longitude" := lon]> ∅).

(** [{email: "a@b.com", name: "A", location: {latitude: -23.5,
    longitude: -46.6}}]. *)
Definition alice : gmap string pyval :=
  <["email" := VStr "a@b.com"]>
  (<["name" := VStr "A"]>
  (<["location" := VDict (point_of (VFloat "-23.5") (VFloat "-46.6"))]> ∅)).

(** [{email: "no-loc@example.com", name: "No Location User"}]. *)
Definition no_location_user : gmap string pyval :=
  <["email" := VStr "no-loc@example.com"]>
  (<["name" := VStr "No Location User"]> ∅).

(** [{email: "", name: ""}]. *)
Definition blank_user : gmap string pyval :=
  <["email" := VStr ""]> (<["name" := VStr ""]> ∅).

(** [{location: {latitude: -10.0, longitude: -20.0}}]. *)
Definition move_update : gmap string pyval :=
  <["location" := VDict (point_of (VFloat "-10.0") (VFloat "-20.0"))]> ∅.

(** [{location: 5}]. *)
Definition bad_location_update : gmap string pyval :=
  <["location" := VInt 5]> ∅.

(** The state after alice was created in the empty stores. *)
Definition world_with_alice : world :=
  final (create_user quiet_env (VDict alice) empty_world).

(** The document stored for alice. *)
Definition alice_document : gmap string pyval :=
  default ∅ (users world_with_alice !! "7c9e6679").

(** [{name: "A"}]. *)
Definition no_email_user : gmap string pyval := <["name" := VStr "A"]> ∅.

(** The state after a user without location was created. *)
Definition world_without_location : world :=
  final (create_user quiet_env (VDict no_location_user) empty_world).

(** [{email: "a@b.com", name: "A", location: {latitude: 10,
    longitude: 20}}], with ints. *)
Definition alice_on_grid : gmap string pyval :=
  <["email" := VStr "a@b.com"]>
  (<["name" := VStr "A"]>
  (<["location" := VDict (point_of (VInt 10) (VInt 20))]> ∅)).

(** [{email: "a@b.com", name: "A", location: {latitude:
    9007199254740993, longitude: 0}}]: the latitude is [2^53 + 1]. *)
Definition far_north : gmap string pyval :=
  <["email" := VStr "a@b.com"]>
  (<["name" := VStr "A"]>
  (<["location" := VDict (point_of (VInt 9007199254740993) (VInt 0))]> ∅)).

(** The float [-23.5]. *)
Definition minus_23_5 : Float.t := Float.Finite true 6614661952700416 (-48).

(** The float [-46.6]. *)
Definition minus_46_6 : Float.t := Float.Finite true 6558366957358285 (-47).

(** The float [-10.0]. *)
Definition minus_10 : Float.t := Float.Finite true 5629499534213120 (-49).

(** The float [-20.0]. *)
Definition minus_20 : Float.t := Float.Finite true 5629499534213120 (-48).

(** ** Start-up and the health check

    The module-level code of [index.py] (lines 36-149 and 367) binds the
    three handles the handlers test, and keeps the text of what went
    wrong in four globals; [get_health_status] and [health_check]
    (lines 314-364) report both. *)

(** [os.environ.get(name)] as a condition: set, and not to the empty
    string. *)
Definition is_set (environ : gmap string string) (name : string) : bool :=
  match environ !! name with
  | Some s => negb (String.eqb s "")
  | None => false
  end.

(** What the start-up takes from outside: which of the three optional
    imports succeeded (lines 9-32), the environment, and for each block
    that can fail the text of the exception it raises, if it raises. *)
Record boot : Type := Boot {
  firebase_admin : bool;
  confluent_kafka : bool;
  sqlalchemy : bool;
  os_environ : gmap string string;
  firebase_raises : option string;       (* lines 52-57 *)
  create_engine_raises : option string;  (* line 89 *)
  session_raises : option string;        (* lines 90-91 *)
  create_all_raises : option string;     (* line 122 *)
  producer_raises : option string        (* line 140 *)
}.

(** The globals the start-up leaves besides the handles. *)
Record globals : Type := Globals {
  environ : gmap string string;
  firebase_init_error : option string;
  postgres_init_error : option string;
  kafka_producer_init_error : option string;
  db_init_error : option string
}.

(** Lines 46-66: [db] and [firebase_init_error]. *)
Definition init_firebase (b : boot) : bool * option string :=
  if firebase_admin b then
    if is_set (os_environ b) "FIREBASE_ADMIN_SDK_BASE64" then
      match firebase_raises b with
      | Some text => (false, Some text)
      | None => (true, None)
      end
    else
      (false,
       Some "Variável de ambiente FIREBASE_ADMIN_SDK_BASE64 não encontrada.")
  else (false, Some "Biblioteca firebase_admin não encontrada.").

(** Lines 68-100: [engine], [db_session] and [postgres_init_error].  The
    engine is bound before the session is made, so a failure of the
    second leaves the first. *)
Definition init_postgres (b : boot) : bool * bool * option string :=
  if sqlalchemy b then
    if is_set (os_environ b) "POSTGRES_POSTGRES_URL" then
      match create_engine_raises b with
      | Some text => (false, false, Some text)
      | None =>
          match session_raises b with
          | Some text => (true, false, Some text)
          | None => (true, true, None)
          end
      end
    else
      (false, false,
       Some "Variável de ambiente POSTGRES_POSTGRES_URL não encontrada.")
  else (false, false, Some "SQLAlchemy não encontrado.").

(** [init_db()] (lines 111-126), given whether [engine] is bound:
    [db_init_error].  [Base] is a class in every case, so the test
    [not Base] on line 117 is never true. *)
Definition init_db (b : boot) (engine : bool) : option string :=
  if negb engine then Some "Engine do PostgreSQL não inicializada."
  else create_all_raises b.

(** Lines 128-149: [producer] and [kafka_producer_init_error]. *)
Definition init_kafka (b : boot) : bool * option string :=
  if confluent_kafka b then
    if is_set (os_environ b) "KAFKA_BOOTSTRAP_SERVER" then
      match producer_raises b with
      | Some text => (false, Some text)
      | None => (true, None)
      end
    else (false, Some "Variáveis de ambiente do Kafka não encontradas.")
  else (false, Some "Biblioteca confluent_kafka não encontrada.").

(** The handles after the start-up, over the stores as they are. *)
Definition start (b : boot) (stores : world) : world :=
  World (fst (init_firebase b)) (snd (fst (init_postgres b))) (fst (init_kafka b))
        (users stores) (user_locations stores) (session_rows stores)
        (produced stores).

(** The globals after the start-up. *)
Definition start_globals (b : boot) : globals :=
  Globals (os_environ b)
          (snd (init_firebase b))
          (snd (init_postgres b))
          (snd (init_kafka b))
          (init_db b (fst (fst (init_postgres b)))).

(** [s[n:]]. *)
Fixpoint drop_chars (n : nat) (s : string) : string :=
  match n, s with
  | O, _ => s
  | S n', String _ s' => drop_chars n' s'
  | S _, EmptyString => EmptyString
  end.

(** [s.replace(old, new, 1)]: the leftmost occurrence is replaced. *)
Fixpoint replace_first (old new s : string) : string :=
  if String.prefix old s then new +:+ drop_chars (String.length old) s
  else
    match s with
    | EmptyString => EmptyString
    | String c s' => String c (replace_first old new s')
    end.

(** Lines 75-76: the scheme [postgres://] is rewritten for SQLAlchemy. *)
Definition postgresql_url (db_url : string) : string :=
  if String.prefix "postgres://" db_url
  then replace_first "postgres://" "postgresql://" db_url
  else db_url.

(** [v == s] for a string [s]. *)
Definition eq_str (v : pyval) (s : string) : bool :=
  match v with
  | VStr t => String.eqb t s
  | _ => false
  end.

(** [d.values()]. *)
Definition dict_values (v : pyval) : outcome (list pyval) :=
  match v with
  | VDict d => Ret (snd <$> map_to_list d)
  | _ => Raise AttributeError
  end.

Definition none_or_str (o : option string) : pyval :=
  match o with
  | Some s => VStr s
  | None => VNone
  end.

(** [not o] for a global that is [None] or a text. *)
Definition is_falsy (o : option string) : bool :=
  match o with
  | Some s => String.eqb s ""
  | None => true
  end.

Definition present_or_missing (g : globals) (name : string) : pyval :=
  VStr (if is_set (environ g) name then "present" else "missing").

Definition ok_or_error (b : bool) : pyval := VStr (if b then "ok" else "error").

(** [get_health_status()] (lines 314-349) with the document it returns.
    [query_error] is the text of the exception, should the probe raise. *)
Definition get_health_status_document (g : globals) (query_error : string)
    (e : env) : M (gmap string pyval) :=
  w <- get_world ;;
  let env_vars : gmap string pyval :=
    <["FIREBASE_ADMIN_SDK_BASE64" := present_or_missing g "FIREBASE_ADMIN_SDK_BASE64"]>
    (<["POSTGRES_POSTGRES_URL" := present_or_missing g "POSTGRES_POSTGRES_URL"]>
    (<["KAFKA_BOOTSTRAP_SERVER" := present_or_missing g "KAFKA_BOOTSTRAP_SERVER"]>
    (<["KAFKA_API_KEY" := present_or_missing g "KAFKA_API_KEY"]>
    (<["KAFKA_API_SECRET" := present_or_missing g "KAFKA_API_SECRET"]> ∅)))) in
  probe <- (if db_session w
            then try_except
                   (session_execute e ;; ret ("ok", None))
                   (fun _ =>
                      ret ("error during query: " +:+ query_error, Some query_error))
            else ret ("error", None)) ;;
  let pg_status : string := fst probe in
  let pg_query_error : option string := snd probe in
  ret (<["environment_variables" := VDict env_vars]>
      (<["dependencies" :=
           VDict (<["firestore" := ok_or_error (db w)]>
                 (<["kafka_producer" := ok_or_error (producer w)]>
                 (<["postgresql_connection" := VStr pg_status]>
                 (<["table_initialization" :=
                      ok_or_error (is_falsy (db_init_error g))]> ∅))))]>
      (<["initialization_errors" :=
           VDict (<["firestore" := none_or_str (firebase_init_error g)]>
                 (<["postgresql_engine" := none_or_str (postgres_init_error g)]>
                 (<["postgresql_table" := none_or_str (db_init_error g)]>
                 (<["postgresql_query" := none_or_str pg_query_error]>
                 (<["kafka_producer" :=
                      none_or_str (kafka_producer_init_error g)]> ∅)))))]> ∅))).

(** [status[section][name] == "ok"]. *)
Definition dependency_ok (status : gmap string pyval) (name : string)
    : outcome bool :=
  match Py.getitem "dependencies" (VDict status) with
  | Ret deps =>
      match Py.getitem name deps with
      | Ret v => Ret (eq_str v "ok")
      | Raise ex => Raise ex
      end
  | Raise ex => Raise ex
  end.

(** [health_check()] (lines 351-364): the document and the status. *)
Definition health_check (g : globals) (query_error : string) (e : env)
    : M (gmap string pyval * Z) :=
  status <- get_health_status_document g query_error e ;;
  env_vars <- lift (Py.getitem "environment_variables" (VDict status)) ;;
  values <- lift (dict_values env_vars) ;;
  firestore_ok <- lift (dependency_ok status "firestore") ;;
  kafka_ok <- lift (dependency_ok status "kafka_producer") ;;
  postgresql_ok <- lift (dependency_ok status "postgresql_connection") ;;
  table_ok <- lift (dependency_ok status "table_initialization") ;;
  let all_ok :=
    forallb (fun value => eq_str value "present") values
    && firestore_ok && kafka_ok && postgresql_ok && table_ok in
  ret (status, if all_ok then 200%Z else 503%Z).

(** ** Vocabulary of the further properties *)



(** What the stores hold: the documents, the table and what is pending. *)
Definition stores (w : world)
    : gmap string (gmap string pyval) * list UserLocation.t * list UserLocation.t :=
  (users w, user_locations w, session_rows w).

(** An environment in which the five variables are set. *)
Definition full_environ : gmap string string :=
  <["FIREBASE_ADMIN_SDK_BASE64" := "e30="]>
  (<["POSTGRES_POSTGRES_URL" := "postgres://u:p@h:5432/db"]>
  (<["KAFKA_BOOTSTRAP_SERVER" := "broker:9092"]>
  (<["KAFKA_API_KEY" := "k"]>
  (<["KAFKA_API_SECRET" := "s"]> ∅)))).

(** A start-up in which every import and every call succeeds. *)
Definition good_boot : boot :=
  Boot true true true full_environ None None None None None.

(** The same start-up without the credentials of Firestore. *)
Definition boot_without_firebase : boot :=
  Boot true true true (delete "FIREBASE_ADMIN_SDK_BASE64" full_environ)
       None None None None None.

(** A request in which the probe [SELECT 1] raises. *)
Definition probe_fails_env : env :=
  Env "7c9e6679" "2026-01-01T00:00:00Z" "2026-01-01T00:00:00+00:00"
      false false false false false false true false (fun _ => "").

(** *** Field paths *)

(** The fields [update_user] sends to [.update]: the body without
    [location], with [updated_at] set to the sentinel (lines 248 and
    270). *)
Definition update_fields (d : gmap string pyval) : gmap string pyval :=
  <["updated_at" := VServerTimestamp]> (delete "location" d).

(** The value a document holds at a path. *)
Fixpoint read_field (path : list string) (doc : gmap string pyval)
    : option pyval :=
  match path with
  | [] => None
  | name :: rest =>
      match rest with
      | [] => doc !! name
      | _ :: _ =>
          match doc !! name with
          | Some (VDict inner) => read_field rest inner
          | _ => None
          end
      end
  end.

(** A letter, a digit or an underscore. *)
Definition name_char (c : ascii) : bool :=
  let n := nat_of_ascii c in
  ((97 <=? n)%nat && (n <=? 122)%nat)
  || ((65 <=? n)%nat && (n <=? 90)%nat)
  || ((48 <=? n)%nat && (n <=? 57)%nat)
  || (n =? 95)%nat.

Fixpoint name_chars (s : string) : bool :=
  match s with
  | EmptyString => true
  | String c s' => name_char c && name_chars s'
  end.

(** An element of a path written without quotes: one character or more,
    each a letter, a digit or an underscore. *)
Definition field_name (s : string) : bool :=
  negb (String.eqb s "") && name_chars s.

(** [continues p q]: the path [q] is [p], or goes on from it. *)
Fixpoint continues (p q : list string) : bool :=
  match p, q with
  | [], _ => true
  | a :: p', b :: q' => String.eqb a b && continues p' q'
  | _ :: _, [] => false
  end.

(** Two paths of which neither goes on from the other: they name two
    fields of which neither holds the other. *)
Definition apart (p q : list string) : bool :=
  negb (continues p q) && negb (continues q p).

Definition keys_of (fields : gmap string pyval) : list string :=
  (map_to_list fields).*1.

(** The keys are field paths as the client takes them: every element is
    a name, and no two keys name a field and the same field or a field
    inside it. *)
Definition field_paths (fields : gmap string pyval) : bool :=
  forallb (fun key =>
             forallb field_name (field_path key)
             && forallb (fun key' => String.eqb key key'
                                     || apart (field_path key) (field_path key'))
                        (keys_of fields))
          (keys_of fields).

(** No key names the field [name] or a field inside it. *)
Definition leaves (name : string) (fields : gmap string pyval) : bool :=
  forallb (fun key => apart [name] (field_path key)) (keys_of fields).

(** Keys of which no two name a field and the same field or a field
    inside it. *)
Definition apart_keys (fields : gmap string pyval) : Prop :=
  forall k k', is_Some (fields !! k) -> is_Some (fields !! k') -> k <> k' ->
    apart (field_path k) (field_path k') = true.



(** The answers of a write that took effect. *)
Definition is_success (o : outcome response) : bool :=
  match o with
  | Ret (Created _) | Ret (Updated _) | Ret Deleted => true
  | _ => false
  end.

(** The message [m] as a consumer of the topic reads it: the event
    [event_type] about [user_id], carrying [data] and no [changes]. *)
Definition announces (e : env) (event_type user_id : string) (data : pyval)
    (m : message) : Prop :=
  topic m = "eventos_usuarios" /\ key m = user_id
  /\ value m !! "event_type" = Some (VStr event_type)
  /\ value m !! "timestamp" = Some (VStr (utc_now e))
  /\ value m !! "user_id" = Some (VStr user_id)
  /\ value m !! "data" = Some data
  /\ value m !! "source_service" = Some (VStr "servico-usuarios")
  /\ value m !! "changes" = None.

(** What the run [r] of a write from [w] handed to the producer: one
    message when the write took effect, there is a producer and
    producing does not raise; nothing otherwise. *)
Definition hands_over (e : env) (event_type user_id : string) (data : pyval)
    (w : world) (r : run response) : Prop :=
  if is_success (out r) && producer w && negb (produce_raises e)
  then exists m, produced (final r) = produced w ++ [m]
                 /\ announces e event_type user_id data m
  else produced (final r) = produced w.

(** The rest of a handler hands over as said, from every state. *)
Definition tail_of (e : env) (event_type user_id : string) (data : pyval)
    (m : M response) : Prop :=
  forall w, hands_over e event_type user_id data w (m w).

(** A computation that does not touch the producer. *)
Definition off_bus {A} (m : M A) : Prop :=
  forall w, producer (final (m w)) = producer w
            /\ produced (final (m w)) = produced w.

(** [{location: {latitude: -10.0}}]. *)
Definition half_location_update : gmap string pyval :=
  <["location" := VDict (<["latitude" := VFloat "-10.0"]> ∅)]> ∅.

(** [{"address.city": "SP", name: "B"}]. *)
Definition city_update : gmap string pyval :=
  <["address.city" := VStr "SP"]> (<["name" := VStr "B"]> ∅).

(** [{address: {city: "Rio", street: "Rua A"}, name: "A"}]. *)
Definition document_with_address : gmap string pyval :=
  <["address" := VDict (<["city" := VStr "Rio"]> (<["street" := VStr "Rua A"]> ∅))]>
  (<["name" := VStr "A"]> ∅).

(** Alice as [get_user] answers her after her creation. *)
Definition alice_fetched : gmap string pyval :=
  <["location" := VDict (point_of (VFloat "-23.5") (VFloat "-46.6"))]>
  (<["id" := VStr "7c9e6679"]> alice_document).

(** * Properties *)

(** ** Rounding to a float *)

Section Rounding.

Local Open Scope Z_scope.

(** [base^t <= a/b], with the powers moved to one side. *)
Lemma scaled_le_shift base a b t K :
  0 < base -> 0 <= K -> 0 <= K + t ->
  (b * base ^ Z.max 0 t <= a * base ^ Z.max 0 (- t)
   <-> b * base ^ (K + t) <= a * base ^ K).
Proof.
  intros Hbase HK HKt.
  destruct (Z.le_ge_cases 0 t) as [Ht|Ht].
  - rewrite (Z.max_r 0 t), (Z.max_l 0 (- t)) by lia.
    rewrite Z.pow_0_r, Z.mul_1_r, (Z.add_comm K t), Z.pow_add_r by lia.
    rewrite Z.mul_assoc.
    apply Z.mul_le_mono_pos_r, Z.pow_pos_nonneg; lia.
  - rewrite (Z.max_l 0 t), (Z.max_r 0 (- t)) by lia.
    rewrite Z.pow_0_r, Z.mul_1_r.
    replace (base ^ K) with (base ^ (- t) * base ^ (K + t))
      by (rewrite <- Z.pow_add_r by lia; f_equal; lia).
    rewrite Z.mul_assoc.
    apply Z.mul_le_mono_pos_r, Z.pow_pos_nonneg; lia.
Qed.

(** [floor_log2] finds the one [t] with [2^t <= a/b < 2^(t+1)]. *)
Lemma floor_log2_unique a b t :
  0 < a -> 0 < b ->
  b * 2 ^ Z.max 0 t <= a * 2 ^ Z.max 0 (- t) ->
  a * 2 ^ Z.max 0 (- (t + 1)) < b * 2 ^ Z.max 0 (t + 1) ->
  Float.floor_log2 a b = t.
Proof.
  intros Ha Hb Hle Hlt.
  unfold Float.floor_log2, Float.floor_log.
  set (t0 := Z.log2 a - Z.log2 b).
  destruct (Z.log2_spec a Ha) as [Ha1 Ha2].
  destruct (Z.log2_spec b Hb) as [Hb1 Hb2].
  rewrite <- Z.add_1_r in Ha2, Hb2.
  pose proof (Z.log2_nonneg a) as Hla. pose proof (Z.log2_nonneg b) as Hlb.
  set (K := Z.abs t + Z.abs t0 + 2).
  assert (HK : 0 <= K) by lia.
  apply (scaled_le_shift 2 a b t K) in Hle; [|lia..].
  apply Z.lt_nge in Hlt.
  rewrite (scaled_le_shift 2 a b (t + 1) K) in Hlt by lia.
  apply Z.nle_gt in Hlt.
  assert (H2K : 0 < 2 ^ K) by (apply Z.pow_pos_nonneg; lia).
  (* the estimate is at most one too large *)
  assert (Hup : a * 2 ^ K < b * 2 ^ (K + t0 + 1)).
  { replace (K + t0 + 1) with (K + (Z.log2 a + 1) - Z.log2 b) by (unfold t0; lia).
    assert (E : 2 ^ (K + (Z.log2 a + 1) - Z.log2 b) * 2 ^ Z.log2 b
                = 2 ^ K * 2 ^ (Z.log2 a + 1)).
    { rewrite <- !Z.pow_add_r by (unfold K, t0 in *; lia). f_equal. lia. }
    assert (H : 0 < 2 ^ (K + (Z.log2 a + 1) - Z.log2 b))
      by (apply Z.pow_pos_nonneg; unfold K, t0 in *; lia).
    clear - E H Ha2 Hb1 H2K Ha Hb. nia. }
  assert (Hlow : b * 2 ^ (K + t0 - 1) <= a * 2 ^ K).
  { assert (E : 2 ^ (K + t0 - 1) * 2 ^ (Z.log2 b + 1) = 2 ^ K * 2 ^ Z.log2 a).
    { rewrite <- !Z.pow_add_r by (unfold K, t0 in *; lia). f_equal. unfold t0. lia. }
    assert (H : 0 < 2 ^ (K + t0 - 1))
      by (apply Z.pow_pos_nonneg; unfold K, t0 in *; lia).
    clear - E H Ha1 Hb2 H2K Ha Hb. nia. }
  assert (Hmono : forall s s', 0 <= K + s -> s <= s' ->
                    b * 2 ^ (K + s) <= b * 2 ^ (K + s')).
  { intros s s' Hs Hss. apply Z.mul_le_mono_nonneg_l; [lia|].
    apply Z.pow_le_mono_r; lia. }
  assert (Ht1 : t <= t0).
  { destruct (Z.le_gt_cases t t0) as [|Hgt]; [assumption|exfalso].
    pose proof (Hmono (t0 + 1) t ltac:(unfold K; lia) ltac:(lia)).
    replace (K + (t0 + 1)) with (K + t0 + 1) in * by lia. lia. }
  assert (Ht2 : t0 - 1 <= t).
  { destruct (Z.le_gt_cases (t0 - 1) t) as [|Hgt]; [assumption|exfalso].
    pose proof (Hmono (t + 1) (t0 - 1) ltac:(unfold K; lia) ltac:(lia)).
    replace (K + (t0 - 1)) with (K + t0 - 1) in * by lia. lia. }
  destruct (Z.leb_spec (b * 2 ^ Z.max 0 t0) (a * 2 ^ Z.max 0 (- t0))) as [H0|H0].
  - apply (scaled_le_shift 2 a b t0 K) in H0; [|unfold K; lia..].
    destruct (Z.eq_dec t t0) as [|Hne]; [congruence|exfalso].
    assert (t = t0 - 1) by lia. subst t.
    replace (K + (t0 - 1 + 1)) with (K + t0) in Hlt by lia. lia.
  - apply Z.lt_nge in H0.
    rewrite (scaled_le_shift 2 a b t0 K) in H0 by (unfold K; lia).
    destruct (Z.eq_dec t t0) as [->|Hne]; [contradiction|lia].
Qed.

Lemma round_half_even_exact m d : 0 < d -> Float.round_half_even (m * d) d = m.
Proof.
  intros Hd. unfold Float.round_half_even.
  rewrite Z.div_mul, Z.mod_mul by lia.
  destruct (Z.ltb_spec (2 * 0) d); [reflexivity|lia].
Qed.

(** A ratio that is a float is rounded to that float. *)
Lemma round_ratio_exact neg a b m e :
  0 < a -> 0 < b -> 0 < m -> Float.finite (Float.Finite neg m e) = true ->
  a * 2 ^ Z.max 0 (- e) = m * (b * 2 ^ Z.max 0 e) ->
  Float.round_ratio neg a b = Float.Finite neg m e.
Proof.
  intros Ha Hb Hm Hfin Hexact.
  unfold Float.finite in Hfin.
  rewrite !andb_true_iff, orb_true_iff in Hfin.
  destruct Hfin as ((((H0 & H53) & Hemin) & Hemax) & Hnorm).
  apply Z.leb_le in H0, Hemin, Hemax. apply Z.ltb_lt in H53.
  unfold Float.emin, Float.emax in *.
  destruct (Z.log2_spec m Hm) as [Hm1 Hm2].
  rewrite <- Z.add_1_r in Hm2.
  pose proof (Z.log2_nonneg m) as Hlm.
  assert (Hlog : Float.floor_log2 a b = Z.log2 m + e).
  { set (K := Z.abs e + Z.log2 m + 2).
    assert (E1 : a * 2 ^ K = m * (b * 2 ^ (K + e))).
    { destruct (Z.le_ge_cases 0 e) as [He|He].
      - rewrite (Z.max_l 0 (- e)), (Z.max_r 0 e), Z.pow_0_r, Z.mul_1_r in Hexact by lia.
        rewrite (Z.add_comm K e), Z.pow_add_r by (unfold K; lia). nia.
      - rewrite (Z.max_r 0 (- e)), (Z.max_l 0 e), Z.pow_0_r, Z.mul_1_r in Hexact by lia.
        replace K with ((K + e) + (- e)) at 1 by lia.
        rewrite Z.pow_add_r by (unfold K; lia). nia. }
    assert (HbK : 0 < b * 2 ^ (K + e)).
    { apply Z.mul_pos_pos; [lia|apply Z.pow_pos_nonneg; unfold K; lia]. }
    apply floor_log2_unique; try assumption.
    - apply (scaled_le_shift 2 a b (Z.log2 m + e) K); [lia|unfold K; lia..|].
      replace (K + (Z.log2 m + e)) with (Z.log2 m + (K + e)) by lia.
      rewrite Z.pow_add_r by (unfold K; lia). nia.
    - apply Z.nle_gt. intros H.
      apply (scaled_le_shift 2 a b (Z.log2 m + e + 1) K) in H; [|lia|unfold K; lia..].
      replace (K + (Z.log2 m + e + 1)) with ((Z.log2 m + 1) + (K + e)) in H by lia.
      rewrite Z.pow_add_r in H by (unfold K; lia). nia. }
  assert (Hexp : Z.max (-1074) (Z.log2 m + e - 52) = e).
  { destruct Hnorm as [Hn|Hn].
    - apply Z.leb_le in Hn.
      assert (Z.log2 m = 52).
      { apply Z.log2_unique; [lia|]. change (2 ^ (52 + 1)) with (2 ^ 53). lia. }
      lia.
    - apply Z.eqb_eq in Hn. subst e.
      assert (Z.log2 m <= 52).
      { destruct (Z.le_gt_cases (Z.log2 m) 52); [assumption|exfalso].
        assert (2 ^ 53 <= 2 ^ Z.log2 m) by (apply Z.pow_le_mono_r; lia). lia. }
      lia. }
  unfold Float.round_ratio, Float.emin, Float.emax.
  rewrite Hlog, Hexp, Hexact.
  rewrite round_half_even_exact
    by (apply Z.mul_pos_pos; [lia|apply Z.pow_pos_nonneg; lia]).
  destruct (Z.eqb_spec m (2 ^ 53)); [lia|].
  destruct (Z.ltb_spec 971 e); [lia|reflexivity].
Qed.

End Rounding.

(** ** Numerals *)

Section Numerals.

Lemma append_cons c a b : String c a +:+ b = String c (a +:+ b).
Proof. reflexivity. Qed.

Lemma append_empty_r s : s +:+ "" = s.
Proof.
  induction s as [|c s IH]; [reflexivity|]. rewrite append_cons, IH. reflexivity.
Qed.

Lemma no_space_app a b : no_space (a +:+ b) = no_space a && no_space b.
Proof.
  induction a as [|c a IH]; [reflexivity|].
  rewrite append_cons. cbn [no_space]. rewrite IH, andb_assoc. reflexivity.
Qed.

Lemma digit_is_no_space c : Float.is_digit c = true -> Ascii.eqb c " " = false.
Proof. destruct c as [[] [] [] [] [] [] [] []]; try reflexivity; discriminate. Qed.

Lemma no_space_all_digits s : all_digits s = true -> no_space s = true.
Proof.
  induction s as [|c s IH]; [reflexivity|]. cbn [all_digits no_space].
  intros H. apply andb_prop in H as [Hc Hs].
  rewrite (digit_is_no_space _ Hc), (IH Hs). reflexivity.
Qed.

Lemma all_digits_string_of_uint d :
  all_digits (NilEmpty.string_of_uint d) = true.
Proof. induction d; cbn; auto. Qed.

Lemma all_digits_digits_of n : all_digits (Float.digits_of n) = true.
Proof. apply all_digits_string_of_uint. Qed.

Lemma to_uint_nonnil n : N.to_uint n <> Decimal.Nil.
Proof.
  destruct n as [|p]; [discriminate|]. apply DecimalPos.Unsigned.to_uint_nonnil.
Qed.

(** The digits of a number start with a digit. *)
Lemma digits_of_head n :
  exists c r, Float.digits_of n = String c r /\ Float.is_digit c = true.
Proof.
  pose proof (all_digits_digits_of n) as H. unfold Float.digits_of in *.
  pose proof (to_uint_nonnil (Z.to_N n)) as Hn.
  destruct (N.to_uint (Z.to_N n)); try contradiction;
    (eexists _, _; split; [reflexivity|reflexivity]).
Qed.

Lemma digits_value_digits_of n :
  (0 <= n)%Z -> Float.digits_value (Float.digits_of n) = n.
Proof.
  intros Hn. unfold Float.digits_value, Float.digits_of.
  rewrite NilEmpty.usu, DecimalN.Unsigned.of_to. apply Z2N.id, Hn.
Qed.

Lemma take_digits_app a b :
  all_digits a = true ->
  match b with
  | String c _ => Float.is_digit c = false
  | EmptyString => True
  end ->
  Float.take_digits (a +:+ b) = (a, b).
Proof.
  intros Ha Hb. induction a as [|c a IH].
  - destruct b as [|c b]; [reflexivity|].
    change ("" +:+ String c b) with (String c b).
    cbn [Float.take_digits]. rewrite Hb. reflexivity.
  - cbn [all_digits] in Ha. apply andb_prop in Ha as [Hc Ha].
    rewrite append_cons. cbn [Float.take_digits]. rewrite Hc, (IH Ha). reflexivity.
Qed.

Lemma take_digits_split s :
  s = fst (Float.take_digits s) +:+ snd (Float.take_digits s)
  /\ all_digits (fst (Float.take_digits s)) = true.
Proof.
  induction s as [|c s [IH1 IH2]]; [split; reflexivity|].
  cbn [Float.take_digits]. destruct (Float.is_digit c) eqn:Hc.
  - destruct (Float.take_digits s) as [a b]. cbn [fst snd] in *.
    split; [rewrite append_cons; congruence|]. cbn [all_digits]. rewrite Hc. exact IH2.
  - split; reflexivity.
Qed.

Lemma string_of_uint_nonnil d :
  d <> Decimal.Nil -> NilZero.string_of_uint d = NilEmpty.string_of_uint d.
Proof. destruct d; [contradiction|reflexivity..]. Qed.

Lemma str_int_text z :
  Py.str_int z
  = (if (z <? 0)%Z then "-" else "") +:+ Float.digits_of (Z.abs z).
Proof.
  unfold Py.str_int, Float.digits_of.
  destruct z as [|p|p]; [reflexivity| |].
  - change (NilZero.string_of_uint (Pos.to_uint p)
            = NilEmpty.string_of_uint (Pos.to_uint p)).
    apply string_of_uint_nonnil, DecimalPos.Unsigned.to_uint_nonnil.
  - change (String "-" (NilZero.string_of_uint (Pos.to_uint p))
            = String "-" (NilEmpty.string_of_uint (Pos.to_uint p))).
    f_equal. apply string_of_uint_nonnil, DecimalPos.Unsigned.to_uint_nonnil.
Qed.

(** A text that starts with a digit carries no sign. *)
Lemma take_sign_digit c r :
  Float.is_digit c = true -> Float.take_sign (String c r) = (false, String c r).
Proof. destruct c as [[] [] [] [] [] [] [] []]; try reflexivity; discriminate. Qed.

Lemma take_sign_text (neg : bool) n rest :
  Float.take_sign ((if neg then "-" else "") +:+ Float.digits_of n +:+ rest)
  = (neg, Float.digits_of n +:+ rest).
Proof.
  destruct (digits_of_head n) as (c & r & E & Hc). rewrite E, append_cons.
  destruct neg; [reflexivity|]. apply take_sign_digit, Hc.
Qed.

(** A numeral without a fraction: its digits, then its exponent. *)
Lemma parse_whole (neg : bool) n rest :
  (0 <= n)%Z ->
  match rest with
  | String c _ => Float.is_digit c = false /\ c <> "."%char
  | EmptyString => True
  end ->
  Float.parse ((if neg then "-" else "") +:+ Float.digits_of n +:+ rest)
  = match Float.exponent rest with
    | Some k => Some (Float.of_decimal neg n k)
    | None => None
    end.
Proof.
  intros Hn Hrest. unfold Float.parse. rewrite take_sign_text.
  rewrite (take_digits_app _ rest (all_digits_digits_of n))
    by (destruct rest; [exact I|apply Hrest]).
  assert (Hfrac : match rest with
                  | String "." s' => Float.take_digits s'
                  | _ => (EmptyString, rest)
                  end = (EmptyString, rest)).
  { destruct rest as [|c rest]; [reflexivity|]. destruct Hrest as [_ Hc].
    destruct c as [[] [] [] [] [] [] [] []]; try reflexivity. contradiction. }
  rewrite Hfrac, append_empty_r, digits_value_digits_of by exact Hn.
  destruct (digits_of_head n) as (c & r & E & _). rewrite E at 1.
  cbn [String.length Z.of_nat].
  destruct (Float.exponent rest) as [k|]; [|reflexivity].
  rewrite Z.sub_0_r. reflexivity.
Qed.

(** The numeral of an int is read as the float nearest to the int. *)
Lemma parse_digits (neg : bool) n :
  (0 <= n)%Z ->
  Float.parse ((if neg then "-" else "") +:+ Float.digits_of n)
  = Some (Float.of_decimal neg n 0).
Proof.
  intros Hn. rewrite <- (append_empty_r (Float.digits_of n)).
  rewrite (parse_whole neg n "" Hn I). reflexivity.
Qed.

Lemma parse_str_int z : Float.parse (Py.str_int z) = Some (Float.of_Z z).
Proof. rewrite str_int_text. apply parse_digits. lia. Qed.

Lemma exponent_minus n :
  (0 <= n)%Z -> Float.exponent ("e-" +:+ Float.digits_of n) = Some (- n)%Z.
Proof.
  intros Hn. change ("e-" +:+ Float.digits_of n)
    with (String "e" (String "-" (Float.digits_of n))).
  cbn [Float.exponent Ascii.eqb Bool.eqb orb andb Float.take_sign].
  rewrite <- (append_empty_r (Float.digits_of n)) at 1.
  rewrite (take_digits_app _ "" (all_digits_digits_of n) I).
  destruct (digits_of_head n) as (c & r & E & _). rewrite E.
  rewrite <- E, digits_value_digits_of by exact Hn. reflexivity.
Qed.

(** The numeral written out in full is read as the float. *)
Lemma parse_exact_numeral neg m e :
  (0 < m)%Z -> Float.finite (Float.Finite neg m e) = true ->
  Float.parse (Float.exact_numeral neg m e) = Some (Float.Finite neg m e).
Proof.
  intros Hm Hfin. unfold Float.exact_numeral.
  destruct (Z.leb_spec 0 e) as [He|He].
  - rewrite parse_digits by (apply Z.mul_nonneg_nonneg; [lia|apply Z.pow_nonneg; lia]).
    unfold Float.of_decimal.
    assert (Hpos : (0 < m * 2 ^ e)%Z)
      by (apply Z.mul_pos_pos; [lia|apply Z.pow_pos_nonneg; lia]).
    destruct (Z.eqb_spec (m * 2 ^ e) 0); [lia|]. cbn [Z.leb Z.compare].
    f_equal. apply round_ratio_exact; [lia|lia|lia|exact Hfin|].
    rewrite (Z.max_l 0 (- e)), (Z.max_r 0 e) by lia.
    rewrite Z.pow_0_r. lia.
  - set (n := (- e)%Z).
    assert (Hn : (0 < n)%Z) by (unfold n; lia).
    assert (Hd : (0 < m * 5 ^ n)%Z)
      by (apply Z.mul_pos_pos; [lia|apply Z.pow_pos_nonneg; lia]).
    rewrite parse_whole by first [lia | split; [reflexivity|discriminate]].
    rewrite exponent_minus by lia.
    unfold Float.of_decimal.
    destruct (Z.eqb_spec (m * 5 ^ n) 0); [lia|].
    destruct (Z.leb_spec 0 (- n)); [lia|].
    f_equal. rewrite Z.opp_involutive.
    apply round_ratio_exact;
      [lia|apply Z.pow_pos_nonneg; lia|lia|exact Hfin|].
    rewrite (Z.max_r 0 (- e)), (Z.max_l 0 e) by lia.
    rewrite Z.pow_0_r. fold n.
    change 10%Z with (5 * 2)%Z. rewrite Z.pow_mul_l. lia.
Qed.

Lemma eqb_eq x y : Float.eqb x y = true -> x = y.
Proof.
  destruct x as [s m e|s], y as [s' m' e'|s']; cbn [Float.eqb]; try discriminate.
  - rewrite !andb_true_iff. intros [[Hs Hm] He].
    apply Bool.eqb_prop in Hs. apply Z.eqb_eq in Hm, He. congruence.
  - intros Hs. apply Bool.eqb_prop in Hs. congruence.
Qed.

(** [repr] prints a numeral that reads back as the float. *)
Lemma parse_repr x : Float.finite x = true -> Float.parse (Float.repr x) = Some x.
Proof.
  destruct x as [neg m e|neg]; [|discriminate]. intros Hfin.
  unfold Float.repr. destruct (Z.eqb_spec m 0) as [->|Hm].
  - assert (e = Float.emin) as ->.
    { unfold Float.finite in Hfin. rewrite !andb_true_iff, orb_true_iff in Hfin.
      destruct Hfin as (_ & [H|H]); [discriminate|apply Z.eqb_eq, H]. }
    destruct neg; reflexivity.
  - destruct (List.find _ _) as [s|] eqn:Hfind.
    + apply List.find_some in Hfind as [_ Hs]. unfold Float.reads_back in Hs.
      destruct (Float.parse s) as [y|]; [|discriminate].
      apply eqb_eq in Hs. congruence.
    + apply parse_exact_numeral; [|exact Hfin].
      unfold Float.finite in Hfin. rewrite !andb_true_iff in Hfin.
      destruct Hfin as ((((H0 & _) & _) & _) & _). apply Z.leb_le in H0. lia.
Qed.

(** A numeral holds no space. *)
Lemma exponent_no_space s k : Float.exponent s = Some k -> no_space s = true.
Proof.
  destruct s as [|c s]; [reflexivity|]. cbn [Float.exponent].
  destruct (Ascii.eqb c "e" || Ascii.eqb c "E") eqn:Hc; [|discriminate].
  assert (Hsp : Ascii.eqb c " " = false).
  { apply orb_prop in Hc as [Hc|Hc]; apply Ascii.eqb_eq in Hc; subst c; reflexivity. }
  destruct (Float.take_sign s) as [neg s'] eqn:Hsign.
  pose proof (take_digits_split s') as [Hsplit Hall].
  destruct (Float.take_digits s') as [ds rest]. cbn [fst snd] in *.
  destruct ds as [|c' ds]; [discriminate|]. destruct rest; [|discriminate].
  intros _. cbn [no_space]. rewrite Hsp. cbn [negb andb].
  rewrite append_empty_r in Hsplit.
  apply no_space_all_digits in Hall. rewrite <- Hsplit in Hall. clear Hsplit.
  destruct s as [|c0 s0]; [injection Hsign as <- <-; exact Hall|].
  unfold Float.take_sign in Hsign.
  destruct c0 as [[] [] [] [] [] [] [] []]; injection Hsign as <- <-;
    try exact Hall; cbn [no_space]; exact Hall.
Qed.

Lemma parse_no_space s x : Float.parse s = Some x -> no_space s = true.
Proof.
  unfold Float.parse.
  destruct (Float.take_sign s) as [neg s1] eqn:Hsign.
  pose proof (take_digits_split s1) as [Hsplit1 Hall1].
  destruct (Float.take_digits s1) as [ip s2]. cbn [fst snd] in *.
  assert (Hs : no_space s = no_space s1).
  { destruct s as [|c0 s0]; [injection Hsign as <- <-; reflexivity|].
    unfold Float.take_sign in Hsign.
    destruct c0 as [[] [] [] [] [] [] [] []]; injection Hsign as <- <-; reflexivity. }
  rewrite Hs, Hsplit1, no_space_app, (no_space_all_digits _ Hall1). cbn [andb].
  destruct s2 as [|c s2'].
  - intros _. reflexivity.
  - destruct (Ascii.eqb c ".") eqn:Hdot.
    + apply Ascii.eqb_eq in Hdot. subst c.
      pose proof (take_digits_split s2') as [Hsplit2 Hall2].
      destruct (Float.take_digits s2') as [fp s3]. cbn [fst snd] in *.
      destruct (ip +:+ fp); [discriminate|].
      destruct (Float.exponent s3) as [k|] eqn:Hexp; [|discriminate].
      intros _. cbn [no_space Ascii.eqb Bool.eqb negb andb].
      rewrite Hsplit2, no_space_app, (no_space_all_digits _ Hall2).
      exact (exponent_no_space _ _ Hexp).
    + assert (E : match String c s2' with
                  | String "." s' => Float.take_digits s'
                  | _ => (EmptyString, String c s2')
                  end = (EmptyString, String c s2')).
      { destruct c as [[] [] [] [] [] [] [] []]; try reflexivity. discriminate. }
      rewrite E. destruct (ip +:+ ""); [discriminate|].
      destruct (Float.exponent (String c s2')) as [k|] eqn:Hexp; [|discriminate].
      intros _. exact (exponent_no_space _ _ Hexp).
Qed.

Lemma no_space_repr x : Float.finite x = true -> no_space (Float.repr x) = true.
Proof. intros H. exact (parse_no_space _ _ (parse_repr x H)). Qed.

End Numerals.

(** ** Ints that are floats *)

Section Exact.

Import QArith Qpower.
Local Open Scope Z_scope.

(** [n * 2^k * 2^(-k)] is [n]. *)
Lemma scaled_value n k :
  0 <= k -> (inject_Z (n * 2 ^ k) * inject_Z 2 ^ (- k) == inject_Z n)%Q.
Proof.
  intros Hk. rewrite inject_Z_mult, Qpower_opp, <- Zpower_Qpower by exact Hk.
  rewrite <- Qmult_assoc, Qmult_inv_r, Qmult_1_r; [reflexivity|].
  intros H.
  assert (0 < 2 ^ k) by (apply Z.pow_pos_nonneg; lia).
  unfold Qeq in H. cbn in H. lia.
Qed.

Lemma signed_abs z : (if z <? 0 then - Z.abs z else Z.abs z) = z.
Proof. destruct (Z.ltb_spec z 0); lia. Qed.

(** An int of at most 53 bits is read as the float of its value. *)
Lemma of_Z_exact z : Z.abs z <= 2 ^ 53 -> Float.has_value (Float.of_Z z) z.
Proof.
  intros Hz. unfold Float.has_value, Float.of_Z, Float.of_decimal.
  destruct (Z.eqb_spec (Z.abs z) 0) as [H0|H0].
  - assert (z = 0) as -> by lia. cbn [Float.to_Q Z.ltb Z.compare].
    rewrite Qmult_0_l. reflexivity.
  - cbn [Z.leb Z.compare]. rewrite Z.pow_0_r, Z.mul_1_r.
    set (a := Z.abs z) in *. assert (Ha : 0 < a) by (unfold a; lia).
    destruct (Z.log2_spec a Ha) as [Hl1 Hl2]. rewrite <- Z.add_1_r in Hl2.
    pose proof (Z.log2_nonneg a) as Hl0.
    destruct (Z.eq_dec a (2 ^ 53)) as [E|E].
    + rewrite (round_ratio_exact (z <? 0) a 1 (2 ^ 52) 1);
        [|lia|lia|lia|reflexivity|rewrite E; reflexivity].
      cbn [Float.to_Q]. rewrite <- (signed_abs z) at 2. fold a. rewrite E.
      destruct (z <? 0); reflexivity.
    + assert (Hlog : Z.log2 a <= 52).
      { destruct (Z.le_gt_cases (Z.log2 a) 52); [assumption|exfalso].
        assert (2 ^ 53 <= 2 ^ Z.log2 a) by (apply Z.pow_le_mono_r; lia). lia. }
      set (k := 52 - Z.log2 a).
      assert (Hk : 0 <= k) by (unfold k; lia).
      assert (Hpk : 0 < 2 ^ k) by (apply Z.pow_pos_nonneg; lia).
      assert (Hm1 : 2 ^ 52 <= a * 2 ^ k).
      { replace 52 with (Z.log2 a + k) at 1 by (unfold k; lia).
        rewrite Z.pow_add_r by lia. nia. }
      assert (Hm2 : a * 2 ^ k < 2 ^ 53).
      { replace 53 with ((Z.log2 a + 1) + k) by (unfold k; lia).
        rewrite (Z.pow_add_r 2 (Z.log2 a + 1) k) by lia. nia. }
      rewrite (round_ratio_exact (z <? 0) a 1 (a * 2 ^ k) (- k)); [|lia|lia|lia| |].
      * cbn [Float.to_Q]. rewrite <- (signed_abs z) at 2. fold a.
        destruct (z <? 0).
        -- rewrite <- Z.mul_opp_l. apply scaled_value, Hk.
        -- apply scaled_value, Hk.
      * unfold Float.finite, Float.emin, Float.emax.
        rewrite !andb_true_iff, orb_true_iff.
        repeat split; try (apply Z.leb_le; unfold k; lia);
          [apply Z.ltb_lt; lia|left; apply Z.leb_le; lia].
      * rewrite Z.opp_involutive, (Z.max_r 0 k), (Z.max_l 0 (- k)) by lia.
        rewrite Z.pow_0_r. lia.
Qed.

End Exact.


(** ** Reading back a point *)

Section WktFacts.

Lemma strip_close_app b : Wkt.strip_close (b +:+ ")") = Some b.
Proof.
  induction b as [|c b IH]; [reflexivity|].
  change (String c b +:+ ")") with (String c (b +:+ ")")).
  cbn [Wkt.strip_close]. rewrite IH.
  destruct (b +:+ ")") eqn:E; [destruct b; discriminate|reflexivity].
Qed.

Lemma split_space_app a rest :
  no_space a = true ->
  Wkt.split_space (a +:+ String " "%char rest) = Some (a, rest).
Proof.
  induction a as [|c a IH]; intros H; [reflexivity|].
  cbn [no_space] in H. apply andb_prop in H as [Hc Ha].
  change (String c a +:+ String " "%char rest)
    with (String c (a +:+ String " "%char rest)).
  cbn [Wkt.split_space]. apply negb_true_iff in Hc. rewrite Hc, (IH Ha). reflexivity.
Qed.

Lemma to_shape_wkt_point a b :
  no_space a = true ->
  Wkt.to_shape (Wkt.wkt_point a b)
  = match Wkt.read_coordinate a, Wkt.read_coordinate b with
    | Some px, Some py => Ret (Wkt.Point px py)
    | _, _ => Raise ShapeError
    end.
Proof.
  intros Ha. unfold Wkt.to_shape, Wkt.wkt_point.
  change (Wkt.strip_prefix "POINT(" ("POINT(" +:+ a +:+ " " +:+ b +:+ ")"))
    with (Some (a +:+ String " "%char (b +:+ ")"))).
  cbv beta iota. rewrite (split_space_app a _ Ha), strip_close_app. reflexivity.
Qed.

Lemma read_coordinate_repr x :
  Float.finite x = true ->
  Wkt.read_coordinate (Float.repr x) = Some (Float.repr x).
Proof.
  intros H. unfold Wkt.read_coordinate. rewrite (parse_repr x H). reflexivity.
Qed.

Lemma read_coordinate_str_int z :
  Wkt.read_coordinate (Py.str_int z) = Some (Float.repr (Float.of_Z z)).
Proof. unfold Wkt.read_coordinate. rewrite parse_str_int. reflexivity. Qed.

Lemma number_text so v x :
  number v x ->
  no_space (Py.str so v) = true
  /\ Wkt.read_coordinate (Py.str so v) = Some (Float.repr x).
Proof.
  intros [y Hfin|z]; cbn [Py.str].
  - split; [exact (no_space_repr y Hfin)|exact (read_coordinate_repr y Hfin)].
  - split; [exact (parse_no_space _ _ (parse_str_int z))
           |exact (read_coordinate_str_int z)].
Qed.

Lemma number_same v x : number v x -> within_2_53 v -> same_number v x.
Proof.
  intros [y Hfin|z] Hsmall; cbn [same_number within_2_53] in *.
  - reflexivity.
  - exact (of_Z_exact z Hsmall).
Qed.

End WktFacts.

(** ** Unfolding the handlers *)

Ltac reduce_world :=
  cbn [db db_session producer users user_locations session_rows produced
       out final trace app].

(** Unfolds the handlers but keeps the location step of [update_user]. *)
Ltac run_keeping_location :=
  cbv beta iota zeta delta
    [create_user create_user_try get_user update_user update_user_try
     delete_user delete_user_try rollback_and_report get_health_status
     bind ret raise lift try_except get_world
     doc_get doc_set doc_update doc_delete session_add session_query_first
     session_assign session_delete session_commit session_rollback
     session_execute publish_event Py.copy Py.pop Py.setitem
     with_users with_user_locations with_session_rows with_produced
     negb orb andb fst snd];
  reduce_world.

Ltac run_once :=
  cbv beta iota zeta delta
    [create_user create_user_try get_user update_user update_user_try
     update_user_location
     delete_user delete_user_try rollback_and_report get_health_status
     bind ret raise lift try_except get_world
     doc_get doc_set doc_update doc_delete session_add session_query_first
     session_assign session_delete session_commit session_rollback
     session_execute publish_event Py.copy Py.pop Py.setitem
     with_users with_user_locations with_session_rows with_produced
     negb orb andb fst snd];
  reduce_world.

Ltac run := run_once; change (Py.truthy VNone) with false; run_once.

(** One case distinction on what the run is waiting for. *)
Ltac case_atom :=
  match goal with
  | |- context [db ?w] => destruct (db w) eqn:?
  | |- context [db_session ?w] => destruct (db_session w) eqn:?
  | |- context [Py.truthy ?v] => destruct (Py.truthy v) eqn:?
  | |- context [Py.contains ?k ?v] => destruct (Py.contains k v) as [[|]|?] eqn:?
  | |- context [get_raises ?e] => destruct (get_raises e) eqn:?
  | |- context [users ?w !! ?k] => destruct (users w !! k) eqn:?
  | |- context [has_coordinates ?v] => destruct (has_coordinates v) as [[|]|?] eqn:?
  | |- context [wkt_point ?e ?v] => destruct (wkt_point e v) as [?|?] eqn:?
  | |- context [query_raises ?e] => destruct (query_raises e) eqn:?
  | |- context [List.find ?f ?l] => destruct (List.find f l) eqn:?
  | |- context [set_raises ?e] => destruct (set_raises e) eqn:?
  | |- context [update_raises ?e] => destruct (update_raises e) eqn:?
  | |- context [delete_raises ?e] => destruct (delete_raises e) eqn:?
  | |- context [commit_raises ?e] => destruct (commit_raises e) eqn:?
  | |- context [if primary_key ?t then _ else _] =>
      destruct (primary_key t) eqn:?
  | |- context [producer ?w] => destruct (producer w) eqn:?
  | |- context [produce_raises ?e] => destruct (produce_raises e) eqn:?
  | |- context [execute_raises ?e] => destruct (execute_raises e) eqn:?
  end.

Ltac cases := repeat (run; case_atom); run.

(** Membership in a trace given by its entries. *)
Ltac in_trace :=
  cbn [In]; rewrite ?List.in_app_iff; cbn [In]; solve [auto 20].

(** ** Python operations on a request body *)

Section PythonFacts.

Lemma truthy_dict (d : gmap string pyval) k v :
  d !! k = Some v -> Py.truthy (VDict d) = true.
Proof.
  intros H. cbn [Py.truthy]. apply negb_true_iff, Nat.eqb_neq.
  intros E. apply map_size_empty_iff in E. subst d.
  rewrite lookup_empty in H. discriminate.
Qed.

Lemma truthy_empty_dict : Py.truthy (VDict ∅) = false.
Proof. reflexivity. Qed.

Lemma contains_dict k (d : gmap string pyval) :
  Py.contains k (VDict d) = Ret (bool_decide (is_Some (d !! k))).
Proof. reflexivity. Qed.

Lemma contains_dict_some k (d : gmap string pyval) :
  is_Some (d !! k) -> Py.contains k (VDict d) = Ret true.
Proof. intros H. rewrite contains_dict, bool_decide_eq_true_2; auto. Qed.

Lemma contains_dict_none k (d : gmap string pyval) :
  d !! k = None -> Py.contains k (VDict d) = Ret false.
Proof.
  intros H. rewrite contains_dict, bool_decide_eq_false_2; auto.
  rewrite H. intros [? ?]; discriminate.
Qed.

Lemma has_coordinates_dict (loc : gmap string pyval) lat lon :
  loc !! "latitude" = Some lat -> loc !! "longitude" = Some lon ->
  has_coordinates (VDict loc) = Ret true.
Proof.
  intros Hlat Hlon. unfold has_coordinates.
  rewrite (truthy_dict _ _ _ Hlat). cbn [negb].
  rewrite !contains_dict_some by eauto. reflexivity.
Qed.

Lemma wkt_point_dict e (loc : gmap string pyval) lat lon :
  loc !! "latitude" = Some lat -> loc !! "longitude" = Some lon ->
  wkt_point e (VDict loc)
  = Ret (Wkt.wkt_point (Py.str (str_other e) lon) (Py.str (str_other e) lat)).
Proof.
  intros Hlat Hlon. unfold wkt_point, Py.getitem. rewrite Hlat, Hlon. reflexivity.
Qed.

Lemma quiet_inv e :
  quiet e = true ->
  get_raises e = false /\ set_raises e = false /\ update_raises e = false /\
  delete_raises e = false /\ query_raises e = false /\ commit_raises e = false.
Proof.
  unfold quiet.
  destruct (get_raises e), (set_raises e), (update_raises e),
    (delete_raises e), (query_raises e), (commit_raises e);
    cbn; intros; try discriminate; repeat split.
Qed.

Lemma has_coordinates_missing (loc : gmap string pyval) :
  loc !! "latitude" = None \/ loc !! "longitude" = None ->
  has_coordinates (VDict loc) = Ret false.
Proof.
  intros H. unfold has_coordinates.
  destruct (Py.truthy (VDict loc)); [cbn [negb]|reflexivity].
  rewrite !contains_dict.
  destruct H as [H|H]; rewrite H.
  - rewrite bool_decide_eq_false_2; [reflexivity|]. intros [? ?]; discriminate.
  - destruct (bool_decide (is_Some (loc !! "latitude"))); [|reflexivity].
    rewrite bool_decide_eq_false_2; [reflexivity|]. intros [? ?]; discriminate.
Qed.

(** With both keys present the handler enters its [try] block. *)
Lemma create_user_enters_try e w (d : gmap string pyval) :
  ready w -> is_Some (d !! "email") -> is_Some (d !! "name") ->
  create_user e (VDict d) w
  = try_except
      (create_user_try e (uuid4 e) (VDict d)
         (VDict (<["updated_at" := VServerTimestamp]>
                (<["created_at" := VServerTimestamp]> (delete "location" d))))
         (default VNone (d !! "location")))
      (rollback_and_report "Erro ao criar usuário: ") w.
Proof.
  intros [Hdb Hs] [v Hemail] Hname.
  unfold create_user at 1.
  cbv beta iota zeta delta [bind get_world lift ret Py.copy Py.pop Py.setitem
                            negb orb fst snd].
  rewrite Hdb, Hs, (truthy_dict _ _ _ Hemail). cbv beta iota.
  rewrite !contains_dict_some by eauto. cbv beta iota.
  destruct (try_except _ _ w) as [o w' t]. reflexivity.
Qed.

End PythonFacts.

(** ** The table and its primary key *)

Section TableFacts.

Implicit Types (rows : list UserLocation.t) (id : string).

Lemma find_rows_of id rows :
  List.find (has_id id) rows = None <-> rows_of id rows = [].
Proof.
  unfold rows_of. induction rows as [|r rows IH]; cbn; [tauto|].
  destruct (has_id id r); [split; discriminate|exact IH].
Qed.

Lemma rows_of_app id rows rows' :
  rows_of id (rows ++ rows') = rows_of id rows ++ rows_of id rows'.
Proof. apply List.filter_app. Qed.

Lemma has_id_new id wkt : has_id id (UserLocation.New id wkt) = true.
Proof. apply String.eqb_refl. Qed.

Lemma rows_of_new id wkt :
  rows_of id [UserLocation.New id wkt] = [UserLocation.New id wkt].
Proof. unfold rows_of. cbn [List.filter]. rewrite has_id_new. reflexivity. Qed.

Lemma find_app_new id wkt rows :
  rows_of id rows = [] ->
  List.find (has_id id) (rows ++ [UserLocation.New id wkt])
  = Some (UserLocation.New id wkt).
Proof.
  intros H. apply find_rows_of in H.
  induction rows as [|r rows IH]; cbn [List.find app].
  - rewrite has_id_new. reflexivity.
  - cbn [List.find] in H. destruct (has_id id r); [discriminate|auto].
Qed.

Lemma rows_of_not_in id rows :
  rows_of id rows = [] -> id ∉ List.map UserLocation.user_id rows.
Proof.
  unfold rows_of. induction rows as [|r rows IH]; cbn.
  - intros _ H. inversion H.
  - destruct (has_id id r) eqn:E; [discriminate|].
    intros H Hin. apply elem_of_cons in Hin as [Hin|Hin].
    + unfold has_id in E. rewrite Hin, String.eqb_refl in E. discriminate.
    + exact (IH H Hin).
Qed.

Lemma primary_key_add id wkt rows :
  primary_key rows = true -> rows_of id rows = [] ->
  primary_key (rows ++ [UserLocation.New id wkt]) = true.
Proof.
  unfold primary_key. intros H Hfresh.
  apply bool_decide_eq_true in H. apply bool_decide_eq_true.
  rewrite List.map_app. apply NoDup_app. split; [exact H|]. split.
  - intros x Hx Hx'. cbn in Hx'. apply list_elem_of_singleton in Hx'. subst x.
    exact (rows_of_not_in _ _ Hfresh Hx).
  - cbn. apply NoDup_singleton.
Qed.

Lemma assign_location_keys id wkt rows :
  List.map UserLocation.user_id (assign_location id wkt rows)
  = List.map UserLocation.user_id rows.
Proof.
  unfold assign_location. induction rows as [|r rows IH]; [reflexivity|].
  cbn [List.map]. rewrite IH. f_equal.
  destruct (has_id id r) eqn:E; [|reflexivity].
  apply String.eqb_eq in E. rewrite E. reflexivity.
Qed.

Lemma primary_key_assign id wkt rows :
  primary_key (assign_location id wkt rows) = primary_key rows.
Proof. unfold primary_key. rewrite assign_location_keys. reflexivity. Qed.

Lemma rows_of_assign id wkt rows :
  rows_of id (assign_location id wkt rows)
  = List.map (fun _ => UserLocation.New id wkt) (rows_of id rows).
Proof.
  unfold rows_of, assign_location. induction rows as [|r rows IH]; [reflexivity|].
  cbn [List.map List.filter]. destruct (has_id id r) eqn:E.
  - rewrite has_id_new. cbn [List.map]. rewrite IH. reflexivity.
  - rewrite E. exact IH.
Qed.

Lemma not_in_rows_of id rows :
  id ∉ List.map UserLocation.user_id rows -> rows_of id rows = [].
Proof.
  unfold rows_of. induction rows as [|r rows IH]; [reflexivity|].
  cbn [List.map List.filter]. intros H. apply not_elem_of_cons in H as [Hne H].
  destruct (has_id id r) eqn:E; [|auto].
  apply String.eqb_eq in E. congruence.
Qed.

(** Under the primary key a user has at most one row. *)
Lemma primary_key_one_row id rows r :
  primary_key rows = true -> List.find (has_id id) rows = Some r ->
  rows_of id rows = [r].
Proof.
  unfold primary_key. intros H. apply bool_decide_eq_true in H.
  induction rows as [|r0 rows IH]; [discriminate|].
  cbn [List.map] in H. apply NoDup_cons in H as [Hnotin Hnodup].
  unfold rows_of. cbn [List.find List.filter].
  destruct (has_id id r0) eqn:E.
  - intros [= <-]. f_equal. apply not_in_rows_of.
    apply String.eqb_eq in E. rewrite <- E. exact Hnotin.
  - intros Hf. exact (IH Hnodup Hf).
Qed.

Lemma rows_of_remove id rows : rows_of id (delete_location id rows) = [].
Proof.
  unfold rows_of, delete_location. induction rows as [|r rows IH]; [reflexivity|].
  cbn [List.filter]. destruct (has_id id r) eqn:E; cbn [negb List.filter].
  - exact IH.
  - rewrite E. exact IH.
Qed.

Lemma primary_key_remove id rows :
  primary_key rows = true ->
  primary_key (delete_location id rows) = true.
Proof.
  unfold primary_key, delete_location. intros H. apply bool_decide_eq_true in H.
  apply bool_decide_eq_true.
  induction rows as [|r rows IH]; [constructor|].
  cbn [List.map] in H. apply NoDup_cons in H as [Hnotin Hnodup].
  cbn [List.filter]. destruct (negb (has_id id r)); [|auto].
  cbn [List.map]. apply NoDup_cons. split; [|auto].
  intros Hin. apply Hnotin.
  apply list_elem_of_fmap in Hin as (x & -> & Hx).
  apply list_elem_of_fmap. exists x. split; [reflexivity|].
  apply list_elem_of_In, List.filter_In in Hx as [Hx _].
  apply list_elem_of_In, Hx.
Qed.

End TableFacts.

(** ** The session between two requests *)

Section Discipline.

(** X19.  No handler leaves a change pending: started with a settled
    session, each of them ends with one, whatever the body and whichever
    call raises. *)
Lemma handlers_leave_session_settled e user_id data w :
  settled w ->
  settled (final (create_user e data w))
  /\ settled (final (get_user e user_id w))
  /\ settled (final (update_user e user_id data w))
  /\ settled (final (delete_user e user_id w)).
Proof.
  intros [Hclean Hpk]. unfold settled.
  split; [|split; [|split]].
  - destruct data; cases; rewrite ?Hclean in *; auto.
  - cases; try (destruct (Wkt.to_shape _); run); auto.
  - destruct data; cases; rewrite ?Hclean in *; auto.
  - cases; rewrite ?Hclean in *; auto.
Qed.

End Discipline.

(** ** The properties of the handlers *)

Section Claims.

Implicit Types (e : env) (w : world) (d : gmap string pyval).

(** C1.  Whatever the body, [create_user] calls [commit] only after a
    [set] of the new document has returned.  For a body that holds
    [email] and [name] that document is the body without [location] and
    with the two timestamps; if the [try] block raises, as it does when
    [set] raises, the session is rolled back, the answer is a 500, and
    the table is what it was before, so no row of the generated id is
    committed; if it does not raise the answer is a 201. *)
Theorem create_user_commit_discipline :
  forall e w user_data,
    let r := create_user e user_data w in
    (forall before x after,
        trace r = before ++ x :: after -> call_of x = SessionCommit ->
        exists data, In (Done (DocSet (uuid4 e) data)) before)
    /\ forall d : gmap string pyval,
         ready w -> user_data = VDict d ->
         is_Some (d !! "email") -> is_Some (d !! "name") ->
         let firestore_data :=
           VDict (<["updated_at" := VServerTimestamp]>
                 (<["created_at" := VServerTimestamp]> (delete "location" d))) in
         let location_data := default VNone (d !! "location") in
         let region :=
           create_user_try e (uuid4 e) user_data firestore_data location_data w in
         (forall before x after,
             trace r = before ++ x :: after -> call_of x = SessionCommit ->
             In (Done (DocSet (uuid4 e) firestore_data)) before)
         /\ (forall ex, out region = Raise ex ->
               (exists error, out r = Ret (ServerError error ex))
               /\ http_status (out r) = 500%Z
               /\ (exists t, trace r = t ++ [Done SessionRollback])
               /\ user_locations (final r) = user_locations w
               /\ session_rows (final r) = user_locations w
               /\ (rows_of (uuid4 e) (user_locations w) = [] ->
                   rows_of (uuid4 e) (user_locations (final r)) = []))
         /\ (set_raises e = true -> exists ex, out region = Raise ex)
         /\ (forall resp, out region = Ret resp ->
             out r = Ret (Created (uuid4 e))).
Proof.
  intros e w user_data. cbv zeta. split.
  - (* the order of the calls, for every body *)
    destruct user_data; cases.
    all: intros before x after Ht Hx.
    all: repeat (destruct before as [|? before];
                 cbn [app] in Ht;
                 [ injection Ht as <- ?; cbn [call_of] in Hx;
                   first [discriminate Hx | eexists; in_trace]
                 | injection Ht as <- Ht ]).
    all: try (destruct before; discriminate Ht).
  - intros d Hready -> Hemail Hname.
    rewrite (create_user_enters_try e w d Hready Hemail Hname).
    set (user_id := uuid4 e).
    set (fields := <["updated_at" := VServerTimestamp]>
                   (<["created_at" := VServerTimestamp]> (delete "location" d))).
    set (location_data := default VNone (d !! "location")).
    split; [|split; [|split]].
    + cases.
      all: intros before x after Ht Hx.
      all: repeat (destruct before as [|? before];
                   cbn [app] in Ht;
                   [ injection Ht as <- ?; cbn [call_of] in Hx;
                     first [discriminate Hx | in_trace]
                   | injection Ht as <- Ht ]).
      all: try (destruct before; discriminate Ht).
    + intros ex. unfold try_except.
      destruct (create_user_try e user_id (VDict d) (VDict fields) location_data w)
        as [[resp|ex'] w1 t1] eqn:Hregion; cbn [out]; [discriminate|].
      intros [= ->].
      assert (Htable : user_locations w1 = user_locations w).
      { revert Hregion. cases; intros [= <- <-]; subst; try reflexivity; discriminate. }
      run. rewrite Htable.
      split; [eauto|]. split; [reflexivity|]. split; [eauto|].
      split; [reflexivity|]. split; [reflexivity|]. auto.
    + intros Hset. cases; eauto; try discriminate.
    + intros resp. unfold try_except.
      destruct (create_user_try e user_id (VDict d) (VDict fields) location_data w)
        as [[resp'|ex'] w1 t1] eqn:Hregion; cbn [out]; [|discriminate].
      intros _. revert Hregion. cases; intros [= <- <-]; subst; reflexivity.
Qed.

(** C2.  A create, an update or a delete that answers 201, 200 or 204
    has called [publish_event] exactly once, with the event type of the
    operation and the id of the user it wrote; one that answers 500 has
    not called it. *)
Theorem one_publish_per_success :
  forall e w user_id data,
    (let r := create_user e data w in
     (http_status (out r) = 201%Z ->
      out r = Ret (Created (uuid4 e))
      /\ publish_calls (trace r)
         = [PublishEvent "eventos_usuarios" "UserCreated" (uuid4 e) data])
     /\ (http_status (out r) = 500%Z -> publish_calls (trace r) = []))
    /\ (let r := update_user e user_id data w in
        (http_status (out r) = 200%Z ->
         out r = Ret (Updated user_id)
         /\ publish_calls (trace r)
            = [PublishEvent "eventos_usuarios" "UserUpdated" user_id data])
        /\ (http_status (out r) = 500%Z -> publish_calls (trace r) = []))
    /\ (let r := delete_user e user_id w in
        (http_status (out r) = 204%Z ->
         out r = Ret Deleted
         /\ publish_calls (trace r)
            = [PublishEvent "eventos_usuarios" "UserDeleted" user_id
                 (VDict (<["user_id" := VStr user_id]> ∅))])
        /\ (http_status (out r) = 500%Z -> publish_calls (trace r) = [])).
Proof.
  intros e w user_id data. cbv zeta. split; [|split].
  - destruct data; cases;
      (split; [intros H; try discriminate H; split; reflexivity
              |intros H; try discriminate H; reflexivity]).
  - destruct data; cases;
      (split; [intros H; try discriminate H; split; reflexivity
              |intros H; try discriminate H; reflexivity]).
  - cases;
      (split; [intros H; try discriminate H; split; reflexivity
              |intros H; try discriminate H; reflexivity]).
Qed.

(** C3, as the code has it.  When the body holds [email], [name] and a
    location whose latitude and longitude are numbers, finite floats or
    ints, and no store call raises, [create_user] leaves a document and
    exactly one row for the new id, the row holds the text
    [POINT(lon lat)], longitude first, with each number as Python prints
    it, and [get_user] then answers the floats these two numerals are
    read as, in that order.  A float comes back as the same float, and
    an int of a magnitude up to [2^53] as the float of the same value;
    a larger int comes back rounded. *)
Theorem create_then_get_location :
  forall e e' w (d loc : gmap string pyval) lat lon xlat xlon,
    ready w -> settled w -> quiet e = true -> quiet e' = true ->
    rows_of (uuid4 e) (user_locations w) = [] ->
    is_Some (d !! "email") -> is_Some (d !! "name") ->
    d !! "location" = Some (VDict loc) ->
    loc !! "latitude" = Some lat -> loc !! "longitude" = Some lon ->
    number lat xlat -> number lon xlon ->
    let r := create_user e (VDict d) w in
    let wkt := Wkt.wkt_point (Py.str (str_other e) lon) (Py.str (str_other e) lat) in
    out r = Ret (Created (uuid4 e))
    /\ is_Some (users (final r) !! uuid4 e)
    /\ rows_of (uuid4 e) (user_locations (final r)) = [UserLocation.New (uuid4 e) wkt]
    /\ (exists user_data,
         out (get_user e' (uuid4 e) (final r)) = Ret (Fetched user_data)
         /\ user_data !! "location"
            = Some (VDict (<["latitude" := VFloat (Float.repr xlat)]>
                          (<["longitude" := VFloat (Float.repr xlon)]> ∅))))
    /\ (within_2_53 lat -> same_number lat xlat)
    /\ (within_2_53 lon -> same_number lon xlon).
Proof.
  intros e e' w d loc lat lon xlat xlon [Hdb Hs] [Hclean Hpk] He He' Hfresh
    Hemail Hname Hloc Hlat Hlon Hxlat Hxlon r wkt.
  apply quiet_inv in He as (_ & Hset & _ & _ & _ & Hcommit).
  apply quiet_inv in He' as (Hget & _ & _ & _ & Hquery & _).
  destruct Hemail as [vemail Hemail].
  assert (Hr : r = Run (Ret (Created (uuid4 e))) (final r) (trace r)
               /\ users (final r) = <[uuid4 e := resolve e
                     (<["updated_at" := VServerTimestamp]>
                      (<["created_at" := VServerTimestamp]> (delete "location" d)))]>
                     (users w)
               /\ user_locations (final r)
                  = user_locations w ++ [UserLocation.New (uuid4 e) wkt]
               /\ session_rows (final r) = user_locations (final r)
               /\ db (final r) = true /\ db_session (final r) = true).
  { subst r. run. rewrite Hdb, Hs. run.
    rewrite (truthy_dict _ _ _ Hemail). run.
    rewrite !contains_dict_some by eauto. run.
    rewrite Hloc. cbn [default from_option id].
    rewrite (has_coordinates_dict _ _ _ Hlat Hlon). run.
    rewrite (wkt_point_dict _ _ _ _ Hlat Hlon). run.
    rewrite Hset. run. rewrite Hcommit. run.
    rewrite Hclean, (primary_key_add _ _ _ Hpk Hfresh). run.
    destruct (producer w); run; [destruct (produce_raises e); run|];
      rewrite ?Hdb, ?Hs; auto 10. }
  destruct Hr as (Hr & Husers & Hrows & Hsess & Hdb' & Hs').
  split; [rewrite Hr; reflexivity|].
  split; [rewrite Husers, lookup_insert_eq; eauto|].
  split.
  { rewrite Hrows, rows_of_app, Hfresh, rows_of_new. reflexivity. }
  destruct (number_text (str_other e) _ _ Hxlat) as [Hsp_lat Hrd_lat].
  destruct (number_text (str_other e) _ _ Hxlon) as [Hsp_lon Hrd_lon].
  split; [|split; apply number_same; assumption].
  eexists. split.
  - run. rewrite Hdb', Hs'. run. rewrite Hget. run.
    rewrite Husers, lookup_insert_eq. run. rewrite Hquery. run.
    rewrite Hsess, Hrows.
    rewrite (find_app_new _ _ _ Hfresh). cbn [UserLocation.location]. subst wkt.
    rewrite (to_shape_wkt_point _ _ Hsp_lon), Hrd_lon, Hrd_lat. run.
    cbn [Wkt.x Wkt.y]. reflexivity.
  - apply lookup_insert_eq.
Qed.

(** C4, as the code has it.  An absent body, or a body without the key
    [email] or without the key [name], is answered 400 and nothing is
    called or written.  A body with both keys passes the test whatever
    their values, the empty string included: the answer is then a 201 or
    a 500. *)
Theorem create_user_validation :
  forall e w,
    ready w ->
    let invalid := Run (Ret (BadRequest "Email e nome são obrigatórios.")) w [] in
    create_user e VNone w = invalid
    /\ forall d : gmap string pyval,
         (d !! "email" = None \/ d !! "name" = None ->
          create_user e (VDict d) w = invalid)
         /\ (is_Some (d !! "email") -> is_Some (d !! "name") ->
             http_status (out (create_user e (VDict d) w)) = 201%Z
             \/ http_status (out (create_user e (VDict d) w)) = 500%Z).
Proof.
  intros e w Hready invalid. split; [|intros d; split].
  - destruct Hready as [Hdb Hs]. subst invalid. run. rewrite Hdb, Hs. reflexivity.
  - destruct Hready as [Hdb Hs]. subst invalid. intros Hmissing.
    run. rewrite Hdb, Hs. run.
    destruct (Py.truthy (VDict d)); run; [|reflexivity].
    rewrite !contains_dict.
    destruct Hmissing as [H|H]; rewrite H.
    + rewrite bool_decide_eq_false_2 by (intros [? ?]; discriminate). reflexivity.
    + destruct (bool_decide (is_Some (d !! "email"))); run; [|reflexivity].
      rewrite bool_decide_eq_false_2 by (intros [? ?]; discriminate). reflexivity.
  - intros Hemail Hname.
    rewrite (create_user_enters_try e w d Hready Hemail Hname).
    cases; auto.
Qed.

(** C5.  An update of an existing user whose body holds a location with
    a latitude and a longitude adds a row when the user has none, and
    assigns the new text to the row when the user has one, leaving the
    number of rows as it was.  Either way the user ends with exactly one
    row, holding the new text, and the primary key still holds. *)
Theorem update_location_upsert :
  forall e w user_id (d loc old : gmap string pyval) lat lon,
    ready w -> settled w -> quiet e = true ->
    users w !! user_id = Some old ->
    d !! "location" = Some (VDict loc) ->
    loc !! "latitude" = Some lat -> loc !! "longitude" = Some lon ->
    let wkt := Wkt.wkt_point (Py.str (str_other e) lon) (Py.str (str_other e) lat) in
    let r := update_user e user_id (VDict d) w in
    out r = Ret (Updated user_id)
    /\ (rows_of user_id (user_locations w) = [] ->
        user_locations (final r)
        = user_locations w ++ [UserLocation.New user_id wkt])
    /\ (rows_of user_id (user_locations w) <> [] ->
        user_locations (final r) = assign_location user_id wkt (user_locations w)
        /\ length (user_locations (final r)) = length (user_locations w))
    /\ rows_of user_id (user_locations (final r)) = [UserLocation.New user_id wkt]
    /\ primary_key (user_locations (final r)) = true.
Proof.
  intros e w user_id d loc old lat lon [Hdb Hs] [Hclean Hpk] He Hold
    Hloc Hlat Hlon wkt r.
  apply quiet_inv in He as (Hget & _ & Hupd & _ & Hquery & Hcommit).
  assert (Htruthy : forall m : gmap string pyval,
             Py.truthy (VDict (<["updated_at" := VServerTimestamp]> m)) = true).
  { intros m. eapply truthy_dict, lookup_insert_eq. }
  destruct (List.find (has_id user_id) (user_locations w)) as [r0|] eqn:Hfind.
  - (* a row exists: it is assigned in place *)
    assert (Hid : UserLocation.user_id r0 = user_id).
    { apply List.find_some in Hfind as [_ H]. apply String.eqb_eq, H. }
    assert (Hr : out r = Ret (Updated user_id)
                 /\ user_locations (final r)
                    = assign_location user_id wkt (user_locations w)).
    { subst r. run. rewrite Hdb, Hs. run.
      rewrite (truthy_dict _ _ _ Hloc). run. rewrite Hget. run. rewrite Hold.
      rewrite Hloc. cbn [default from_option id].
      rewrite (has_coordinates_dict _ _ _ Hlat Hlon). run.
      rewrite (wkt_point_dict _ _ _ _ Hlat Hlon). run.
      rewrite Hquery. run. rewrite Hclean, Hfind. run.
      rewrite Htruthy. run. rewrite Hold. run. rewrite Hupd. run.
      rewrite Hcommit. run. rewrite Hid, Hclean, primary_key_assign, Hpk. run.
      destruct (producer w); run; [destruct (produce_raises e); run|]; auto. }
    destruct Hr as [Hout Hrows].
    split; [exact Hout|].
    split; [intros H; apply find_rows_of in H; congruence|].
    split.
    { intros _. split; [exact Hrows|]. rewrite Hrows. apply List.length_map. }
    split.
    { rewrite Hrows, rows_of_assign, (primary_key_one_row _ _ _ Hpk Hfind).
      reflexivity. }
    rewrite Hrows, primary_key_assign. exact Hpk.
  - (* no row: one is added *)
    assert (Hfresh : rows_of user_id (user_locations w) = []).
    { apply find_rows_of, Hfind. }
    assert (Hr : out r = Ret (Updated user_id)
                 /\ user_locations (final r)
                    = user_locations w ++ [UserLocation.New user_id wkt]).
    { subst r. run. rewrite Hdb, Hs. run.
      rewrite (truthy_dict _ _ _ Hloc). run. rewrite Hget. run. rewrite Hold.
      rewrite Hloc. cbn [default from_option id].
      rewrite (has_coordinates_dict _ _ _ Hlat Hlon). run.
      rewrite (wkt_point_dict _ _ _ _ Hlat Hlon). run.
      rewrite Hquery. run. rewrite Hclean, Hfind. run.
      rewrite Htruthy. run. rewrite Hold. run. rewrite Hupd. run.
      rewrite Hcommit. run. rewrite ?Hclean, (primary_key_add _ _ _ Hpk Hfresh). run.
      destruct (producer w); run; [destruct (produce_raises e); run|]; auto. }
    destruct Hr as [Hout Hrows].
    split; [exact Hout|].
    split; [intros _; exact Hrows|].
    split; [intros H; contradiction|].
    split.
    { rewrite Hrows, rows_of_app, Hfresh, rows_of_new. reflexivity. }
    rewrite Hrows. apply primary_key_add; assumption.
Qed.

(** C6.  A delete of an existing user answers 204 when no store call
    raises, also when the user has no row, which then leaves the table
    as it was without a [delete] on the session.  After a delete that
    answered 204 the user has neither document nor row, and a second
    delete of the same id answers 404. *)
Theorem delete_user_removes_both :
  forall e w user_id (old : gmap string pyval),
    ready w -> users w !! user_id = Some old ->
    let r := delete_user e user_id w in
    (quiet e = true -> settled w -> out r = Ret Deleted)
    /\ (quiet e = true -> settled w ->
        rows_of user_id (user_locations w) = [] ->
        user_locations (final r) = user_locations w
        /\ Forall (fun x => call_of x <> SessionDelete user_id) (trace r))
    /\ (out r = Ret Deleted ->
        users (final r) !! user_id = None
        /\ rows_of user_id (user_locations (final r)) = []
        /\ forall e', get_raises e' = false ->
             out (delete_user e' user_id (final r)) = Ret NotFound).
Proof.
  intros e w user_id old [Hdb Hs] Hold r.
  assert (Hsecond : forall w', db w' = true -> db_session w' = true ->
            users w' !! user_id = None ->
            forall e', get_raises e' = false ->
              out (delete_user e' user_id w') = Ret NotFound).
  { intros w' Hdb' Hs' Hnone e' Hget.
    run. rewrite Hdb', Hs'. run. rewrite Hget. run. rewrite Hnone. reflexivity. }
  split; [|split].
  - intros He [Hclean Hpk].
    apply quiet_inv in He as (Hget & _ & _ & Hdel & Hquery & Hcommit).
    subst r. run. rewrite Hdb, Hs. run. rewrite Hget. run. rewrite Hold.
    rewrite Hquery. run. rewrite Hclean.
    destruct (List.find (has_id user_id) (user_locations w)) as [r0|] eqn:Hfind; run;
      rewrite Hdel; run; rewrite Hcommit; run.
    + apply List.find_some in Hfind as [_ Hid]. apply String.eqb_eq in Hid.
      rewrite Hid, Hclean, (primary_key_remove _ _ Hpk). run.
      destruct (producer w); run; [destruct (produce_raises e); run|]; reflexivity.
    + rewrite Hclean, Hpk. run.
      destruct (producer w); run; [destruct (produce_raises e); run|]; reflexivity.
  - intros He [Hclean Hpk] Hnone.
    apply quiet_inv in He as (Hget & _ & _ & Hdel & Hquery & Hcommit).
    apply find_rows_of in Hnone.
    subst r. run. rewrite Hdb, Hs. run. rewrite Hget. run. rewrite Hold.
    rewrite Hquery. run. rewrite Hclean, Hnone. run.
    rewrite Hdel. run. rewrite Hcommit. run. rewrite Hclean, Hpk. run.
    destruct (producer w); run; [destruct (produce_raises e); run|];
      (split; [reflexivity|repeat constructor; cbn [call_of]; discriminate]).
  - assert (Hinv : out r = Ret Deleted ->
             db (final r) = true /\ db_session (final r) = true
             /\ users (final r) = delete user_id (users w)
             /\ rows_of user_id (user_locations (final r)) = []).
    { subst r. run. rewrite Hdb, Hs. run.
      destruct (get_raises e); run; [discriminate|]. rewrite Hold.
      destruct (query_raises e); run; [discriminate|].
      destruct (List.find (has_id user_id) (session_rows w)) as [r0|] eqn:Hfind; run;
        (destruct (delete_raises e); run; [discriminate|]);
        (destruct (commit_raises e); run; [discriminate|]).
      - apply List.find_some in Hfind as [_ Hid]. apply String.eqb_eq in Hid.
        rewrite Hid.
        destruct (primary_key (delete_location user_id (session_rows w)));
          run; [|discriminate].
        destruct (producer w); run; [destruct (produce_raises e); run|];
          (intros _; rewrite ?Hdb, ?Hs; repeat split; apply rows_of_remove).
      - destruct (primary_key (session_rows w)); run; [|discriminate].
        destruct (producer w); run; [destruct (produce_raises e); run|];
          (intros _; rewrite ?Hdb, ?Hs; repeat split; apply find_rows_of, Hfind). }
    intros Hout. destruct (Hinv Hout) as (Hdb' & Hs' & Husers & Hrows).
    assert (Hnone : users (final r) !! user_id = None).
    { rewrite Husers. apply lookup_delete_eq. }
    split; [exact Hnone|]. split; [exact Hrows|].
    apply Hsecond; assumption.
Qed.

(** C7.  When the user has no document, [get_user] answers 404 after
    the one read of the document, whatever the table holds, and changes
    nothing. *)
Theorem get_user_not_found :
  forall e w user_id,
    ready w -> get_raises e = false ->
    users w !! user_id = None ->
    get_user e user_id w = Run (Ret NotFound) w [Done (DocGet user_id)].
Proof.
  intros e w user_id [Hdb Hs] Hget Hnone.
  run. rewrite Hdb, Hs. run. rewrite Hget. run. rewrite Hnone. reflexivity.
Qed.

(** C8.  When the body holds [email] and [name], and either no location
    or a location without latitude or without longitude, [create_user]
    adds no row (the table is what it was and the session saw no [add]),
    and [get_user] on the new id answers a user without the key
    [location]. *)
Theorem create_without_location :
  forall e e' w (d : gmap string pyval),
    ready w -> settled w -> quiet e = true -> quiet e' = true ->
    rows_of (uuid4 e) (user_locations w) = [] ->
    is_Some (d !! "email") -> is_Some (d !! "name") ->
    (d !! "location" = None
     \/ exists loc : gmap string pyval,
          d !! "location" = Some (VDict loc)
          /\ (loc !! "latitude" = None \/ loc !! "longitude" = None)) ->
    let r := create_user e (VDict d) w in
    out r = Ret (Created (uuid4 e))
    /\ is_Some (users (final r) !! uuid4 e)
    /\ user_locations (final r) = user_locations w
    /\ Forall (fun x => forall row, call_of x <> SessionAdd row) (trace r)
    /\ exists user_data,
         out (get_user e' (uuid4 e) (final r)) = Ret (Fetched user_data)
         /\ user_data !! "location" = None.
Proof.
  intros e e' w d [Hdb Hs] [Hclean Hpk] He He' Hfresh Hemail Hname Hloc r.
  apply quiet_inv in He as (_ & Hset & _ & _ & _ & Hcommit).
  apply quiet_inv in He' as (Hget & _ & _ & _ & Hquery & _).
  destruct Hemail as [vemail Hemail].
  assert (Hstage : has_coordinates (default VNone (d !! "location")) = Ret false).
  { destruct Hloc as [Hloc|(loc & Hloc & Hmiss)]; rewrite Hloc; cbn [default from_option id].
    - reflexivity.
    - apply has_coordinates_missing, Hmiss. }
  assert (Hr : out r = Ret (Created (uuid4 e))
               /\ users (final r) = <[uuid4 e := resolve e
                     (<["updated_at" := VServerTimestamp]>
                      (<["created_at" := VServerTimestamp]> (delete "location" d)))]>
                     (users w)
               /\ user_locations (final r) = user_locations w
               /\ session_rows (final r) = user_locations w
               /\ db (final r) = true /\ db_session (final r) = true
               /\ Forall (fun x => forall row, call_of x <> SessionAdd row) (trace r)).
  { subst r. run. rewrite Hdb, Hs. run.
    rewrite (truthy_dict _ _ _ Hemail). run.
    rewrite !contains_dict_some by eauto. run.
    rewrite Hstage. run. rewrite Hset. run. rewrite Hcommit. run.
    rewrite Hclean, Hpk. run.
    destruct (producer w); run; [destruct (produce_raises e); run|];
      rewrite ?Hdb, ?Hs; repeat split; auto;
      repeat constructor; cbn [call_of]; discriminate. }
  destruct Hr as (Hr & Husers & Hrows & Hsess & Hdb' & Hs' & Htrace).
  split; [exact Hr|].
  split; [rewrite Husers, lookup_insert_eq; eauto|].
  split; [exact Hrows|].
  split; [exact Htrace|].
  eexists. split.
  - run. rewrite Hdb', Hs'. run. rewrite Hget. run.
    rewrite Husers, lookup_insert_eq. run. rewrite Hquery. run.
    rewrite Hsess. apply find_rows_of in Hfresh. rewrite Hfresh. reflexivity.
  - rewrite lookup_insert_ne by discriminate.
    unfold resolve. rewrite lookup_fmap, !lookup_insert_ne by discriminate.
    rewrite lookup_delete_eq. reflexivity.
Qed.

(** C9, as the code has it.  An update with a non-empty body on an
    existing user whose location step raises no exception sends a
    document update, and the fields it sends hold [updated_at], so they
    are never empty, also when the body holds a location only. *)
Theorem update_user_stamps_updated_at :
  forall e w user_id (d old : gmap string pyval),
    ready w -> Py.truthy (VDict d) = true ->
    get_raises e = false -> users w !! user_id = Some old ->
    let location_data := default VNone (d !! "location") in
    let fields := <["updated_at" := VServerTimestamp]> (delete "location" d) in
    let r := update_user e user_id (VDict d) w in
    out (update_user_location e user_id location_data w) = Ret tt ->
    fields !! "updated_at" = Some VServerTimestamp
    /\ Py.truthy (VDict fields) = true
    /\ exists x, In x (trace r) /\ call_of x = DocUpdate user_id (VDict fields).
Proof.
  intros e w user_id d old [Hdb Hs] Hd Hget Hold location_data fields r Hstage.
  assert (Hstamp : fields !! "updated_at" = Some VServerTimestamp)
    by apply lookup_insert_eq.
  assert (Htruthy : Py.truthy (VDict fields) = true)
    by exact (truthy_dict _ _ _ Hstamp).
  split; [exact Hstamp|]. split; [exact Htruthy|].
  subst r. run_keeping_location. rewrite Hdb, Hs. run_keeping_location.
  rewrite Hd. run_keeping_location. rewrite Hget. run_keeping_location.
  rewrite Hold. fold location_data. fold fields.
  destruct (update_user_location e user_id location_data w) as [[[]|ex] w1 t1];
    cbn [out] in Hstage; [|discriminate].
  rewrite Htruthy. cases.
  all: first
    [ exists (Done (DocUpdate user_id (VDict fields)));
      split; [in_trace | reflexivity]
    | exists (Failed (DocUpdate user_id (VDict fields)));
      split; [in_trace | reflexivity] ].
Qed.

(** C10.  An update with an empty or absent body is answered 400 before
    any call: no document is read, nothing is written, whether or not
    the user exists. *)
Theorem update_user_empty_payload :
  forall e w user_id update_data,
    ready w -> Py.truthy update_data = false ->
    update_user e user_id update_data w
    = Run (Ret (BadRequest "Dados para atualização são obrigatórios.")) w [].
Proof.
  intros e w user_id update_data [Hdb Hs] Hempty.
  run. rewrite Hdb, Hs, Hempty. reflexivity.
Qed.

End Claims.

(** ** The properties on the sample requests *)

(** The document write fails after the row of alice was staged. *)
Lemma create_user_commit_discipline_witness :
  let r := create_user set_fails_env (VDict alice) empty_world in
  (forall before x after,
      trace r = before ++ x :: after -> call_of x = SessionCommit ->
      exists data, In (Done (DocSet "7c9e6679" data)) before)
  /\ http_status (out r) = 500%Z
  /\ (exists t, trace r = t ++ [Done SessionRollback])
  /\ user_locations (final r) = []
  /\ session_rows (final r) = []
  /\ rows_of "7c9e6679" (user_locations (final r)) = [].
Proof.
  destruct (create_user_commit_discipline set_fails_env empty_world (VDict alice))
    as [Horder Hdict].
  destruct (Hdict alice) as (_ & Hexn & Hset & _);
    [split; reflexivity | reflexivity | eexists; reflexivity
    | eexists; reflexivity |].
  destruct (Hset eq_refl) as [ex Hex].
  destruct (Hexn ex Hex) as (_ & Hstatus & Hlast & Htable & Hsession & Hfresh).
  exact (conj Horder
           (conj Hstatus (conj Hlast (conj Htable (conj Hsession (Hfresh eq_refl)))))).
Defined.

(** Three successful writes and one failed commit. *)
Lemma one_publish_per_success_witness :
  publish_calls (trace (create_user quiet_env (VDict alice) empty_world))
  = [PublishEvent "eventos_usuarios" "UserCreated" "7c9e6679" (VDict alice)]
  /\ publish_calls
       (trace (update_user quiet_env "7c9e6679" (VDict move_update) world_with_alice))
     = [PublishEvent "eventos_usuarios" "UserUpdated" "7c9e6679" (VDict move_update)]
  /\ publish_calls (trace (delete_user quiet_env "7c9e6679" world_with_alice))
     = [PublishEvent "eventos_usuarios" "UserDeleted" "7c9e6679"
          (VDict (<["user_id" := VStr "7c9e6679"]> ∅))]
  /\ publish_calls (trace (create_user commit_fails_env (VDict alice) empty_world))
     = [].
Proof.
  destruct (one_publish_per_success quiet_env empty_world "7c9e6679" (VDict alice))
    as ((Hcreate & _) & _ & _).
  destruct (one_publish_per_success quiet_env world_with_alice "7c9e6679"
              (VDict move_update)) as (_ & (Hupdate & _) & (Hdelete & _)).
  destruct (one_publish_per_success commit_fails_env empty_world "7c9e6679"
              (VDict alice)) as ((_ & Hfail) & _ & _).
  exact (conj (proj2 (Hcreate eq_refl))
          (conj (proj2 (Hupdate eq_refl))
             (conj (proj2 (Hdelete eq_refl)) (Hfail eq_refl)))).
Defined.

Lemma create_then_get_location_witness :
  let r := create_user quiet_env (VDict alice) empty_world in
  out r = Ret (Created "7c9e6679")
  /\ is_Some (users (final r) !! "7c9e6679")
  /\ rows_of "7c9e6679" (user_locations (final r))
     = [UserLocation.New "7c9e6679" "POINT(-46.6 -23.5)"]
  /\ (exists user_data,
       out (get_user quiet_env "7c9e6679" (final r)) = Ret (Fetched user_data)
       /\ user_data !! "location"
          = Some (VDict (point_of (VFloat "-23.5") (VFloat "-46.6"))))
  /\ same_number (VFloat "-23.5") minus_23_5
  /\ same_number (VFloat "-46.6") minus_46_6.
Proof.
  assert (Hlat : Float.repr minus_23_5 = "-23.5") by (vm_compute; reflexivity).
  assert (Hlon : Float.repr minus_46_6 = "-46.6") by (vm_compute; reflexivity).
  assert (Hnlat : number (VFloat "-23.5") minus_23_5)
    by (rewrite <- Hlat; apply number_float; reflexivity).
  assert (Hnlon : number (VFloat "-46.6") minus_46_6)
    by (rewrite <- Hlon; apply number_float; reflexivity).
  destruct (create_then_get_location quiet_env quiet_env empty_world alice
              (point_of (VFloat "-23.5") (VFloat "-46.6"))
              (VFloat "-23.5") (VFloat "-46.6") minus_23_5 minus_46_6
              (conj eq_refl eq_refl) (conj eq_refl eq_refl) eq_refl eq_refl eq_refl
              (ex_intro _ _ eq_refl) (ex_intro _ _ eq_refl) eq_refl eq_refl eq_refl
              Hnlat Hnlon)
    as (H1 & H2 & H3 & H4 & H5 & H6).
  rewrite Hlat, Hlon in H4.
  split; [exact H1|]. split; [exact H2|]. split; [exact H3|].
  split; [exact H4|]. split; [exact (H5 I)|exact (H6 I)].
Defined.

(** C3 as stated fails: a latitude of [2^53 + 1] is accepted, the row
    holds its numeral, and what comes back is the float [2^53]. *)
Lemma create_then_get_rounds_large_int :
  let r := create_user quiet_env (VDict far_north) empty_world in
  out r = Ret (Created "7c9e6679")
  /\ rows_of "7c9e6679" (user_locations (final r))
     = [UserLocation.New "7c9e6679" "POINT(0 9007199254740993)"]
  /\ out (get_user quiet_env "7c9e6679" (final r))
     = Ret (Fetched
              (<["location" := VDict (point_of (VFloat "9007199254740992.0")
                                               (VFloat "0.0"))]>
               (<["id" := VStr "7c9e6679"]>
               (<["email" := VStr "a@b.com"]>
               (<["name" := VStr "A"]>
               (<["created_at" := VDatetime "2026-01-01T00:00:00Z"]>
               (<["updated_at" := VDatetime "2026-01-01T00:00:00Z"]> ∅)))))))
  /\ Float.has_value (Float.of_Z 9007199254740993) 9007199254740992
  /\ ~ Float.has_value (Float.of_Z 9007199254740993) 9007199254740993.
Proof.
  repeat split; try (vm_compute; reflexivity).
  vm_compute. discriminate.
Qed.

Lemma create_user_validation_witness :
  let invalid :=
    Run (Ret (BadRequest "Email e nome são obrigatórios.")) empty_world [] in
  create_user quiet_env VNone empty_world = invalid
  /\ create_user quiet_env (VDict no_email_user) empty_world = invalid
  /\ (http_status (out (create_user quiet_env (VDict alice) empty_world)) = 201%Z
      \/ http_status (out (create_user quiet_env (VDict alice) empty_world)) = 500%Z).
Proof.
  destruct (create_user_validation quiet_env empty_world (conj eq_refl eq_refl))
    as [Hnone Hdict].
  split; [exact Hnone|]. split.
  - apply (Hdict no_email_user). left. reflexivity.
  - apply (Hdict alice); eexists; reflexivity.
Defined.

(** C4 as stated fails: an empty email and an empty name are accepted. *)
Lemma create_user_accepts_blank_email_and_name :
  let r := create_user quiet_env (VDict blank_user) empty_world in
  blank_user !! "email" = Some (VStr "")
  /\ blank_user !! "name" = Some (VStr "")
  /\ out r = Ret (Created "7c9e6679")
  /\ http_status (out r) = 201%Z
  /\ users (final r) <> users empty_world.
Proof.
  repeat split; try reflexivity.
  intros H. apply (f_equal (fun m => m !! "7c9e6679")) in H.
  vm_compute in H. discriminate.
Qed.

Lemma update_location_upsert_witness :
  let r := update_user quiet_env "7c9e6679" (VDict move_update) world_with_alice in
  out r = Ret (Updated "7c9e6679")
  /\ (rows_of "7c9e6679" (user_locations world_with_alice) = [] ->
      user_locations (final r)
      = user_locations world_with_alice
        ++ [UserLocation.New "7c9e6679" "POINT(-20.0 -10.0)"])
  /\ (rows_of "7c9e6679" (user_locations world_with_alice) <> [] ->
      user_locations (final r)
      = assign_location "7c9e6679" "POINT(-20.0 -10.0)"
          (user_locations world_with_alice)
      /\ length (user_locations (final r))
         = length (user_locations world_with_alice))
  /\ rows_of "7c9e6679" (user_locations (final r))
     = [UserLocation.New "7c9e6679" "POINT(-20.0 -10.0)"]
  /\ primary_key (user_locations (final r)) = true.
Proof.
  apply (update_location_upsert quiet_env world_with_alice "7c9e6679" move_update
           (point_of (VFloat "-10.0") (VFloat "-20.0")) alice_document
           (VFloat "-10.0") (VFloat "-20.0"));
    try reflexivity; split; reflexivity.
Defined.

Lemma delete_user_removes_both_witness :
  let r := delete_user quiet_env "7c9e6679" world_with_alice in
  out r = Ret Deleted
  /\ users (final r) !! "7c9e6679" = None
  /\ rows_of "7c9e6679" (user_locations (final r)) = []
  /\ out (delete_user quiet_env "7c9e6679" (final r)) = Ret NotFound.
Proof.
  destruct (delete_user_removes_both quiet_env world_with_alice "7c9e6679"
              alice_document) as (Hok & _ & Hthen);
    [split; reflexivity | reflexivity |].
  assert (Hout := Hok eq_refl (conj eq_refl eq_refl)).
  destruct (Hthen Hout) as (Hdoc & Hrows & Hagain).
  exact (conj Hout (conj Hdoc (conj Hrows (Hagain quiet_env eq_refl)))).
Defined.

(** A user without a document but with a row in the table. *)
Lemma get_user_not_found_witness :
  let w := with_users ∅ world_with_alice in
  rows_of "7c9e6679" (user_locations w)
  = [UserLocation.New "7c9e6679" "POINT(-46.6 -23.5)"]
  /\ get_user quiet_env "7c9e6679" w
     = Run (Ret NotFound) w [Done (DocGet "7c9e6679")].
Proof.
  split; [reflexivity|].
  apply (get_user_not_found quiet_env (with_users ∅ world_with_alice) "7c9e6679");
    [split; reflexivity | reflexivity | reflexivity].
Defined.

Lemma create_without_location_witness :
  let r := create_user quiet_env (VDict no_location_user) empty_world in
  out r = Ret (Created "7c9e6679")
  /\ is_Some (users (final r) !! "7c9e6679")
  /\ user_locations (final r) = []
  /\ Forall (fun x => forall row, call_of x <> SessionAdd row) (trace r)
  /\ exists user_data,
       out (get_user quiet_env "7c9e6679" (final r)) = Ret (Fetched user_data)
       /\ user_data !! "location" = None.
Proof.
  apply (create_without_location quiet_env quiet_env empty_world no_location_user);
    try reflexivity; try (split; reflexivity);
    try (eexists; reflexivity).
  left. reflexivity.
Defined.

(** A payload that holds a location and nothing else. *)
Lemma update_user_stamps_updated_at_witness :
  let fields : gmap string pyval := <["updated_at" := VServerTimestamp]> ∅ in
  let r := update_user quiet_env "7c9e6679" (VDict move_update) world_with_alice in
  fields !! "updated_at" = Some VServerTimestamp
  /\ Py.truthy (VDict fields) = true
  /\ exists x, In x (trace r) /\ call_of x = DocUpdate "7c9e6679" (VDict fields).
Proof.
  apply (update_user_stamps_updated_at quiet_env world_with_alice "7c9e6679"
           move_update alice_document);
    [split; reflexivity | reflexivity | reflexivity | reflexivity | reflexivity].
Defined.

(** C9 as stated fails: [{location: 5}] is not empty and the user
    exists, yet the handler answers 500 without a document update. *)
Lemma update_user_bad_location_sends_no_update :
  let r := update_user quiet_env "7c9e6679" (VDict bad_location_update)
             world_with_alice in
  Py.truthy (VDict bad_location_update) = true
  /\ users world_with_alice !! "7c9e6679" = Some alice_document
  /\ out r = Ret (ServerError "Erro ao atualizar usuário: " TypeError)
  /\ trace r = [Done (DocGet "7c9e6679"); Done SessionRollback]
  /\ users (final r) = users world_with_alice.
Proof. repeat split; reflexivity. Qed.

(** The empty payload on a user that does not exist. *)
Lemma update_user_empty_payload_witness :
  users empty_world !! "7c9e6679" = None
  /\ update_user quiet_env "7c9e6679" (VDict ∅) empty_world
     = Run (Ret (BadRequest "Dados para atualização são obrigatórios.")) empty_world [].
Proof.
  split; [reflexivity|].
  apply (update_user_empty_payload quiet_env empty_world "7c9e6679" (VDict ∅));
    [split; reflexivity | reflexivity].
Defined.

(** ** The scenarios of the test suite *)

(** [test_update_user_location]: the text assigned to the row. *)
Example wkt_point_of_update :
  wkt_point quiet_env (VDict (point_of (VFloat "-10.0") (VFloat "-20.0")))
  = Ret "POINT(-20.0 -10.0)".
Proof. reflexivity. Qed.

(** [test_get_user_with_location]: the point read from the row. *)
Example to_shape_of_row :
  Wkt.to_shape "POINT(-46.6 -23.5)" = Ret (Wkt.Point "-46.6" "-23.5").
Proof. vm_compute. reflexivity. Qed.

Example to_shape_of_ints :
  Wkt.to_shape "POINT(20 -10)" = Ret (Wkt.Point "20.0" "-10.0").
Proof. vm_compute. reflexivity. Qed.

Example to_shape_of_exponents :
  Wkt.to_shape "POINT(1e-05 -1.5e+16)" = Ret (Wkt.Point "1e-05" "-1.5e+16").
Proof. vm_compute. reflexivity. Qed.

(** A numeral between two floats is read as the nearer one, and a
    numeral of many digits as the float it is nearest to. *)
Example to_shape_rounds :
  Wkt.to_shape "POINT(9007199254740993 0.1000000000000000055511151231257827)"
  = Ret (Wkt.Point "9007199254740992.0" "0.1").
Proof. vm_compute. reflexivity. Qed.

Example to_shape_of_words : Wkt.to_shape "POINT(abc def)" = Raise ShapeError.
Proof. vm_compute. reflexivity. Qed.

(** [test_create_user_without_location]: no row is added, the commit
    still happens. *)
Example create_without_location_trace :
  List.map call_of
    (trace (create_user quiet_env (VDict no_location_user) empty_world))
  = [DocSet "7c9e6679"
       (VDict (<["updated_at" := VServerTimestamp]>
              (<["created_at" := VServerTimestamp]> no_location_user)));
     SessionCommit;
     PublishEvent "eventos_usuarios" "UserCreated" "7c9e6679"
       (VDict no_location_user);
     Produce
       (Message "eventos_usuarios" "7c9e6679"
          (<["event_type" := VStr "UserCreated"]>
          (<["timestamp" := VStr "2026-01-01T00:00:00+00:00"]>
          (<["user_id" := VStr "7c9e6679"]>
          (<["data" := VDict no_location_user]>
          (<["source_service" := VStr "servico-usuarios"]> ∅))))))].
Proof. reflexivity. Qed.

(** An update with a location on a user that has no row adds the row. *)
Example update_adds_missing_row :
  user_locations world_without_location = []
  /\ user_locations
       (final (update_user quiet_env "7c9e6679" (VDict move_update)
                 world_without_location))
     = [UserLocation.New "7c9e6679" "POINT(-20.0 -10.0)"].
Proof. split; reflexivity. Qed.

(** Int coordinates come back as the floats of the same value. *)
Example create_then_get_ints :
  let r := create_user quiet_env (VDict alice_on_grid) empty_world in
  user_locations (final r) = [UserLocation.New "7c9e6679" "POINT(20 10)"]
  /\ out (get_user quiet_env "7c9e6679" (final r))
     = Ret (Fetched
              (<["location" := VDict (point_of (VFloat "10.0") (VFloat "20.0"))]>
               (<["id" := VStr "7c9e6679"]>
               (<["email" := VStr "a@b.com"]>
               (<["name" := VStr "A"]>
               (<["created_at" := VDatetime "2026-01-01T00:00:00Z"]>
               (<["updated_at" := VDatetime "2026-01-01T00:00:00Z"]> ∅))))))).
Proof. split; vm_compute; reflexivity. Qed.

(** * Further properties *)

(** ** The health check *)

Section Health.

Lemma eq_str_ok b : eq_str (ok_or_error b) "ok" = b.
Proof. destruct b; reflexivity. Qed.

Lemma eq_str_present g name :
  eq_str (present_or_missing g name) "present" = is_set (environ g) name.
Proof. unfold present_or_missing. destruct (is_set (environ g) name); reflexivity. Qed.

Lemma getitem_insert_eq k v (m : gmap string pyval) :
  Py.getitem k (VDict (<[k := v]> m)) = Ret v.
Proof. unfold Py.getitem. rewrite lookup_insert_eq. reflexivity. Qed.

Lemma getitem_insert_ne k k' v (m : gmap string pyval) :
  k' <> k -> Py.getitem k (VDict (<[k' := v]> m)) = Py.getitem k (VDict m).
Proof. intros H. unfold Py.getitem. rewrite lookup_insert_ne by exact H. reflexivity. Qed.

(** [all(...)] over the values of a dict, one key at a time. *)
Lemma forallb_values_insert (P : pyval -> bool) k v (m : gmap string pyval) :
  m !! k = None ->
  forallb P (snd <$> map_to_list (<[k := v]> m))
  = P v && forallb P (snd <$> map_to_list m).
Proof.
  intros Hk. apply eq_true_iff_eq.
  rewrite andb_true_iff, !forallb_forall.
  pose proof (map_to_list_insert m k v Hk) as Hperm.
  split.
  - intros H. split.
    + apply H. apply list_elem_of_In, list_elem_of_fmap. exists (k, v).
      split; [reflexivity|]. rewrite Hperm. left.
    + intros x Hx. apply H.
      apply list_elem_of_In, list_elem_of_fmap in Hx as (kv & -> & Hkv).
      apply list_elem_of_In, list_elem_of_fmap. exists kv.
      split; [reflexivity|]. rewrite Hperm. right. exact Hkv.
  - intros [Hv H] x Hx.
    apply list_elem_of_In, list_elem_of_fmap in Hx as (kv & -> & Hkv).
    rewrite Hperm in Hkv. apply elem_of_cons in Hkv as [->|Hkv]; [exact Hv|].
    apply H. apply list_elem_of_In, list_elem_of_fmap. exists kv.
    split; [reflexivity|exact Hkv].
Qed.

(** The run of [health_check], with the test of lines 355-361 read back
    from the document. *)
Lemma health_check_run g q e w :
  exists status,
    health_check g q e w
    = Run (Ret (status,
                if is_set (environ g) "FIREBASE_ADMIN_SDK_BASE64"
                   && (is_set (environ g) "POSTGRES_POSTGRES_URL"
                   && (is_set (environ g) "KAFKA_BOOTSTRAP_SERVER"
                   && (is_set (environ g) "KAFKA_API_KEY"
                   && (is_set (environ g) "KAFKA_API_SECRET" && true))))
                   && db w && producer w
                   && (db_session w && negb (execute_raises e))
                   && is_falsy (db_init_error g)
                then 200%Z else 503%Z))
          w
          (if db_session w
           then [if execute_raises e then Failed SessionExecute
                 else Done SessionExecute]
           else []).
Proof.
  unfold health_check, get_health_status_document, dependency_ok, dict_values.
  cbv beta iota zeta delta [bind get_world ret lift try_except session_execute fst snd].
  destruct (db_session w); [destruct (execute_raises e)|]; cbv beta iota.
  all: rewrite getitem_insert_eq; cbv beta iota.
  all: rewrite !forallb_values_insert by reflexivity.
  all: rewrite map_to_list_empty; cbn [fmap list_fmap forallb].
  all: rewrite !eq_str_present.
  all: rewrite (getitem_insert_ne "dependencies") by discriminate.
  all: rewrite getitem_insert_eq; cbv beta iota.
  all: repeat (rewrite getitem_insert_eq || rewrite getitem_insert_ne by discriminate).
  all: cbv beta iota; rewrite !eq_str_ok.
  all: eexists; cbn [app negb andb]; reflexivity.
Qed.

(** The effects of [get_health_status] as [create_user] has them are
    those of the function that also builds the document, which always
    returns. *)
Lemma get_health_status_effects g q e w :
  final (get_health_status_document g q e w) = final (get_health_status e w)
  /\ trace (get_health_status_document g q e w) = trace (get_health_status e w)
  /\ exists status, out (get_health_status_document g q e w) = Ret status.
Proof.
  unfold get_health_status_document, get_health_status.
  cbv beta iota zeta delta [bind get_world ret try_except session_execute].
  destruct (db_session w); [destruct (execute_raises e)|];
    cbn [out final trace]; eauto.
Qed.

(** X1.  [health_check] always answers, with a 200 or a 503, and changes
    nothing.  It answers 200 exactly when the five environment variables
    are set, the three handles are bound, the probe [SELECT 1] does not
    raise and the table was initialised without an error text. *)
Theorem health_check_healthy_iff :
  forall g q e w,
    exists status code,
      out (health_check g q e w) = Ret (status, code)
      /\ final (health_check g q e w) = w
      /\ (code = 200%Z \/ code = 503%Z)
      /\ (code = 200%Z <->
          is_set (environ g) "FIREBASE_ADMIN_SDK_BASE64" = true
          /\ is_set (environ g) "POSTGRES_POSTGRES_URL" = true
          /\ is_set (environ g) "KAFKA_BOOTSTRAP_SERVER" = true
          /\ is_set (environ g) "KAFKA_API_KEY" = true
          /\ is_set (environ g) "KAFKA_API_SECRET" = true
          /\ db w = true /\ producer w = true /\ db_session w = true
          /\ execute_raises e = false
          /\ is_falsy (db_init_error g) = true).
Proof.
  intros g q e w. destruct (health_check_run g q e w) as [status ->].
  eexists _, _. split; [reflexivity|]. split; [reflexivity|].
  destruct (is_set (environ g) "FIREBASE_ADMIN_SDK_BASE64"),
    (is_set (environ g) "POSTGRES_POSTGRES_URL"),
    (is_set (environ g) "KAFKA_BOOTSTRAP_SERVER"),
    (is_set (environ g) "KAFKA_API_KEY"),
    (is_set (environ g) "KAFKA_API_SECRET"),
    (db w), (producer w), (db_session w), (execute_raises e),
    (is_falsy (db_init_error g));
    cbn [andb negb]; (split; [auto|]);
    (split; [intros H; try discriminate H; repeat split
            |intros (?&?&?&?&?&?&?&?&?&?); try discriminate; reflexivity]).
Qed.

End Health.


(** ** The start-up *)

Section StartUp.

Lemma init_firebase_ok b :
  fst (init_firebase b) = true <->
  firebase_admin b = true
  /\ is_set (os_environ b) "FIREBASE_ADMIN_SDK_BASE64" = true
  /\ firebase_raises b = None.
Proof.
  unfold init_firebase.
  destruct (firebase_admin b), (is_set (os_environ b) "FIREBASE_ADMIN_SDK_BASE64"),
    (firebase_raises b); cbn; intuition congruence.
Qed.

Lemma init_postgres_ok b :
  snd (fst (init_postgres b)) = true <->
  sqlalchemy b = true
  /\ is_set (os_environ b) "POSTGRES_POSTGRES_URL" = true
  /\ create_engine_raises b = None /\ session_raises b = None.
Proof.
  unfold init_postgres.
  destruct (sqlalchemy b), (is_set (os_environ b) "POSTGRES_POSTGRES_URL"),
    (create_engine_raises b), (session_raises b); cbn; intuition congruence.
Qed.

Lemma init_kafka_ok b :
  fst (init_kafka b) = true <->
  confluent_kafka b = true
  /\ is_set (os_environ b) "KAFKA_BOOTSTRAP_SERVER" = true
  /\ producer_raises b = None.
Proof.
  unfold init_kafka.
  destruct (confluent_kafka b), (is_set (os_environ b) "KAFKA_BOOTSTRAP_SERVER"),
    (producer_raises b); cbn; intuition congruence.
Qed.

(** X2.  After the start-up each of the three handles is bound exactly
    when its initialisation error is [None].  When the session is bound,
    [db_init_error] is what [create_all] raised, if anything.  The
    start-up does not touch what the stores hold. *)
Theorem start_handles_match_errors :
  forall b w0,
    let w := start b w0 in
    let g := start_globals b in
    (db w = true <-> firebase_init_error g = None)
    /\ (db_session w = true <-> postgres_init_error g = None)
    /\ (producer w = true <-> kafka_producer_init_error g = None)
    /\ (db_session w = true -> db_init_error g = create_all_raises b)
    /\ stores w = stores w0.
Proof.
  intros b w0. cbv zeta.
  unfold start, start_globals.
  cbn [db db_session producer firebase_init_error postgres_init_error
       kafka_producer_init_error db_init_error].
  split; [|split; [|split; [|split]]].
  - unfold init_firebase.
    destruct (firebase_admin b), (is_set (os_environ b) "FIREBASE_ADMIN_SDK_BASE64"),
      (firebase_raises b); cbn [fst snd]; split; intros; congruence.
  - unfold init_postgres.
    destruct (sqlalchemy b), (is_set (os_environ b) "POSTGRES_POSTGRES_URL"),
      (create_engine_raises b), (session_raises b); cbn [fst snd];
      split; intros; congruence.
  - unfold init_kafka.
    destruct (confluent_kafka b), (is_set (os_environ b) "KAFKA_BOOTSTRAP_SERVER"),
      (producer_raises b); cbn [fst snd]; split; intros; congruence.
  - unfold init_postgres, init_db.
    destruct (sqlalchemy b), (is_set (os_environ b) "POSTGRES_POSTGRES_URL"),
      (create_engine_raises b), (session_raises b); cbn [fst snd negb];
      intros; congruence.
  - reflexivity.
Qed.

(** X3.  When [FIREBASE_ADMIN_SDK_BASE64] or [POSTGRES_POSTGRES_URL] is
    not set at the start-up, the four user endpoints answer 503 and
    leave the stores as they were: [create_user] calls nothing but the
    probe of the health status, the other three call nothing. *)
Theorem start_without_credentials_closes_endpoints :
  forall b w0 e user_id data,
    is_set (os_environ b) "FIREBASE_ADMIN_SDK_BASE64" = false
    \/ is_set (os_environ b) "POSTGRES_POSTGRES_URL" = false ->
    let w := start b w0 in
    out (create_user e data w) = Ret Unavailable
    /\ stores (final (create_user e data w)) = stores w0
    /\ Forall (fun x => call_of x = SessionExecute) (trace (create_user e data w))
    /\ get_user e user_id w = Run (Ret Unavailable) w []
    /\ update_user e user_id data w = Run (Ret Unavailable) w []
    /\ delete_user e user_id w = Run (Ret Unavailable) w [].
Proof.
  intros b w0 e user_id data Hmissing w.
  assert (Hgate : negb (db w) || negb (db_session w) = true).
  { apply orb_true_iff. destruct Hmissing as [H|H]; [left|right];
      apply negb_true_iff, not_true_iff_false; subst w; cbn [db db_session start].
    - rewrite init_firebase_ok. intros (_ & H' & _). congruence.
    - rewrite init_postgres_ok. intros (_ & H' & _). congruence. }
  assert (Hstores : stores w = stores w0) by reflexivity.
  revert Hgate Hstores. generalize w. clear w. intros w Hgate Hstores.
  repeat split.
  - unfold create_user, bind at 1, get_world. rewrite Hgate. cases; reflexivity.
  - rewrite <- Hstores.
    unfold create_user, bind at 1, get_world. rewrite Hgate. cases; reflexivity.
  - unfold create_user, bind at 1, get_world. rewrite Hgate.
    cases; repeat constructor.
  - unfold get_user, bind, get_world. rewrite Hgate. reflexivity.
  - unfold update_user, bind, get_world. rewrite Hgate. reflexivity.
  - unfold delete_user, bind, get_world. rewrite Hgate. reflexivity.
Qed.

Lemma init_db_falsy b :
  snd (fst (init_postgres b)) = true ->
  is_falsy (init_db b (fst (fst (init_postgres b)))) = is_falsy (create_all_raises b).
Proof.
  unfold init_postgres, init_db.
  destruct (sqlalchemy b), (is_set (os_environ b) "POSTGRES_POSTGRES_URL"),
    (create_engine_raises b), (session_raises b); cbn [fst snd negb];
    intros; congruence.
Qed.

(** X4.  After the start-up [health_check] answers 200 exactly when the
    three libraries were imported, the five variables are set, no
    initialisation raised, [create_all] left no error text and the probe
    does not raise. *)
Theorem start_then_health_check :
  forall b w0 q e,
    exists status code,
      out (health_check (start_globals b) q e (start b w0)) = Ret (status, code)
      /\ (code = 200%Z <->
          (firebase_admin b = true /\ confluent_kafka b = true
           /\ sqlalchemy b = true)
          /\ (is_set (os_environ b) "FIREBASE_ADMIN_SDK_BASE64" = true
              /\ is_set (os_environ b) "POSTGRES_POSTGRES_URL" = true
              /\ is_set (os_environ b) "KAFKA_BOOTSTRAP_SERVER" = true
              /\ is_set (os_environ b) "KAFKA_API_KEY" = true
              /\ is_set (os_environ b) "KAFKA_API_SECRET" = true)
          /\ (firebase_raises b = None /\ create_engine_raises b = None
              /\ session_raises b = None /\ producer_raises b = None)
          /\ is_falsy (create_all_raises b) = true
          /\ execute_raises e = false).
Proof.
  intros b w0 q e.
  destruct (health_check_run (start_globals b) q e (start b w0)) as [status ->].
  eexists _, _. split; [reflexivity|].
  cbn [environ start_globals db producer db_session start db_init_error].
  pose proof (init_firebase_ok b) as Hf.
  pose proof (init_postgres_ok b) as Hp.
  pose proof (init_kafka_ok b) as Hk.
  pose proof (init_db_falsy b) as Hd.
  match goal with |- (if ?c then _ else _) = _ <-> _ => destruct c eqn:Hc end.
  - rewrite !andb_true_iff, negb_true_iff in Hc.
    destruct Hc as ((((Hv & Hdb) & Hprod) & Hs & Hex) & Htab).
    destruct Hv as (V1 & V2 & V3 & V4 & V5 & _).
    apply Hf in Hdb as (? & ? & ?). apply Hk in Hprod as (? & ? & ?).
    rewrite (Hd Hs) in Htab. apply Hp in Hs as (? & ? & ? & ?).
    split; [intros _|reflexivity]. repeat split; assumption.
  - split; [discriminate|].
    intros ((L1 & L2 & L3) & (V1 & V2 & V3 & V4 & V5) & (R1 & R2 & R3 & R4) & Htab & Hex).
    exfalso. apply not_true_iff_false in Hc. apply Hc.
    assert (Hs : snd (fst (init_postgres b)) = true) by (apply Hp; auto).
    rewrite !andb_true_iff, negb_true_iff, (Hd Hs).
    repeat split; try assumption; [apply Hf|apply Hk]; auto.
Qed.

End StartUp.


(** ** The database URL *)

Section DatabaseUrl.

Lemma prefix_inv p s : String.prefix p s = true -> exists rest, s = p +:+ rest.
Proof.
  revert s. induction p as [|a p IH]; intros s H.
  - exists s. reflexivity.
  - destruct s as [|c s]; [discriminate|]. cbn in H.
    destruct (Ascii.ascii_dec a c) as [->|]; [|discriminate].
    destruct (IH s H) as [rest ->]. exists rest. reflexivity.
Qed.

Lemma prefix_app p rest : String.prefix p (p +:+ rest) = true.
Proof.
  induction p as [|a p IH]; [destruct rest; reflexivity|].
  change (String.prefix (String a p) (String a p +:+ rest))
    with (if Ascii.ascii_dec a a then String.prefix p (p +:+ rest) else false).
  destruct (Ascii.ascii_dec a a); [exact IH|congruence].
Qed.

Lemma drop_chars_app p rest : drop_chars (String.length p) (p +:+ rest) = rest.
Proof. induction p as [|a p IH]; [reflexivity|exact IH]. Qed.

Lemma replace_first_prefix old new rest :
  replace_first old new (old +:+ rest) = new +:+ rest.
Proof.
  assert (H : forall s, String.prefix old s = true ->
                        replace_first old new s
                        = new +:+ drop_chars (String.length old) s).
  { intros s Hs. destruct s; cbn [replace_first]; rewrite Hs; reflexivity. }
  rewrite H by apply prefix_app. rewrite drop_chars_app. reflexivity.
Qed.

Lemma postgresql_url_rewrites rest :
  postgresql_url ("postgres://" +:+ rest) = "postgresql://" +:+ rest.
Proof.
  unfold postgresql_url. rewrite prefix_app. apply replace_first_prefix.
Qed.

Lemma postgresql_not_postgres rest :
  String.prefix "postgres://" ("postgresql://" +:+ rest) = false.
Proof. reflexivity. Qed.

(** X5.  Lines 75-76: a URL that starts with [postgres://] has that
    prefix, and nothing else, rewritten to [postgresql://]; any other URL
    is left as it is; the result never starts with [postgres://], and
    rewriting it again changes nothing. *)
Theorem postgresql_url_scheme :
  forall db_url,
    (forall rest, db_url = "postgres://" +:+ rest ->
                  postgresql_url db_url = "postgresql://" +:+ rest)
    /\ (String.prefix "postgres://" db_url = false -> postgresql_url db_url = db_url)
    /\ String.prefix "postgres://" (postgresql_url db_url) = false
    /\ postgresql_url (postgresql_url db_url) = postgresql_url db_url.
Proof.
  intros db_url.
  assert (Hclean : String.prefix "postgres://" (postgresql_url db_url) = false).
  { destruct (String.prefix "postgres://" db_url) eqn:Hp.
    - destruct (prefix_inv _ _ Hp) as [rest ->].
      rewrite postgresql_url_rewrites. apply postgresql_not_postgres.
    - unfold postgresql_url. rewrite Hp. exact Hp. }
  split; [intros rest ->; apply postgresql_url_rewrites|].
  split; [intros Hp; unfold postgresql_url; rewrite Hp; reflexivity|].
  split; [exact Hclean|].
  unfold postgresql_url at 1. rewrite Hclean. reflexivity.
Qed.

End DatabaseUrl.


(** ** Reads, missing users and bodies that are not objects *)

(** Like [cases], with the membership test of a list or a string. *)
Ltac cases_of_body :=
  repeat (run; cbn [Py.contains];
          first [ case_atom
                | match goal with
                  | |- context [existsb ?f ?l] => destruct (existsb f l) eqn:?
                  | |- context [Py.is_infix ?a ?b] => destruct (Py.is_infix a b) eqn:?
                  end ]);
  run.

Section EdgeCases.

(** X6.  [get_user] changes nothing, and calls nothing but the read of
    the document and the query of the row.  The user it answers carries
    the requested id under [id], whatever the document holds there. *)
Theorem get_user_changes_nothing :
  forall e user_id w,
    let r := get_user e user_id w in
    final r = w
    /\ Forall (fun x => call_of x = DocGet user_id
                        \/ call_of x = SessionQuery user_id) (trace r)
    /\ (forall user_data, out r = Ret (Fetched user_data) ->
        user_data !! "id" = Some (VStr user_id)).
Proof.
  intros e user_id w. cbv zeta.
  assert (Hid : forall (m : gmap string pyval) v,
             <["location" := v]> (<["id" := VStr user_id]> m) !! "id"
             = Some (VStr user_id)).
  { intros m v. rewrite lookup_insert_ne by discriminate. apply lookup_insert_eq. }
  cases; try (destruct (Wkt.to_shape _); run);
    (split; [reflexivity|]);
    (split; [repeat constructor; cbn [call_of]; auto|]);
    intros user_data [= <-];
    first [apply Hid | apply lookup_insert_eq].
Qed.

(** X7.  An update with a non-empty body, and a delete, of a user
    without document answer 404 after the one read of the document, and
    change nothing. *)
Theorem missing_user_is_not_found :
  forall e w user_id data,
    ready w -> get_raises e = false -> users w !! user_id = None ->
    (Py.truthy data = true ->
     update_user e user_id data w = Run (Ret NotFound) w [Done (DocGet user_id)])
    /\ delete_user e user_id w = Run (Ret NotFound) w [Done (DocGet user_id)].
Proof.
  intros e w user_id data [Hdb Hs] Hget Hnone. split.
  - intros Hdata. run. rewrite Hdb, Hs. run. rewrite Hdata. run.
    rewrite Hget. run. rewrite Hnone. reflexivity.
  - run. rewrite Hdb, Hs. run. rewrite Hget. run. rewrite Hnone. reflexivity.
Qed.

(** X8.  A body that is not a JSON object.  [create_user] calls nothing
    and changes nothing: it answers 400 or lets a [TypeError] or an
    [AttributeError] leave the handler, outside its [try] block.
    [update_user] on an existing user answers 500 from its [except]
    clause, after the read of the document and a rollback, with the
    documents and the table unchanged. *)
Theorem body_that_is_no_object :
  forall e w user_id data (old : gmap string pyval),
    ready w -> (forall d, data <> VDict d) ->
    (let r := create_user e data w in
     final r = w /\ trace r = []
     /\ ((exists error, out r = Ret (BadRequest error))
         \/ out r = Raise TypeError \/ out r = Raise AttributeError))
    /\ (Py.truthy data = true -> get_raises e = false ->
        users w !! user_id = Some old ->
        let r := update_user e user_id data w in
        ((exists error, out r = Ret (ServerError error TypeError))
         \/ exists error, out r = Ret (ServerError error AttributeError))
        /\ trace r = [Done (DocGet user_id); Done SessionRollback]
        /\ users (final r) = users w
        /\ user_locations (final r) = user_locations w).
Proof.
  intros e w user_id data old [Hdb Hs] Hdata. split.
  - cbv zeta. destruct data; try (exfalso; eapply Hdata; reflexivity);
      run; rewrite Hdb, Hs; cases_of_body; repeat split; eauto.
  - intros Htruthy Hget Hold. cbv zeta.
    destruct data; try (exfalso; eapply Hdata; reflexivity);
      try discriminate Htruthy;
      run; rewrite Hdb, Hs; run; rewrite Htruthy; run; rewrite Hget; run;
      rewrite Hold; run; repeat split; eauto.
Qed.

End EdgeCases.


(** ** The producer never decides the answer *)

Section Producer.

























End Producer.


(** ** Field paths *)

Section FieldPaths.

Lemma field_path_nonempty key : field_path key <> [].
Proof.
  destruct key as [|c rest]; cbn [field_path]; [discriminate|].
  destruct (Ascii.eqb c "."); [discriminate|].
  destruct (field_path rest); discriminate.
Qed.

Lemma continues_refl p : continues p p = true.
Proof.
  induction p as [|a p IH]; [reflexivity|].
  cbn [continues]. rewrite String.eqb_refl. exact IH.
Qed.

Lemma apart_sym p q : apart p q = apart q p.
Proof. unfold apart. apply andb_comm. Qed.

Lemma read_field_empty p : read_field p ∅ = None.
Proof. destruct p as [|a [|b p]]; reflexivity. Qed.

Lemma read_write_same p v doc :
  p <> [] -> read_field p (write_field p v doc) = Some v.
Proof.
  revert doc. induction p as [|a p IH]; intros doc Hp; [congruence|].
  destruct p as [|b p].
  - cbn [read_field write_field]. apply lookup_insert_eq.
  - cbn [read_field write_field] in *. rewrite lookup_insert_eq.
    apply IH. discriminate.
Qed.

Lemma read_write_apart p q v doc :
  apart p q = true -> read_field p (write_field q v doc) = read_field p doc.
Proof.
  unfold apart. revert q doc.
  induction p as [|a p IH]; intros q doc H; [discriminate H|].
  destruct q as [|b q]; [rewrite andb_false_r in H; discriminate H|].
  cbn [continues] in H.
  destruct (String.eqb_spec a b) as [->|Hab].
  - rewrite String.eqb_refl in H. cbn [andb] in H.
    destruct p as [|a' p]; [discriminate H|].
    destruct q as [|b' q]; [rewrite andb_false_r in H; discriminate H|].
    change (read_field (b :: a' :: p) (write_field (b :: b' :: q) v doc))
      with (match <[b := VDict (write_field (b' :: q) v
                                  match doc !! b with
                                  | Some (VDict inner) => inner
                                  | _ => ∅
                                  end)]> doc !! b with
            | Some (VDict inner) => read_field (a' :: p) inner
            | _ => None
            end).
    rewrite lookup_insert_eq, (IH _ _ H).
    change (read_field (b :: a' :: p) doc)
      with (match doc !! b with
            | Some (VDict inner) => read_field (a' :: p) inner
            | _ => None
            end).
    destruct (doc !! b) as [[]|]; try apply read_field_empty; reflexivity.
  - destruct q as [|b' q]; destruct p as [|a' p];
      cbn [read_field write_field];
      rewrite lookup_insert_ne by congruence; reflexivity.
Qed.

Lemma update_document_reads fields old :
  apart_keys fields ->
  (forall k v, fields !! k = Some v ->
     read_field (field_path k) (update_document fields old) = Some v)
  /\ (forall p, (forall k, is_Some (fields !! k) -> apart p (field_path k) = true) ->
        read_field p (update_document fields old) = read_field p old).
Proof.
  unfold update_document.
  apply (map_fold_weak_ind
           (fun doc (m : gmap string pyval) =>
              apart_keys m ->
              (forall k v, m !! k = Some v -> read_field (field_path k) doc = Some v)
              /\ (forall p, (forall k, is_Some (m !! k) -> apart p (field_path k) = true) ->
                    read_field p doc = read_field p old))).
  - intros _. split; [intros k v H; rewrite lookup_empty in H; discriminate H|].
    reflexivity.
  - intros i x m doc Hi IH Hapart.
    assert (Hm : apart_keys m).
    { intros k k' [v Hk] [v' Hk'] Hne. apply Hapart; [| |exact Hne].
      - exists v. rewrite lookup_insert_ne; [exact Hk|]. intros ->. congruence.
      - exists v'. rewrite lookup_insert_ne; [exact Hk'|]. intros ->. congruence. }
    destruct (IH Hm) as [IHin IHout]. split.
    + intros k v Hk. destruct (decide (k = i)) as [->|Hne].
      * rewrite lookup_insert_eq in Hk. injection Hk as <-.
        apply read_write_same, field_path_nonempty.
      * rewrite lookup_insert_ne in Hk by congruence.
        rewrite read_write_apart; [exact (IHin _ _ Hk)|].
        apply Hapart; [| |exact Hne].
        -- rewrite lookup_insert_ne by congruence. eauto.
        -- rewrite lookup_insert_eq. eauto.
    + intros p Hp. rewrite read_write_apart.
      * apply IHout. intros k [v Hk]. apply Hp.
        exists v. rewrite lookup_insert_ne; [exact Hk|]. intros ->. congruence.
      * apply Hp. rewrite lookup_insert_eq. eauto.
Qed.

Lemma elem_of_keys_of (fields : gmap string pyval) k :
  k ∈ keys_of fields <-> is_Some (fields !! k).
Proof.
  unfold keys_of. rewrite list_elem_of_fmap. split.
  - intros [[k' v] [-> H]]. apply elem_of_map_to_list in H. eauto.
  - intros [v H]. exists (k, v). split; [reflexivity|].
    apply elem_of_map_to_list. exact H.
Qed.

Lemma forallb_keys_of (f : string -> bool) (fields : gmap string pyval) :
  forallb f (keys_of fields) = true ->
  forall k, is_Some (fields !! k) -> f k = true.
Proof.
  intros H k Hk. rewrite forallb_forall in H. apply H.
  apply list_elem_of_In, elem_of_keys_of, Hk.
Qed.

Lemma field_paths_apart fields : field_paths fields = true -> apart_keys fields.
Proof.
  intros H k k' Hk Hk' Hne.
  pose proof (forallb_keys_of _ _ H k Hk) as Hkey.
  apply andb_prop in Hkey as [_ Hkey].
  pose proof (forallb_keys_of _ _ Hkey k' Hk') as Hpair.
  apply orb_prop in Hpair as [Heq|Hpair]; [|exact Hpair].
  apply String.eqb_eq in Heq. congruence.
Qed.

Lemma keys_of_resolve e fields k :
  is_Some (resolve e fields !! k) <-> is_Some (fields !! k).
Proof. unfold resolve. rewrite lookup_fmap. apply fmap_is_Some. Qed.

Lemma apart_keys_resolve e fields : apart_keys fields -> apart_keys (resolve e fields).
Proof.
  intros H k k' Hk Hk'. apply H; apply (keys_of_resolve e); assumption.
Qed.

(** What the document holds after [.update] took the fields. *)
Lemma updated_document_reads e fields old :
  field_paths fields = true ->
  let doc := update_document (resolve e fields) old in
  (forall k v, resolve e fields !! k = Some v ->
     read_field (field_path k) doc = Some v)
  /\ (forall p, (forall k, is_Some (fields !! k) -> apart p (field_path k) = true) ->
        read_field p doc = read_field p old).
Proof.
  intros H doc.
  destruct (update_document_reads (resolve e fields) old
              (apart_keys_resolve e _ (field_paths_apart _ H))) as [Hin Hout].
  split; [exact Hin|]. intros p Hp. apply Hout.
  intros k Hk. apply Hp, (keys_of_resolve e), Hk.
Qed.

Lemma updated_document_stamp e (d old : gmap string pyval) :
  field_paths (update_fields d) = true ->
  update_document (resolve e (update_fields d)) old !! "updated_at"
  = Some (VDatetime (server_timestamp e)).
Proof.
  intros H. destruct (updated_document_reads e _ old H) as [Hin _].
  apply (Hin "updated_at"). unfold resolve, update_fields.
  rewrite lookup_fmap, lookup_insert_eq. reflexivity.
Qed.

Lemma updated_document_leaves e fields old name :
  field_paths fields = true -> leaves name fields = true ->
  update_document (resolve e fields) old !! name = old !! name.
Proof.
  intros H Hname. destruct (updated_document_reads e _ old H) as [_ Hout].
  apply (Hout [name]). exact (forallb_keys_of _ _ Hname).
Qed.

Lemma updated_document_field e (d old : gmap string pyval) k :
  field_paths (update_fields d) = true ->
  k <> "updated_at" -> k <> "location" -> is_Some (d !! k) ->
  read_field (field_path k) (update_document (resolve e (update_fields d)) old)
  = resolve e d !! k.
Proof.
  intros H Hstamp Hloc [v Hk].
  destruct (updated_document_reads e _ old H) as [Hin _].
  assert (Hsame : resolve e (update_fields d) !! k = resolve e d !! k).
  { unfold resolve, update_fields.
    rewrite !lookup_fmap, lookup_insert_ne, lookup_delete_ne by congruence.
    reflexivity. }
  destruct (resolve e d !! k) as [v'|] eqn:Hv.
  - apply Hin. rewrite Hsame. reflexivity.
  - unfold resolve in Hv. rewrite lookup_fmap, Hk in Hv. discriminate Hv.
Qed.

End FieldPaths.

(** ** A commit that fails after the document was written *)

Section CommitFailure.

(** The location step of a body whose [location] is absent or an object
    raises nothing. *)
Lemma location_of_object (d : gmap string pyval) :
  d !! "location" = None \/ (exists loc, d !! "location" = Some (VDict loc)) ->
  has_coordinates (default VNone (d !! "location")) = Ret false
  \/ (has_coordinates (default VNone (d !! "location")) = Ret true
      /\ exists wkt, forall e,
           wkt_point e (default VNone (d !! "location")) = Ret (wkt e)).
Proof.
  intros [H|[loc H]]; rewrite H; cbn [default from_option id].
  - left. reflexivity.
  - destruct (loc !! "latitude") as [lat|] eqn:Hlat;
      [destruct (loc !! "longitude") as [lon|] eqn:Hlon|].
    + right. split; [exact (has_coordinates_dict _ _ _ Hlat Hlon)|].
      eexists (fun e => _). intros e. exact (wkt_point_dict e _ _ _ Hlat Hlon).
    + left. apply has_coordinates_missing. auto.
    + left. apply has_coordinates_missing. auto.
Qed.

(** X10.  When the commit raises in [create_user], after the document
    was set: the answer is the 500 of the geospatial database, the table
    and the session are what the table was before, no event is published,
    and the new document stays written. *)
Theorem create_user_commit_failure_keeps_document :
  forall e w (d : gmap string pyval),
    ready w -> is_Some (d !! "email") -> is_Some (d !! "name") ->
    d !! "location" = None \/ (exists loc, d !! "location" = Some (VDict loc)) ->
    set_raises e = false -> commit_raises e = true ->
    let r := create_user e (VDict d) w in
    out r = Ret (ServerError "Erro no banco de dados geoespacial: " SQLAlchemyError)
    /\ users (final r) !! uuid4 e
       = Some (resolve e (<["updated_at" := VServerTimestamp]>
                         (<["created_at" := VServerTimestamp]>
                         (delete "location" d))))
    /\ user_locations (final r) = user_locations w
    /\ session_rows (final r) = user_locations w
    /\ publish_calls (trace r) = [].
Proof.
  intros e w d Hready Hemail Hname Hloc Hset Hcommit r. subst r.
  rewrite (create_user_enters_try e w d Hready Hemail Hname).
  run. destruct (location_of_object d Hloc) as [Hno|(Hyes & wkt & Hwkt)].
  - rewrite Hno. run. rewrite Hset. run. rewrite Hcommit. run.
    repeat split. apply lookup_insert_eq.
  - rewrite Hyes. run. rewrite Hwkt. run. rewrite Hset. run. rewrite Hcommit. run.
    repeat split. apply lookup_insert_eq.
Qed.

(** X11.  When the commit raises in [update_user], after the document
    was updated, and the keys sent are field paths: the answer is the
    500 of the geospatial database, the table and the session are what
    the table was before, no event is published, and the document keeps
    what was written: the time of the store under [updated_at], and at
    the path of every key of the body except [location] the value of
    the body. *)
Theorem update_user_commit_failure_keeps_document :
  forall e w user_id (d old : gmap string pyval),
    ready w -> Py.truthy (VDict d) = true -> users w !! user_id = Some old ->
    d !! "location" = None \/ (exists loc, d !! "location" = Some (VDict loc)) ->
    get_raises e = false -> query_raises e = false ->
    update_raises e = false -> commit_raises e = true ->
    field_paths (update_fields d) = true ->
    let r := update_user e user_id (VDict d) w in
    out r = Ret (ServerError "Erro no banco de dados geoespacial: " SQLAlchemyError)
    /\ (exists doc,
         users (final r) !! user_id = Some doc
         /\ doc !! "updated_at" = Some (VDatetime (server_timestamp e))
         /\ forall k, k <> "updated_at" -> k <> "location" -> is_Some (d !! k) ->
              read_field (field_path k) doc = resolve e d !! k)
    /\ user_locations (final r) = user_locations w
    /\ session_rows (final r) = user_locations w
    /\ publish_calls (trace r) = [].
Proof.
  intros e w user_id d old [Hdb Hs] Hd Hold Hloc Hget Hquery Hupd Hcommit Hpaths r.
  assert (Htruthy : Py.truthy (VDict (<["updated_at" := VServerTimestamp]>
                                      (delete "location" d))) = true).
  { eapply truthy_dict, lookup_insert_eq. }
  assert (Hdoc : exists doc,
             <[user_id := update_document (resolve e (update_fields d)) old]> (users w)
               !! user_id = Some doc
             /\ doc !! "updated_at" = Some (VDatetime (server_timestamp e))
             /\ forall k, k <> "updated_at" -> k <> "location" -> is_Some (d !! k) ->
                  read_field (field_path k) doc = resolve e d !! k).
  { eexists. split; [apply lookup_insert_eq|].
    split; [exact (updated_document_stamp e d old Hpaths)|].
    intros k. apply updated_document_field, Hpaths. }
  unfold update_fields in Hdoc.
  subst r. run. rewrite Hdb, Hs. run. rewrite Hd. run. rewrite Hget. run. rewrite Hold.
  destruct (location_of_object d Hloc) as [Hno|(Hyes & wkt & Hwkt)].
  - rewrite Hno. run. rewrite Htruthy. run. rewrite Hold. run. rewrite Hupd. run.
    rewrite Hcommit. run. repeat split. exact Hdoc.
  - rewrite Hyes. run. rewrite Hwkt. run. rewrite Hquery. run.
    destruct (List.find _ _); run; rewrite Htruthy; run; rewrite Hold; run;
      rewrite Hupd; run; rewrite Hcommit; run;
      (repeat split; exact Hdoc).
Qed.

(** X12.  When the commit raises in [delete_user], after the document
    was deleted: the answer is the 500 of the geospatial database, no
    event is published, the document is gone and the table, with the row
    of the user if it had one, is what it was before. *)
Theorem delete_user_commit_failure_keeps_row :
  forall e w user_id (old : gmap string pyval),
    ready w -> users w !! user_id = Some old ->
    get_raises e = false -> query_raises e = false ->
    delete_raises e = false -> commit_raises e = true ->
    let r := delete_user e user_id w in
    out r = Ret (ServerError "Erro no banco de dados geoespacial: " SQLAlchemyError)
    /\ users (final r) !! user_id = None
    /\ user_locations (final r) = user_locations w
    /\ session_rows (final r) = user_locations w
    /\ publish_calls (trace r) = [].
Proof.
  intros e w user_id old [Hdb Hs] Hold Hget Hquery Hdel Hcommit r. subst r.
  run. rewrite Hdb, Hs. run. rewrite Hget. run. rewrite Hold. rewrite Hquery. run.
  destruct (List.find _ _); run; rewrite Hdel; run; rewrite Hcommit; run;
    (repeat split; apply lookup_delete_eq).
Qed.

End CommitFailure.


(** ** What the producer is handed *)

Section Messages.

Lemma off_bus_ret {A} (a : A) : off_bus (ret a).
Proof. intros w. split; reflexivity. Qed.

Lemma off_bus_lift {A} (o : outcome A) : off_bus (lift o).
Proof. intros w. split; reflexivity. Qed.

Lemma off_bus_bind {A B} (m : M A) (f : A -> M B) :
  off_bus m -> (forall a, off_bus (f a)) -> off_bus (bind m f).
Proof.
  intros Hm Hf w. unfold bind. destruct (Hm w) as [Hp Hq].
  destruct (m w) as [[a|ex] w1 t1]; cbn [final] in *; [|auto].
  destruct (Hf a w1) as [Hp' Hq']. destruct (f a w1) as [o2 w2 t2].
  cbn [final] in *. split; congruence.
Qed.

Lemma off_bus_try {A} (m : M A) (h : exn -> M A) :
  off_bus m -> (forall ex, off_bus (h ex)) -> off_bus (try_except m h).
Proof.
  intros Hm Hh w. unfold try_except. destruct (Hm w) as [Hp Hq].
  destruct (m w) as [[a|ex] w1 t1]; cbn [final] in *; [auto|].
  destruct (Hh ex w1) as [Hp' Hq']. destruct (h ex w1) as [o2 w2 t2].
  cbn [final] in *. split; congruence.
Qed.

Lemma off_bus_get_world {A} (f : world -> M A) :
  (forall w, off_bus (f w)) -> off_bus (bind get_world f).
Proof.
  intros Hf w. unfold bind, get_world. destruct (Hf w w) as [Hp Hq].
  destruct (f w w) as [o2 w2 t2]. cbn [final] in *. auto.
Qed.

Ltac off_bus_step :=
  let w := fresh "w" in
  intros w; destruct w as [? ? ? ? ? ? ?];
  cbv beta iota zeta delta
    [doc_get doc_set doc_update doc_delete session_add session_query_first
     session_assign session_delete session_commit session_rollback
     session_execute with_users with_user_locations with_session_rows];
  cbn [db db_session producer users user_locations session_rows produced];
  repeat match goal with
         | |- context [if ?c then _ else _] => destruct c
         | |- context [match ?x with _ => _ end] => destruct x
         end;
  split; reflexivity.

Lemma off_bus_doc_get e id : off_bus (doc_get e id).
Proof. off_bus_step. Qed.

Lemma off_bus_doc_set e id data : off_bus (doc_set e id data).
Proof. off_bus_step. Qed.

Lemma off_bus_doc_update e id data : off_bus (doc_update e id data).
Proof. off_bus_step. Qed.

Lemma off_bus_doc_delete e id : off_bus (doc_delete e id).
Proof. off_bus_step. Qed.

Lemma off_bus_session_add r : off_bus (session_add r).
Proof. off_bus_step. Qed.

Lemma off_bus_session_query e id : off_bus (session_query_first e id).
Proof. off_bus_step. Qed.

Lemma off_bus_session_assign r wkt : off_bus (session_assign r wkt).
Proof. off_bus_step. Qed.

Lemma off_bus_session_delete r : off_bus (session_delete r).
Proof. off_bus_step. Qed.

Lemma off_bus_session_commit e : off_bus (session_commit e).
Proof. off_bus_step. Qed.

Lemma off_bus_session_rollback : off_bus session_rollback.
Proof. off_bus_step. Qed.

Lemma off_bus_session_execute e : off_bus (session_execute e).
Proof. off_bus_step. Qed.

Ltac off_bus_steps :=
  repeat first
    [ apply off_bus_ret | apply off_bus_lift
    | apply off_bus_doc_get | apply off_bus_doc_set | apply off_bus_doc_update
    | apply off_bus_doc_delete | apply off_bus_session_add
    | apply off_bus_session_query | apply off_bus_session_assign
    | apply off_bus_session_delete | apply off_bus_session_commit
    | apply off_bus_session_rollback | apply off_bus_session_execute
    | apply off_bus_get_world; intros ?
    | apply off_bus_bind; [|intros ?]
    | apply off_bus_try; [|intros ?]
    | match goal with
      | |- off_bus (if ?c then _ else _) => destruct c
      | |- off_bus (match ?x with _ => _ end) => destruct x
      end ].

Lemma off_bus_get_health_status e : off_bus (get_health_status e).
Proof. unfold get_health_status. off_bus_steps. Qed.

Lemma off_bus_get_user e user_id : off_bus (get_user e user_id).
Proof. unfold get_user. off_bus_steps. Qed.

Section Tail.

Variables (e : env) (event_type user_id : string) (data : pyval).


Lemma tail_bind {A} (m : M A) (f : A -> M response) :
  off_bus m -> (forall a, tail_of e event_type user_id data (f a)) ->
  tail_of e event_type user_id data (bind m f).
Proof.
  intros Hm Hf w. unfold bind. destruct (Hm w) as [Hp Hq].
  destruct (m w) as [[a|ex] w1 t1]; cbn [final] in *.
  - specialize (Hf a w1). unfold hands_over in *.
    destruct (f a w1) as [o2 w2 t2]. cbn [out final] in *.
    rewrite <- Hp, <- Hq. exact Hf.
  - exact Hq.
Qed.

Lemma tail_get_world (f : world -> M response) :
  (forall w, tail_of e event_type user_id data (f w)) ->
  tail_of e event_type user_id data (bind get_world f).
Proof.
  intros Hf w. unfold bind, get_world. specialize (Hf w w).
  unfold hands_over in *. destruct (f w w) as [o2 w2 t2]. exact Hf.
Qed.

Lemma tail_try (m : M response) (h : exn -> M response) :
  tail_of e event_type user_id data m -> (forall ex, off_bus (h ex)) ->
  (forall ex w, is_success (out (h ex w)) = false) ->
  tail_of e event_type user_id data (try_except m h).
Proof.
  intros Hm Hh Hfail w. unfold try_except. specialize (Hm w).
  unfold hands_over in *.
  destruct (m w) as [[a|ex] w1 t1]; cbn [out final is_success andb] in *;
    [exact Hm|].
  specialize (Hfail ex w1). destruct (Hh ex w1) as [_ Hq].
  destruct (h ex w1) as [o2 w2 t2]. cbn [out final] in *.
  rewrite Hfail. cbn [andb]. congruence.
Qed.

Lemma tail_ret (resp : response) :
  is_success (Ret resp) = false -> tail_of e event_type user_id data (ret resp).
Proof.
  intros H w. unfold hands_over, ret. cbn [out final]. rewrite H. reflexivity.
Qed.

Lemma tail_publish (resp : response) :
  is_success (Ret resp) = true ->
  tail_of e event_type user_id data
    (publish_event e "eventos_usuarios" event_type user_id data VNone ;;
     ret resp).
Proof.
  intros H w. unfold hands_over, bind, ret, publish_event.
  change (Py.truthy VNone) with false.
  destruct (producer w) eqn:Hp, (produce_raises e) eqn:Hr;
    cbn [negb]; cbv beta iota zeta; cbn [out final with_produced produced];
    rewrite H; cbn [andb negb]; try reflexivity.
  eexists. split; [reflexivity|].
  unfold announces. cbn [topic key value].
  repeat split; reflexivity.
Qed.

End Tail.

Ltac tail_steps :=
  repeat first
    [ apply tail_publish; reflexivity
    | apply tail_ret; reflexivity
    | apply tail_get_world; intros ?
    | apply tail_bind;
        [solve [off_bus_steps; apply off_bus_get_health_status]|intros ?]
    | apply tail_try;
        [|intros ?; unfold rollback_and_report; solve [off_bus_steps]
         |intros ? ?; reflexivity]
    | match goal with
      | |- tail_of _ _ _ _ (if ?c then _ else _) => destruct c
      | |- tail_of _ _ _ _ (match ?x with _ => _ end) => destruct x
      end ].

(** X13.  A create, an update or a delete hands the producer exactly one
    message when it answered 201, 200 or 204, a producer is bound and
    producing does not raise, and nothing otherwise.  The message is on
    the topic [eventos_usuarios], keyed by the id of the user, and holds
    the event type, the time, the id, the body of the request (for a
    delete, the id) and the name of the service, and no [changes].
    [get_user] hands over nothing. *)
Theorem writes_hand_over_one_message :
  forall e w user_id data,
    hands_over e "UserCreated" (uuid4 e) data w (create_user e data w)
    /\ hands_over e "UserUpdated" user_id data w (update_user e user_id data w)
    /\ hands_over e "UserDeleted" user_id
         (VDict (<["user_id" := VStr user_id]> ∅)) w (delete_user e user_id w)
    /\ produced (final (get_user e user_id w)) = produced w.
Proof.
  intros e w user_id data. repeat apply conj.
  - revert w. change (tail_of e "UserCreated" (uuid4 e) data (create_user e data)).
    unfold create_user, create_user_try. tail_steps.
  - revert w. change (tail_of e "UserUpdated" user_id data
                              (update_user e user_id data)).
    unfold update_user, update_user_try, update_user_location. tail_steps.
  - revert w. change (tail_of e "UserDeleted" user_id
                              (VDict (<["user_id" := VStr user_id]> ∅))
                              (delete_user e user_id)).
    unfold delete_user, delete_user_try. tail_steps.
  - apply off_bus_get_user.
Qed.

End Messages.


(** ** The fields of a document *)

Section Fields.

(** What a [201] tells: the body was an object and its fields, without
    [location] and with the two timestamps, are the new document. *)
Lemma created_inv e w data id :
  out (create_user e data w) = Ret (Created id) ->
  exists d : gmap string pyval,
    data = VDict d /\ id = uuid4 e
    /\ users (final (create_user e data w))
       = <[uuid4 e := resolve e (<["updated_at" := VServerTimestamp]>
                                 (<["created_at" := VServerTimestamp]>
                                 (delete "location" d)))]> (users w).
Proof.
  destruct data; cases; intros H; try discriminate H;
    injection H as <-; eexists; repeat split.
Qed.

(** What a [200] of [get_user] tells. *)
Lemma fetched_inv e w id user_data :
  out (get_user e id w) = Ret (Fetched user_data) ->
  exists fields : gmap string pyval,
    users w !! id = Some fields
    /\ forall k, k <> "location" ->
         user_data !! k = <["id" := VStr id]> fields !! k.
Proof.
  cases; try (destruct (Wkt.to_shape _); run); intros H; try discriminate H;
    injection H as <-; eexists; (split; [reflexivity|]); intros k Hk;
    rewrite ?lookup_insert_ne by congruence; reflexivity.
Qed.

(** What a [200] of [update_user] tells. *)
Lemma updated_inv e w user_id data id :
  out (update_user e user_id data w) = Ret (Updated id) ->
  exists d old : gmap string pyval,
    data = VDict d /\ id = user_id /\ users w !! user_id = Some old
    /\ users (final (update_user e user_id data w))
       = <[user_id := update_document (resolve e (update_fields d)) old]> (users w).
Proof.
  assert (Hstamp : forall m : gmap string pyval,
             Py.truthy (VDict (<["updated_at" := VServerTimestamp]> m)) <> false).
  { intros m H. erewrite truthy_dict in H by apply lookup_insert_eq. discriminate. }
  unfold update_fields.
  destruct data; cases; intros H; try discriminate H;
    injection H as <-;
    try match goal with
        | Hf : Py.truthy (VDict (<["updated_at" := _]> _)) = false |- _ =>
            destruct (Hstamp _ Hf)
        end;
    eexists _, _; repeat split; try eassumption; congruence.
Qed.

(** X14.  When [create_user] answered 201 with an id and [get_user] then
    answers that user: the body was an object; [id] is the generated id
    and [created_at] and [updated_at] are the time of the store, whatever
    the body held under these three keys; every other field except
    [location] is the field of the body as the store keeps it. *)
Theorem create_then_get_fields :
  forall e e' w data id user_data,
    out (create_user e data w) = Ret (Created id) ->
    out (get_user e' id (final (create_user e data w))) = Ret (Fetched user_data) ->
    exists d : gmap string pyval,
      data = VDict d
      /\ user_data !! "id" = Some (VStr id)
      /\ user_data !! "created_at" = Some (VDatetime (server_timestamp e))
      /\ user_data !! "updated_at" = Some (VDatetime (server_timestamp e))
      /\ forall k, k <> "id" -> k <> "location" ->
           k <> "created_at" -> k <> "updated_at" ->
           user_data !! k = resolve e d !! k.
Proof.
  intros e e' w data id user_data Hcreate Hget.
  destruct (created_inv _ _ _ _ Hcreate) as (d & -> & -> & Husers).
  destruct (fetched_inv _ _ _ _ Hget) as (fields & Hdoc & Hfetched).
  rewrite Husers, lookup_insert_eq in Hdoc. injection Hdoc as <-.
  exists d. split; [reflexivity|]. unfold resolve in *.
  split; [rewrite Hfetched by discriminate; apply lookup_insert_eq|].
  split.
  { rewrite Hfetched by discriminate. rewrite lookup_insert_ne by discriminate.
    rewrite lookup_fmap, lookup_insert_ne by discriminate.
    rewrite lookup_insert_eq. reflexivity. }
  split.
  { rewrite Hfetched by discriminate. rewrite lookup_insert_ne by discriminate.
    rewrite lookup_fmap, lookup_insert_eq. reflexivity. }
  intros k Hid Hloc Hcreated Hupdated.
  rewrite Hfetched by exact Hloc. rewrite lookup_insert_ne by congruence.
  rewrite !lookup_fmap, !lookup_insert_ne by congruence.
  rewrite lookup_delete_ne by congruence. reflexivity.
Qed.

(** X15.  When [update_user] answered 200: the body was an object and
    the user had a document; the documents of the other users are
    untouched; and when the keys sent are field paths, the document now
    holds the time of the store under [updated_at], at the path of every
    key of the body except [location] the value of the body, and at
    every path that is apart from the paths of all keys sent what it
    held before. *)
Theorem update_merges_fields :
  forall e w user_id data id,
    let r := update_user e user_id data w in
    out r = Ret (Updated id) ->
    exists d old doc : gmap string pyval,
      data = VDict d /\ users w !! user_id = Some old
      /\ users (final r) !! user_id = Some doc
      /\ (forall other, other <> user_id ->
            users (final r) !! other = users w !! other)
      /\ (field_paths (update_fields d) = true ->
          doc !! "updated_at" = Some (VDatetime (server_timestamp e))
          /\ (forall k, k <> "updated_at" -> k <> "location" -> is_Some (d !! k) ->
                read_field (field_path k) doc = resolve e d !! k)
          /\ forall p,
               (forall k, is_Some (update_fields d !! k) ->
                  apart p (field_path k) = true) ->
               read_field p doc = read_field p old).
Proof.
  intros e w user_id data id r Hout. subst r.
  destruct (updated_inv _ _ _ _ _ Hout) as (d & old & -> & -> & Hold & Husers).
  eexists d, old, _. split; [reflexivity|]. split; [exact Hold|].
  split; [rewrite Husers; apply lookup_insert_eq|].
  split.
  { intros other Hother. rewrite Husers. apply lookup_insert_ne. congruence. }
  intros Hpaths.
  split; [exact (updated_document_stamp e d old Hpaths)|].
  split; [intros k; apply updated_document_field, Hpaths|].
  exact (proj2 (updated_document_reads e _ old Hpaths)).
Qed.

End Fields.


(** Picks the disjunct that holds by computation. *)
Ltac one_of :=
  repeat first [left; solve [reflexivity | eexists; reflexivity] | right];
  solve [reflexivity | eexists; reflexivity].

Section Partial.

(** X16.  An update whose location lacks the latitude or the longitude
    is answered 200 all the same: the table is unchanged and the session
    is not called before the commit.  When the keys sent are field paths
    of which none names [location] or a field inside it, the field
    [location] of the document is what it was, so the partial location
    is dropped. *)
Theorem update_without_coordinates_keeps_rows :
  forall e w user_id (d loc old : gmap string pyval),
    ready w -> settled w -> quiet e = true ->
    users w !! user_id = Some old ->
    d !! "location" = Some (VDict loc) ->
    loc !! "latitude" = None \/ loc !! "longitude" = None ->
    let r := update_user e user_id (VDict d) w in
    out r = Ret (Updated user_id)
    /\ user_locations (final r) = user_locations w
    /\ Forall (fun x => call_of x = DocGet user_id
                        \/ (exists fields, call_of x = DocUpdate user_id fields)
                        \/ call_of x = SessionCommit
                        \/ (exists data, call_of x
                             = PublishEvent "eventos_usuarios" "UserUpdated"
                                 user_id data)
                        \/ exists m, call_of x = Produce m) (trace r)
    /\ forall doc, users (final r) !! user_id = Some doc ->
         field_paths (update_fields d) = true ->
         leaves "location" (update_fields d) = true ->
         doc !! "location" = old !! "location".
Proof.
  intros e w user_id d loc old [Hdb Hs] [Hclean Hpk] He Hold Hloc Hmiss r.
  apply quiet_inv in He as (Hget & _ & Hupd & _ & _ & Hcommit).
  assert (Htruthy : Py.truthy (VDict (<["updated_at" := VServerTimestamp]>
                                      (delete "location" d))) = true).
  { eapply truthy_dict, lookup_insert_eq. }
  pose proof (updated_document_leaves e (update_fields d) old "location") as Hkept.
  unfold update_fields in *.
  subst r. run. rewrite Hdb, Hs. run.
  rewrite (truthy_dict _ _ _ Hloc). run. rewrite Hget. run. rewrite Hold.
  rewrite Hloc. cbn [default from_option id].
  rewrite (has_coordinates_missing _ Hmiss). run.
  rewrite Htruthy. run. rewrite Hold. run. rewrite Hupd. run.
  rewrite Hcommit. run. rewrite Hclean, Hpk. run.
  destruct (producer w); run; [destruct (produce_raises e); run|];
    (split; [reflexivity|]); (split; [reflexivity|]);
    (split; [repeat (apply List.Forall_cons; [cbn [call_of]; one_of|]);
             apply List.Forall_nil|]);
    intros doc; rewrite lookup_insert_eq; intros [= <-]; exact Hkept.
Qed.

End Partial.


(** ** Requests one after the other *)

Section RoundTrips.

Lemma delete_location_fresh id rows :
  rows_of id rows = [] -> delete_location id rows = rows.
Proof.
  unfold rows_of, delete_location. induction rows as [|r rows IH]; [reflexivity|].
  cbn [List.filter]. destruct (has_id id r); [discriminate|].
  cbn [negb]. intros H. rewrite (IH H). reflexivity.
Qed.

Lemma delete_location_added id wkt rows :
  rows_of id rows = [] ->
  delete_location id (rows ++ [UserLocation.New id wkt]) = rows.
Proof.
  intros H. unfold delete_location. rewrite List.filter_app.
  fold (delete_location id rows). rewrite (delete_location_fresh _ _ H).
  cbn [List.filter]. rewrite has_id_new. apply List.app_nil_r.
Qed.

Lemma find_assign id wkt rows r :
  List.find (has_id id) rows = Some r ->
  List.find (has_id id) (assign_location id wkt rows)
  = Some (UserLocation.New id wkt).
Proof.
  unfold assign_location. induction rows as [|r0 rows IH]; [discriminate|].
  cbn [List.find List.map]. destruct (has_id id r0) eqn:E.
  - intros _. rewrite has_id_new. reflexivity.
  - rewrite E. exact IH.
Qed.

(** The state a successful [create_user] leaves. *)
Lemma create_user_quiet e w (d : gmap string pyval) :
  ready w -> settled w -> set_raises e = false -> commit_raises e = false ->
  rows_of (uuid4 e) (user_locations w) = [] ->
  is_Some (d !! "email") -> is_Some (d !! "name") ->
  d !! "location" = None \/ (exists loc, d !! "location" = Some (VDict loc)) ->
  exists staged,
    (staged = [] \/ exists wkt, staged = [UserLocation.New (uuid4 e) wkt])
    /\ out (create_user e (VDict d) w) = Ret (Created (uuid4 e))
    /\ users (final (create_user e (VDict d) w))
       = <[uuid4 e := resolve e (<["updated_at" := VServerTimestamp]>
                                 (<["created_at" := VServerTimestamp]>
                                 (delete "location" d)))]> (users w)
    /\ user_locations (final (create_user e (VDict d) w))
       = user_locations w ++ staged
    /\ session_rows (final (create_user e (VDict d) w))
       = user_locations w ++ staged
    /\ db (final (create_user e (VDict d) w)) = true
    /\ db_session (final (create_user e (VDict d) w)) = true.
Proof.
  intros Hready [Hclean Hpk] Hset Hcommit Hfresh Hemail Hname Hloc.
  rewrite (create_user_enters_try e w d Hready Hemail Hname).
  destruct Hready as [Hdb Hs].
  destruct (location_of_object d Hloc) as [Hno|(Hyes & wkt & Hwkt)].
  - exists []. split; [left; reflexivity|].
    run. rewrite Hno. run. rewrite Hset. run. rewrite Hcommit. run.
    rewrite Hclean, Hpk. run.
    destruct (producer w); run; [destruct (produce_raises e); run|];
      rewrite Hdb, Hs, List.app_nil_r; auto 10.
  - exists [UserLocation.New (uuid4 e) (wkt e)]. split; [right; eauto|].
    run. rewrite Hyes. run. rewrite Hwkt. run. rewrite Hset. run.
    rewrite Hcommit. run. rewrite Hclean, (primary_key_add _ _ _ Hpk Hfresh). run.
    destruct (producer w); run; [destruct (produce_raises e); run|];
      rewrite Hdb, Hs; auto 10.
Qed.

(** X17.  A user created under a fresh id and deleted again leaves the
    documents, the table and the session as they were before the
    creation, with or without a location in the body. *)
Theorem create_then_delete_restores_stores :
  forall e e' w (d : gmap string pyval),
    ready w -> settled w -> quiet e = true -> quiet e' = true ->
    users w !! uuid4 e = None ->
    rows_of (uuid4 e) (user_locations w) = [] ->
    is_Some (d !! "email") -> is_Some (d !! "name") ->
    d !! "location" = None \/ (exists loc, d !! "location" = Some (VDict loc)) ->
    let r := create_user e (VDict d) w in
    let r' := delete_user e' (uuid4 e) (final r) in
    out r = Ret (Created (uuid4 e))
    /\ out r' = Ret Deleted
    /\ stores (final r') = stores w.
Proof.
  intros e e' w d Hready Hsettled He He' Hnew Hfresh Hemail Hname Hloc r r'.
  apply quiet_inv in He as (_ & Hset & _ & _ & _ & Hcommit).
  apply quiet_inv in He' as (Hget & _ & _ & Hdel & Hquery & Hcommit').
  destruct (create_user_quiet e w d Hready Hsettled Hset Hcommit Hfresh
              Hemail Hname Hloc)
    as (staged & Hstaged & Hout & Husers & Hrows & Hsess & Hdb' & Hs').
  fold r in Hout, Husers, Hrows, Hsess, Hdb', Hs'.
  destruct Hsettled as [Hclean Hpk].
  split; [exact Hout|]. subst r'. unfold stores.
  run. rewrite Hdb', Hs'. run. rewrite Hget. run.
  rewrite Husers, lookup_insert_eq, Hquery. run. rewrite Hsess.
  destruct Hstaged as [->|[wkt ->]].
  - rewrite List.app_nil_r. apply find_rows_of in Hfresh. rewrite Hfresh. run.
    rewrite Hdel. run. rewrite Hcommit'. run.
    rewrite Hsess, List.app_nil_r, Hpk. run.
    rewrite ?Husers, (delete_insert_id _ _ _ Hnew), ?Hclean.
    destruct (producer (final r)); run; [destruct (produce_raises e'); run|];
      auto.
  - rewrite (find_app_new _ _ _ Hfresh). run.
    rewrite Hdel. run. rewrite Hcommit'. run.
    rewrite Hsess, (delete_location_added _ _ _ Hfresh), Hpk. run.
    rewrite ?Husers, (delete_insert_id _ _ _ Hnew), ?Hclean.
    destruct (producer (final r)); run; [destruct (produce_raises e'); run|];
      auto.
Qed.

(** The state a successful [update_user] with a point leaves. *)
Lemma update_user_quiet_located e w user_id (d loc old : gmap string pyval) lat lon :
  ready w -> settled w -> quiet e = true ->
  users w !! user_id = Some old ->
  d !! "location" = Some (VDict loc) ->
  loc !! "latitude" = Some lat -> loc !! "longitude" = Some lon ->
  let wkt := Wkt.wkt_point (Py.str (str_other e) lon) (Py.str (str_other e) lat) in
  let r := update_user e user_id (VDict d) w in
  out r = Ret (Updated user_id)
  /\ is_Some (users (final r) !! user_id)
  /\ List.find (has_id user_id) (session_rows (final r))
     = Some (UserLocation.New user_id wkt)
  /\ db (final r) = true /\ db_session (final r) = true.
Proof.
  intros [Hdb Hs] [Hclean Hpk] He Hold Hloc Hlat Hlon wkt r.
  apply quiet_inv in He as (Hget & _ & Hupd & _ & Hquery & Hcommit).
  assert (Htruthy : forall m : gmap string pyval,
             Py.truthy (VDict (<["updated_at" := VServerTimestamp]> m)) = true).
  { intros m. eapply truthy_dict, lookup_insert_eq. }
  subst r. run. rewrite Hdb, Hs. run.
  rewrite (truthy_dict _ _ _ Hloc). run. rewrite Hget. run. rewrite Hold.
  rewrite Hloc. cbn [default from_option id].
  rewrite (has_coordinates_dict _ _ _ Hlat Hlon). run.
  rewrite (wkt_point_dict _ _ _ _ Hlat Hlon). run.
  rewrite Hquery. run. rewrite Hclean.
  destruct (List.find (has_id user_id) (user_locations w)) as [r0|] eqn:Hfind; run.
  - assert (Hid : UserLocation.user_id r0 = user_id).
    { apply List.find_some in Hfind as [_ H]. apply String.eqb_eq, H. }
    rewrite Htruthy. run. rewrite Hold. run. rewrite Hupd. run.
    rewrite Hcommit. run. rewrite Hid, Hclean, primary_key_assign, Hpk. run.
    destruct (producer w); run; [destruct (produce_raises e); run|];
      rewrite ?Hid, ?Hclean, lookup_insert_eq, (find_assign _ _ _ _ Hfind);
      eauto 10.
  - assert (Hfresh : rows_of user_id (user_locations w) = []).
    { apply find_rows_of, Hfind. }
    rewrite Htruthy. run. rewrite Hold. run. rewrite Hupd. run.
    rewrite Hcommit. run. rewrite ?Hclean, (primary_key_add _ _ _ Hpk Hfresh). run.
    destruct (producer w); run; [destruct (produce_raises e); run|];
      rewrite ?Hclean, lookup_insert_eq, (find_app_new _ _ _ Hfresh); eauto 10.
Qed.

(** X18.  After an update with a latitude and a longitude that are
    numbers, finite floats or ints, [get_user] answers the user with the
    floats their numerals in the row are read as, whether the user had a
    row before or not: a float comes back as the same float, an int of a
    magnitude up to [2^53] as the float of the same value. *)
Theorem update_then_get_location :
  forall e e' w user_id (d loc old : gmap string pyval) lat lon xlat xlon,
    ready w -> settled w -> quiet e = true -> quiet e' = true ->
    users w !! user_id = Some old ->
    d !! "location" = Some (VDict loc) ->
    loc !! "latitude" = Some lat -> loc !! "longitude" = Some lon ->
    number lat xlat -> number lon xlon ->
    let r := update_user e user_id (VDict d) w in
    out r = Ret (Updated user_id)
    /\ (exists user_data,
         out (get_user e' user_id (final r)) = Ret (Fetched user_data)
         /\ user_data !! "location"
            = Some (VDict (<["latitude" := VFloat (Float.repr xlat)]>
                          (<["longitude" := VFloat (Float.repr xlon)]> ∅))))
    /\ (within_2_53 lat -> same_number lat xlat)
    /\ (within_2_53 lon -> same_number lon xlon).
Proof.
  intros e e' w user_id d loc old lat lon xlat xlon Hready Hsettled He He'
    Hold Hloc Hlat Hlon Hxlat Hxlon r.
  destruct (update_user_quiet_located e w user_id d loc old lat lon
              Hready Hsettled He Hold Hloc Hlat Hlon)
    as (Hout & [doc Hdoc] & Hfind & Hdb' & Hs').
  fold r in Hout, Hdoc, Hfind, Hdb', Hs'.
  apply quiet_inv in He' as (Hget & _ & _ & _ & Hquery & _).
  destruct (number_text (str_other e) _ _ Hxlat) as [Hsp_lat Hrd_lat].
  destruct (number_text (str_other e) _ _ Hxlon) as [Hsp_lon Hrd_lon].
  split; [exact Hout|].
  split; [|split; apply number_same; assumption].
  eexists. split.
  - run. rewrite Hdb', Hs'. run. rewrite Hget. run. rewrite Hdoc. run.
    rewrite Hquery. run. rewrite Hfind. cbn [UserLocation.location].
    rewrite (to_shape_wkt_point _ _ Hsp_lon), Hrd_lon, Hrd_lat. run.
    cbn [Wkt.x Wkt.y]. reflexivity.
  - apply lookup_insert_eq.
Qed.

End RoundTrips.

(** ** The further properties on the sample requests *)

(** A start-up without the credentials of Firestore. *)
Lemma start_without_credentials_closes_endpoints_witness :
  let w := start boot_without_firebase empty_world in
  out (create_user quiet_env (VDict alice) w) = Ret Unavailable
  /\ stores (final (create_user quiet_env (VDict alice) w)) = stores empty_world
  /\ get_user quiet_env "7c9e6679" w = Run (Ret Unavailable) w []
  /\ update_user quiet_env "7c9e6679" (VDict alice) w = Run (Ret Unavailable) w []
  /\ delete_user quiet_env "7c9e6679" w = Run (Ret Unavailable) w [].
Proof.
  destruct (start_without_credentials_closes_endpoints boot_without_firebase
              empty_world quiet_env "7c9e6679" (VDict alice))
    as (Hcreate & Hstores & _ & Hget & Hupdate & Hdelete);
    [left; reflexivity|].
  exact (conj Hcreate (conj Hstores (conj Hget (conj Hupdate Hdelete)))).
Defined.

(** An update and a delete in the empty stores. *)
Lemma missing_user_is_not_found_witness :
  update_user quiet_env "7c9e6679" (VDict move_update) empty_world
  = Run (Ret NotFound) empty_world [Done (DocGet "7c9e6679")]
  /\ delete_user quiet_env "7c9e6679" empty_world
     = Run (Ret NotFound) empty_world [Done (DocGet "7c9e6679")].
Proof.
  destruct (missing_user_is_not_found quiet_env empty_world "7c9e6679"
              (VDict move_update)) as [Hupdate Hdelete];
    [split; reflexivity | reflexivity | reflexivity |].
  exact (conj (Hupdate eq_refl) Hdelete).
Defined.

(** The body [5]. *)
Lemma body_that_is_no_object_witness :
  (final (create_user quiet_env (VInt 5) world_with_alice) = world_with_alice
   /\ trace (create_user quiet_env (VInt 5) world_with_alice) = [])
  /\ trace (update_user quiet_env "7c9e6679" (VInt 5) world_with_alice)
     = [Done (DocGet "7c9e6679"); Done SessionRollback]
  /\ users (final (update_user quiet_env "7c9e6679" (VInt 5) world_with_alice))
     = users world_with_alice.
Proof.
  destruct (body_that_is_no_object quiet_env world_with_alice "7c9e6679" (VInt 5)
              alice_document) as [(Hfinal & Htrace & _) Hupdate];
    [split; reflexivity | intros d; discriminate |].
  destruct (Hupdate eq_refl eq_refl eq_refl) as (_ & Htrace' & Husers & _).
  exact (conj (conj Hfinal Htrace) (conj Htrace' Husers)).
Defined.

(** The commit fails after the document of alice was written. *)
Lemma create_user_commit_failure_keeps_document_witness :
  let r := create_user commit_fails_env (VDict alice) empty_world in
  out r = Ret (ServerError "Erro no banco de dados geoespacial: " SQLAlchemyError)
  /\ is_Some (users (final r) !! "7c9e6679")
  /\ user_locations (final r) = []
  /\ session_rows (final r) = []
  /\ publish_calls (trace r) = [].
Proof.
  destruct (create_user_commit_failure_keeps_document commit_fails_env empty_world
              alice) as (Hout & Hdoc & Hrows & Hsession & Hpublish);
    [ split; reflexivity | eexists; reflexivity | eexists; reflexivity
    | right; eexists; reflexivity | reflexivity | reflexivity |].
  exact (conj Hout (conj (ex_intro _ _ Hdoc) (conj Hrows (conj Hsession Hpublish)))).
Defined.

(** The commit fails after the document of alice was updated. *)
Lemma update_user_commit_failure_keeps_document_witness :
  let r := update_user commit_fails_env "7c9e6679" (VDict city_update)
             world_with_alice in
  out r = Ret (ServerError "Erro no banco de dados geoespacial: " SQLAlchemyError)
  /\ (exists doc,
       users (final r) !! "7c9e6679" = Some doc
       /\ doc !! "updated_at" = Some (VDatetime "2026-01-01T00:00:00Z")
       /\ read_field ["address"; "city"] doc = Some (VStr "SP"))
  /\ user_locations (final r) = user_locations world_with_alice
  /\ session_rows (final r) = user_locations world_with_alice
  /\ publish_calls (trace r) = [].
Proof.
  destruct (update_user_commit_failure_keeps_document commit_fails_env
              world_with_alice "7c9e6679" city_update alice_document)
    as (Hout & (doc & Hdoc & Hstamp & Hfields) & Hrows & Hsession & Hpublish);
    [ split; reflexivity | reflexivity | reflexivity
    | left; reflexivity
    | reflexivity | reflexivity | reflexivity | reflexivity | reflexivity |].
  refine (conj Hout (conj _ (conj Hrows (conj Hsession Hpublish)))).
  exists doc. refine (conj Hdoc (conj Hstamp _)).
  apply (Hfields "address.city"); [discriminate|discriminate|].
  eexists. reflexivity.
Defined.

(** The commit fails after the document of alice was deleted. *)
Lemma delete_user_commit_failure_keeps_row_witness :
  let r := delete_user commit_fails_env "7c9e6679" world_with_alice in
  out r = Ret (ServerError "Erro no banco de dados geoespacial: " SQLAlchemyError)
  /\ users (final r) !! "7c9e6679" = None
  /\ user_locations (final r)
     = [UserLocation.New "7c9e6679" "POINT(-46.6 -23.5)"]
  /\ publish_calls (trace r) = [].
Proof.
  destruct (delete_user_commit_failure_keeps_row commit_fails_env world_with_alice
              "7c9e6679" alice_document)
    as (Hout & Hdoc & Hrows & _ & Hpublish);
    [ split; reflexivity | reflexivity
    | reflexivity | reflexivity | reflexivity | reflexivity |].
  exact (conj Hout (conj Hdoc (conj Hrows Hpublish))).
Defined.

(** Alice as [get_user] answers her after [create_user]. *)
Lemma create_then_get_fields_witness :
  exists d : gmap string pyval,
    out (get_user quiet_env "7c9e6679" world_with_alice) = Ret (Fetched alice_fetched)
    /\ VDict alice = VDict d
    /\ alice_fetched !! "id" = Some (VStr "7c9e6679")
    /\ alice_fetched !! "created_at" = Some (VDatetime "2026-01-01T00:00:00Z")
    /\ alice_fetched !! "updated_at" = Some (VDatetime "2026-01-01T00:00:00Z")
    /\ alice_fetched !! "email" = resolve quiet_env d !! "email".
Proof.
  destruct (create_then_get_fields quiet_env quiet_env empty_world (VDict alice)
              "7c9e6679" alice_fetched eq_refl eq_refl)
    as (d & Hd & Hid & Hcreated & Hupdated & Hfields).
  exists d.
  exact (conj eq_refl
           (conj Hd (conj Hid (conj Hcreated (conj Hupdated
              (Hfields "email" ltac:(discriminate) ltac:(discriminate)
                       ltac:(discriminate) ltac:(discriminate))))))).
Defined.

(** The city of alice is written inside [address] and her name is
    changed; her email stays. *)
Lemma update_merges_fields_witness :
  let r := update_user quiet_env "7c9e6679" (VDict city_update) world_with_alice in
  exists d old doc : gmap string pyval,
    VDict city_update = VDict d
    /\ users world_with_alice !! "7c9e6679" = Some old
    /\ users (final r) !! "7c9e6679" = Some doc
    /\ doc !! "updated_at" = Some (VDatetime "2026-01-01T00:00:00Z")
    /\ read_field ["address"; "city"] doc = Some (VStr "SP")
    /\ read_field ["name"] doc = Some (VStr "B")
    /\ read_field ["email"] doc = read_field ["email"] old.
Proof.
  destruct (update_merges_fields quiet_env world_with_alice "7c9e6679"
              (VDict city_update) "7c9e6679" eq_refl)
    as (d & old & doc & Hd & Hold & Hdoc & _ & Hfields).
  exists d, old, doc.
  assert (d = city_update) as -> by (injection Hd as <-; reflexivity).
  destruct (Hfields eq_refl) as (Hstamp & Hin & Hout).
  refine (conj Hd (conj Hold (conj Hdoc (conj Hstamp (conj _ (conj _ _)))))).
  - apply (Hin "address.city"); [discriminate|discriminate|eexists; reflexivity].
  - apply (Hin "name"); [discriminate|discriminate|eexists; reflexivity].
  - apply Hout.
    exact (forallb_keys_of (fun key => apart ["email"] (field_path key))
             (update_fields city_update) eq_refl).
Defined.

Example field_path_of_dotted_key : field_path "address.city" = ["address"; "city"].
Proof. reflexivity. Qed.

(** A dotted key writes inside the map: the other fields of [address]
    and of the document stay. *)
Example update_document_inside_address :
  update_document (<["address.city" := VStr "SP"]> ∅) document_with_address
  = <["address" := VDict (<["city" := VStr "SP"]> (<["street" := VStr "Rua A"]> ∅))]>
    (<["name" := VStr "A"]> ∅).
Proof. vm_compute. reflexivity. Qed.

(** The client refuses a key that continues another one, and a key
    with an empty element. *)
Example field_paths_of_samples :
  field_paths city_update = true
  /\ field_paths (<["address" := VStr "x"]> (<["address.city" := VStr "SP"]> ∅)) = false
  /\ field_paths (<["address..city" := VStr "SP"]> ∅) = false.
Proof. repeat split; vm_compute; reflexivity. Qed.

(** A location without longitude. *)
Lemma update_without_coordinates_keeps_rows_witness :
  let r := update_user quiet_env "7c9e6679" (VDict half_location_update)
             world_with_alice in
  out r = Ret (Updated "7c9e6679")
  /\ user_locations (final r)
     = [UserLocation.New "7c9e6679" "POINT(-46.6 -23.5)"]
  /\ exists doc,
       users (final r) !! "7c9e6679" = Some doc
       /\ doc !! "location" = alice_document !! "location".
Proof.
  intros r.
  destruct (update_without_coordinates_keeps_rows quiet_env world_with_alice
              "7c9e6679" half_location_update
              (<["latitude" := VFloat "-10.0"]> ∅) alice_document)
    as (Hout & Hrows & _ & Hdoc);
    [ split; reflexivity | split; reflexivity | reflexivity | reflexivity
    | reflexivity | right; reflexivity |].
  refine (conj Hout (conj Hrows _)).
  exists (default ∅ (users (final r) !! "7c9e6679")).
  assert (H : users (final r) !! "7c9e6679"
              = Some (default ∅ (users (final r) !! "7c9e6679")))
    by (vm_compute; reflexivity).
  exact (conj H (Hdoc _ H eq_refl eq_refl)).
Defined.

(** Alice is created in the empty stores and deleted again. *)
Lemma create_then_delete_restores_stores_witness :
  out (delete_user quiet_env "7c9e6679" world_with_alice) = Ret Deleted
  /\ stores (final (delete_user quiet_env "7c9e6679" world_with_alice))
     = stores empty_world.
Proof.
  destruct (create_then_delete_restores_stores quiet_env quiet_env empty_world alice)
    as (_ & Hout & Hstores);
    [ split; reflexivity | split; reflexivity | reflexivity | reflexivity
    | reflexivity | reflexivity | eexists; reflexivity | eexists; reflexivity
    | right; eexists; reflexivity |].
  exact (conj Hout Hstores).
Defined.

(** Alice moves and is read again. *)
Lemma update_then_get_location_witness :
  let r := update_user quiet_env "7c9e6679" (VDict move_update) world_with_alice in
  out r = Ret (Updated "7c9e6679")
  /\ (exists user_data,
       out (get_user quiet_env "7c9e6679" (final r)) = Ret (Fetched user_data)
       /\ user_data !! "location"
          = Some (VDict (point_of (VFloat "-10.0") (VFloat "-20.0"))))
  /\ same_number (VFloat "-10.0") minus_10
  /\ same_number (VFloat "-20.0") minus_20.
Proof.
  assert (Hlat : Float.repr minus_10 = "-10.0") by (vm_compute; reflexivity).
  assert (Hlon : Float.repr minus_20 = "-20.0") by (vm_compute; reflexivity).
  assert (Hnlat : number (VFloat "-10.0") minus_10)
    by (rewrite <- Hlat; apply number_float; reflexivity).
  assert (Hnlon : number (VFloat "-20.0") minus_20)
    by (rewrite <- Hlon; apply number_float; reflexivity).
  destruct (update_then_get_location quiet_env quiet_env world_with_alice "7c9e6679"
              move_update (point_of (VFloat "-10.0") (VFloat "-20.0")) alice_document
              (VFloat "-10.0") (VFloat "-20.0") minus_10 minus_20
              (conj eq_refl eq_refl) (conj eq_refl eq_refl) eq_refl eq_refl
              eq_refl eq_refl eq_refl eq_refl Hnlat Hnlon)
    as (H1 & H2 & H3 & H4).
  rewrite Hlat, Hlon in H2.
  split; [exact H1|]. split; [exact H2|]. split; [exact (H3 I)|exact (H4 I)].
Defined.

(** A failing commit on the state that holds alice. *)
Lemma handlers_leave_session_settled_witness :
  settled (final (create_user commit_fails_env (VDict alice_on_grid) world_with_alice))
  /\ settled (final (get_user commit_fails_env "7c9e6679" world_with_alice))
  /\ settled (final (update_user commit_fails_env "7c9e6679" (VDict move_update)
                       world_with_alice))
  /\ settled (final (delete_user commit_fails_env "7c9e6679" world_with_alice)).
Proof.
  destruct (handlers_leave_session_settled commit_fails_env "7c9e6679"
              (VDict alice_on_grid) world_with_alice) as (Hcreate & Hget & _ & Hdelete);
    [split; reflexivity|].
  destruct (handlers_leave_session_settled commit_fails_env "7c9e6679"
              (VDict move_update) world_with_alice) as (_ & _ & Hupdate & _);
    [split; reflexivity|].
  exact (conj Hcreate (conj Hget (conj Hupdate Hdelete))).
Defined.
